(** * QaAI legal assistant: retrieval, citation verification and the workflow graph

A shallow embedding of
  - [apps/api/rag/citations.py]    (text normalisation, Jaccard similarity,
                                    citation verification and its cache),
  - [apps/api/rag/vector_store.py] (search, hybrid search, text splitting),
  - [apps/api/rag/retrievers.py]   (citations built from retrieval matches),
  - [apps/api/agents/nodes.py]     (the seven workflow nodes),
  - [apps/api/agents/graph.py]     (the workflow graph and its streaming run).

Conventions of the embedding.
  - A Python [str] is a [string] of ASCII characters; the character classes
    of [re] and of [str.split]/[str.strip] are the ASCII ones.
  - A Python [float] is an exact rational ([Q]); equality of scores is [==].
  - A Python [set] of strings is a [gset string]; a [dict] with insertion
    order that matters is an association list, otherwise a [gmap].
  - An exception is a value: [Raised msg]. *)

From Stdlib Require Import Ascii QArith Qround Lqa.
From stdpp Require Import base gmap sets list strings pretty.

Open Scope string_scope.

(** ** Python helpers used by several source files *)

Module Py.

(** [min(a, b)] returns its first argument unless the second is smaller. *)
Definition min (a b : Q) : Q := if Qle_bool a b then a else b.

(** [max(a, b)] returns its first argument unless the second is greater. *)
Definition max (a b : Q) : Q := if Qle_bool b a then a else b.

(** [max(a, b, c)]. *)
Definition max3 (a b c : Q) : Q := max (max a b) c.

(** The integer nearest to [y], ties to the even one. *)
Definition round_half_even (y : Q) : Z :=
  let lo := Qfloor y in
  match (y - inject_Z lo ?= 1 # 2)%Q with
  | Lt => lo
  | Gt => (lo + 1)%Z
  | Eq => if Z.even lo then lo else (lo + 1)%Z
  end.

(** [round(x, 3)]: the nearest multiple of 1/1000, ties to the even one. *)
Definition round3 (x : Q) : Q :=
  (inject_Z (round_half_even (x * 1000)) / 1000)%Q.

(** Character classes of [str.isspace] / [\s], [str.lower], [\d], [\w]. *)
Definition is_space (c : ascii) : bool :=
  let n := nat_of_ascii c in
  ((9 <=? n) && (n <=? 13) || (28 <=? n) && (n <=? 32))%nat.

Definition is_upper (c : ascii) : bool :=
  let n := nat_of_ascii c in ((65 <=? n) && (n <=? 90))%nat.

Definition is_lower (c : ascii) : bool :=
  let n := nat_of_ascii c in ((97 <=? n) && (n <=? 122))%nat.

Definition is_digit (c : ascii) : bool :=
  let n := nat_of_ascii c in ((48 <=? n) && (n <=? 57))%nat.

Definition is_word (c : ascii) : bool :=
  is_lower c || is_upper c || is_digit c || (nat_of_ascii c =? 95)%nat.

Definition lower_char (c : ascii) : ascii :=
  if is_upper c then ascii_of_nat (nat_of_ascii c + 32)%nat else c.

(** [s.lower()] *)
Fixpoint lower (s : string) : string :=
  match s with
  | EmptyString => EmptyString
  | String c r => String (lower_char c) (lower r)
  end.

(** [s.lstrip()], [s.rstrip()], [s.strip()] *)
Fixpoint lstrip (s : string) : string :=
  match s with
  | EmptyString => EmptyString
  | String c r => if is_space c then lstrip r else s
  end.

Fixpoint rstrip (s : string) : string :=
  match s with
  | EmptyString => EmptyString
  | String c r =>
      match rstrip r with
      | EmptyString => if is_space c then EmptyString else String c EmptyString
      | r' => String c r'
      end
  end.

Definition strip (s : string) : string := rstrip (lstrip s).

(** [s.split()]: the maximal runs of non-whitespace characters.  [w] is the
    word being read. *)
Fixpoint split_from (w : string) (s : string) : list string :=
  match s with
  | EmptyString => match w with EmptyString => [] | _ => [w] end
  | String c r =>
      if is_space c
      then match w with
           | EmptyString => split_from EmptyString r
           | _ => w :: split_from EmptyString r
           end
      else split_from (w +:+ String c EmptyString) r
  end.

Definition split (s : string) : list string := split_from EmptyString s.

(** [sep.join(words)] *)
Fixpoint join (sep : string) (ws : list string) : string :=
  match ws with
  | [] => EmptyString
  | [w] => w
  | w :: rest => w +:+ sep +:+ join sep rest
  end.

(** [not xs] of a list. *)
Definition empty {A} (xs : list A) : bool :=
  match xs with [] => true | _ => false end.

(** [bool(s)] of a string. *)
Definition truthy (s : string) : bool :=
  match s with EmptyString => false | _ => true end.

(** [xs[lo:hi]] with Python's treatment of negative and out-of-range
    bounds. *)
Definition clamp_index (len i : Z) : Z :=
  if (i <? 0)%Z then Z.max 0 (i + len) else Z.min i len.

Definition slice {A} (xs : list A) (lo hi : Z) : list A :=
  let len := Z.of_nat (length xs) in
  let lo' := clamp_index len lo in
  let hi' := clamp_index len hi in
  take (Z.to_nat (hi' - lo')) (drop (Z.to_nat lo') xs).

(** [xs[:hi]] *)
Definition slice_to {A} (xs : list A) (hi : Z) : list A := slice xs 0 hi.

(** A call either returns a value or raises; [Raised msg] carries [str(e)]. *)
Inductive outcome (A : Type) :=
| Returned (a : A)
| Raised (msg : string).
Arguments Returned {A} a.
Arguments Raised {A} msg.

(** A [dict] whose iteration order is observed: the items in insertion
    order.  [d[k] = v] replaces the value of a present key where it stands
    and appends a new key at the end. *)
Definition dict (V : Type) : Type := list (string * V).

Fixpoint dict_get {V} (d : dict V) (k : string) : option V :=
  match d with
  | [] => None
  | (k', v) :: rest => if String.eqb k' k then Some v else dict_get rest k
  end.

Fixpoint dict_set {V} (d : dict V) (k : string) (v : V) : dict V :=
  match d with
  | [] => [(k, v)]
  | (k', v') :: rest =>
      if String.eqb k' k then (k', v) :: rest else (k', v') :: dict_set rest k v
  end.

(** [xs.sort(key=..., reverse=True)]: a stable sort into descending key
  order.  [insert_desc x l] puts [x] in front of the first element whose
  key is not greater than its own, so equal keys keep their order. *)
Section Sort.
Context {A : Type} (key : A -> Q).

Fixpoint insert_desc (x : A) (l : list A) : list A :=
  match l with
  | [] => [x]
  | y :: ys =>
      if Qle_bool (key y) (key x) then x :: y :: ys
      else y :: insert_desc x ys
  end.

Fixpoint sort_desc (l : list A) : list A :=
  match l with
  | [] => []
  | x :: xs => insert_desc x (sort_desc xs)
  end.

(** Sorted by descending key: every element is followed only by elements
    whose key is not greater. *)
Inductive sorted_desc : list A -> Prop :=
| sorted_desc_nil : sorted_desc []
| sorted_desc_cons x l :
    Forall (fun y => (key y <= key x)%Q) l -> sorted_desc l ->
    sorted_desc (x :: l).
End Sort.

(** [range(0, stop, step)] for a [step] other than zero: the multiples of
    [step] from 0 on that lie before [stop]. *)
Definition range_by (stop step : Z) : list Z :=
  let count :=
    if (0 <? step)%Z then ((stop + step - 1) `div` step)%Z
    else ((- stop - step - 1) `div` (- step))%Z in
  (fun k => (Z.of_nat k * step)%Z) <$> seq 0 (Z.to_nat count).

End Py.

(** ** [core/models.py]: the enumerations and the [Citation] model *)

Module Models.

Inductive JurisdictionType := DIFC | DFSA | UAE | OTHER.

Inductive InstrumentType :=
  LAW | REGULATION | COURT_RULE | RULEBOOK | NOTICE | OTHER_INSTRUMENT.

#[export] Instance JurisdictionType_eq_dec : EqDecision JurisdictionType.
Proof. solve_decision. Defined.

#[export] Instance InstrumentType_eq_dec : EqDecision InstrumentType.
Proof. solve_decision. Defined.

(** The [value] of each member, and the constructor call
    [JurisdictionType(v)] / [InstrumentType(v)], which raises [ValueError]
    ([None] here) on any other string. *)
Definition jurisdiction_value (j : JurisdictionType) : string :=
  match j with DIFC => "DIFC" | DFSA => "DFSA" | UAE => "UAE" | OTHER => "OTHER" end.

Definition instrument_value (i : InstrumentType) : string :=
  match i with
  | LAW => "Law" | REGULATION => "Regulation" | COURT_RULE => "CourtRule"
  | RULEBOOK => "Rulebook" | NOTICE => "Notice" | OTHER_INSTRUMENT => "Other"
  end.

Definition jurisdiction_of_value (v : string) : option JurisdictionType :=
  if String.eqb v "DIFC" then Some DIFC
  else if String.eqb v "DFSA" then Some DFSA
  else if String.eqb v "UAE" then Some UAE
  else if String.eqb v "OTHER" then Some OTHER
  else None.

Definition instrument_of_value (v : string) : option InstrumentType :=
  if String.eqb v "Law" then Some LAW
  else if String.eqb v "Regulation" then Some REGULATION
  else if String.eqb v "CourtRule" then Some COURT_RULE
  else if String.eqb v "Rulebook" then Some RULEBOOK
  else if String.eqb v "Notice" then Some NOTICE
  else if String.eqb v "Other" then Some OTHER_INSTRUMENT
  else None.

Record Citation := {
  title : string;
  section : option string;
  url : option string;
  instrument_type : InstrumentType;
  jurisdiction : JurisdictionType
}.

End Models.

(** ** [rag/citations.py] *)

Module Citations.

Import Models(JurisdictionType, InstrumentType, DIFC, DFSA, UAE, OTHER).
Import (hints) Models.

Record CitationCandidate := {
  title : string;
  section : option string;
  url : option string;
  jurisdiction : JurisdictionType;
  instrument_type : InstrumentType;
  content_snippet : option string
}.

Record VerificationResult := {
  passed : bool;
  score : Q;
  best_candidate : option CitationCandidate;
  all_scores : list (CitationCandidate * Q)
}.

(** [re.sub(r"[^a-z0-9\s]", " ", text)] *)
Fixpoint blank_punctuation (s : string) : string :=
  match s with
  | EmptyString => EmptyString
  | String c r =>
      String (if Py.is_lower c || Py.is_digit c || Py.is_space c then c else " "%char)
             (blank_punctuation r)
  end.

(** [re.sub(r"\s+", " ", text)]: every maximal run of whitespace becomes one
    blank; [in_run] tells that the previous character was whitespace. *)
Fixpoint collapse_whitespace (in_run : bool) (s : string) : string :=
  match s with
  | EmptyString => EmptyString
  | String c r =>
      if Py.is_space c
      then if in_run then collapse_whitespace true r
           else String " "%char (collapse_whitespace true r)
      else String c (collapse_whitespace false r)
  end.

Definition normalize_text (text : string) : string :=
  if negb (Py.truthy text) then ""
  else Py.strip (collapse_whitespace false (blank_punctuation (Py.lower text))).

(** [len(a) / len(b)] for two set sizes, the divisor positive. *)
Definition ratio (n d : nat) : Q := Z.of_nat n # Pos.of_nat d.

Definition jaccard_similarity (text1 text2 : string) : Q :=
  let norm1 := normalize_text text1 in
  let norm2 := normalize_text text2 in
  if negb (Py.truthy norm1) || negb (Py.truthy norm2) then 0
  else
    let set1 : gset string := list_to_set (Py.split norm1) in
    let set2 : gset string := list_to_set (Py.split norm2) in
    if bool_decide (set1 = ∅) || bool_decide (set2 = ∅) then 0
    else
      let intersection := size (set1 ∩ set2) in
      let union := size (set1 ∪ set2) in
      if (0 <? union)%nat then ratio intersection union else 0.

(** The word set that [jaccard_similarity] builds for a text. *)
Definition word_set (text : string) : gset string :=
  list_to_set (Py.split (normalize_text text)).

(** *** The regular expressions of [extract_legal_terms]

The five patterns all have the shape [\b(G)T\b].  [regex] covers what
they use: literals, one character of a class, a greedy [+] or [?] on a
class, sequence and ordered alternative.  A cursor is the character
just before the position (if any) and the text from the position on. *)

Inductive regex :=
| Eps
| Lit (s : string)
| Cls (p : ascii -> bool)
| PlusCls (p : ascii -> bool)
| OptCls (p : ascii -> bool)
| Seq (r1 r2 : regex)
| Alt (r1 r2 : regex).

Definition cursor : Type := option ascii * string.

Fixpoint eat_literal (lit : string) (cur : cursor) : option cursor :=
  match lit with
  | EmptyString => Some cur
  | String a lit' =>
      match cur.2 with
      | String c r => if Ascii.eqb a c then eat_literal lit' (Some c, r) else None
      | EmptyString => None
      end
  end.

(** The ends of [p+] from a position, the longest run first. *)
Fixpoint plus_ends (p : ascii -> bool) (s : string) : list cursor :=
  match s with
  | String c r => if p c then plus_ends p r ++ [(Some c, r)] else []
  | EmptyString => []
  end.

(** All the ways [r] matches at a cursor, in the order a backtracking
    matcher tries them. *)
Fixpoint ends (r : regex) (cur : cursor) : list cursor :=
  match r with
  | Eps => [cur]
  | Lit s => match eat_literal s cur with Some c => [c] | None => [] end
  | Cls p =>
      match cur.2 with
      | String c rest => if p c then [(Some c, rest)] else []
      | EmptyString => []
      end
  | PlusCls p => plus_ends p cur.2
  | OptCls p =>
      match cur.2 with
      | String c rest => if p c then [(Some c, rest); cur] else [cur]
      | EmptyString => [cur]
      end
  | Seq r1 r2 => flat_map (ends r2) (ends r1 cur)
  | Alt r1 r2 => ends r1 cur ++ ends r2 cur
  end.

(** [\b]: exactly one of the two neighbours is a word character. *)
Definition at_boundary (cur : cursor) : bool :=
  xorb (match cur.1 with Some c => Py.is_word c | None => false end)
       (match cur.2 with String c _ => Py.is_word c | EmptyString => false end).

(** The first [n] characters of a string. *)
Fixpoint prefix (n : nat) (s : string) : string :=
  match n, s with
  | S n', String c r => String c (prefix n' r)
  | _, _ => EmptyString
  end.

(** One attempt of [\b(G)T\b] at a cursor: the text of group 1 and the
    number of characters matched. *)
Definition match_here (g t : regex) (cur : cursor) : option (string * nat) :=
  if at_boundary cur then
    head (flat_map
            (fun c1 : cursor =>
               (fun c2 : cursor =>
                  (prefix (String.length cur.2 - String.length c1.2) cur.2,
                   (String.length cur.2 - String.length c2.2)%nat))
                 <$> filter (fun c2 => at_boundary c2 = true) (ends t c1))
            (ends g cur))
  else None.

(** [re.findall] for a pattern with one group: scan from the left, try the
    pattern at each position that is not inside the previous match ([skip]
    counts the characters of it still to pass), and keep group 1. *)
Fixpoint findall_from (g t : regex) (prev : option ascii) (s : string)
    (skip : nat) : list string :=
  match s with
  | EmptyString => []
  | String c r =>
      match skip with
      | S k => findall_from g t (Some c) r k
      | O =>
          match match_here g t (prev, s) with
          | Some (grp, n) => grp :: findall_from g t (Some c) r (n - 1)
          | None => findall_from g t (Some c) r 0
          end
      end
  end.

Definition findall (g t : regex) (s : string) : list string :=
  findall_from g t None s 0.

(** [(w|w1|...)], tried from left to right. *)
Fixpoint one_of (w : string) (ws : list string) : regex :=
  match ws with
  | [] => Lit w
  | w' :: ws' => Alt (Lit w) (one_of w' ws')
  end.

(** [legal_patterns], each as its group and what follows the group. *)
Definition legal_patterns : list (regex * regex) :=
  [ (one_of "article" ["section"; "part"; "chapter"; "clause"; "paragraph"; "subsection"],
     Seq (PlusCls Py.is_space) (Seq (PlusCls Py.is_digit) (OptCls Py.is_lower)));
    (one_of "law" ["regulation"; "rule"; "act"; "code"; "statute"; "ordinance"], Eps);
    (one_of "difc" ["dfsa"; "uae"; "dubai"; "emirates"], Eps);
    (Alt (Lit "employment")
       (Alt (Seq (Lit "data") (Seq (PlusCls Py.is_space) (Lit "protection")))
          (one_of "commercial" ["corporate"; "financial"])), Eps);
    (one_of "shall" ["must"; "may"; "required"; "prohibited"; "permitted"], Eps) ].

Definition extract_legal_terms (text : string) : gset string :=
  let text_lower := Py.lower text in
  foldl (fun (terms : gset string) '(g, t) =>
           terms ∪ list_to_set (findall g t text_lower))
        ∅ legal_patterns.

Local Open Scope Q_scope.

(** [x or ""] for an optional string. *)
Definition or_empty (o : option string) : string := default "" o.

(** [bool(x)] for an optional string. *)
Definition truthy_opt (o : option string) : bool :=
  match o with Some s => Py.truthy s | None => false end.

(** [f"{candidate.title} {candidate.section or ''}"] *)
Definition title_and_section (candidate : CitationCandidate) : string :=
  title candidate +:+ " " +:+ or_empty (section candidate).

Definition term_overlap (claim_terms candidate_terms : gset string) : Q :=
  if bool_decide (claim_terms = ∅) && bool_decide (candidate_terms = ∅) then 0
  else ratio (size (claim_terms ∩ candidate_terms))
             (size (claim_terms ∪ candidate_terms)).

Definition enhanced_similarity (claim : string) (candidate : CitationCandidate) : Q :=
  if negb (Py.truthy claim) || negb (Py.truthy (title candidate)) then 0
  else
    let title_score := jaccard_similarity claim (title candidate) in
    let section_score :=
      if truthy_opt (section candidate)
      then jaccard_similarity claim (or_empty (section candidate)) else 0 in
    let combined_score := jaccard_similarity claim (title_and_section candidate) in
    let claim_terms := extract_legal_terms claim in
    let candidate_terms := extract_legal_terms (title_and_section candidate) in
    let base_score := Py.max3 title_score section_score combined_score in
    let enhanced_score :=
      base_score * (7 # 10) + term_overlap claim_terms candidate_terms * (3 # 10) in
    Py.min enhanced_score 1.

(** The defaults of [verify_citation]. *)
Definition default_threshold : Q := 25 # 100.
Definition default_jurisdiction_boost : Q := 1 # 10.

(** The body of the loop of [verify_citation]: the final score of one
    candidate. *)
Definition final_score (claim : string) (jurisdiction_boost : Q)
    (candidate : CitationCandidate) : Q :=
  let base_score := enhanced_similarity claim candidate in
  let final_score :=
    if bool_decide (jurisdiction candidate = DIFC)
    then base_score + jurisdiction_boost else base_score in
  Py.min final_score 1.

Definition scored_candidates (claim : string) (jurisdiction_boost : Q)
    (candidates : list CitationCandidate) : list (CitationCandidate * Q) :=
  Py.sort_desc snd
    ((fun candidate => (candidate, final_score claim jurisdiction_boost candidate))
       <$> candidates).

Definition verify_citation (claim : string) (candidates : list CitationCandidate)
    (threshold jurisdiction_boost : Q) : VerificationResult :=
  if negb (Py.truthy claim) || Py.empty candidates then
    {| passed := false; score := 0; best_candidate := None; all_scores := [] |}
  else
    let scored := scored_candidates claim jurisdiction_boost candidates in
    let best :=
      match scored with
      | (best_candidate, best_score) :: _ => (Some best_candidate, best_score)
      | [] => (None, 0)
      end in
    {| passed := Qle_bool threshold best.2;
       score := Py.round3 best.2;
       best_candidate := best.1;
       all_scores := (fun cs : CitationCandidate * Q => (cs.1, Py.round3 cs.2)) <$> scored |}.

Definition batch_verify_citations (claims : list string)
    (candidates : list CitationCandidate) (threshold : Q) : list VerificationResult :=
  (fun claim => verify_citation claim candidates threshold default_jurisdiction_boost)
    <$> claims.

(** The [Citation(...)] that [create_verified_citation] builds from a
    candidate. *)
Definition citation_of (candidate : CitationCandidate) : Models.Citation :=
  {| Models.title := title candidate;
     Models.section := section candidate;
     Models.url := url candidate;
     Models.instrument_type := instrument_type candidate;
     Models.jurisdiction := jurisdiction candidate |}.

(** A dataclass instance is always true in a condition, so
    [not verification_result.best_candidate] holds for [None] only. *)
Definition create_verified_citation (claim : string)
    (verification_result : VerificationResult) : option Models.Citation :=
  if negb (passed verification_result) then None
  else
    match best_candidate verification_result with
    | None => None
    | Some candidate => Some (citation_of candidate)
    end.

(** *** [CitationVerifier]

The object is its threshold and its cache.  The cache key is the
f-string [f"{hash(claim)}_{hash(tuple(c.title for c in candidates))}"]:
two decimal integers around an underscore, which is the pair of the two
hashes.  Python's [hash] is only known to be a function of its
argument, so the two hash functions are parameters. *)

Record CitationVerifier := {
  threshold : Q;
  _verification_cache : gmap (Z * Z) VerificationResult
}.

(** [__init__]: [self.threshold = threshold or 0.25]. *)
Definition init (threshold : option Q) : CitationVerifier :=
  {| threshold := match threshold with
                  | Some t => if Qeq_bool t 0 then default_threshold else t
                  | None => default_threshold
                  end;
     _verification_cache := ∅ |}.

Section Verifier.
Variable hash_str : string -> Z.
Variable hash_tuple : list string -> Z.

Definition cache_key (claim : string) (candidates : list CitationCandidate)
    : Z * Z :=
  (hash_str claim, hash_tuple (title <$> candidates)).

(** [verify]: the result, and the verifier with its cache as the call
    leaves it. *)
Definition verify (self : CitationVerifier) (claim : string)
    (candidates : list CitationCandidate) (use_cache : bool)
    : VerificationResult * CitationVerifier :=
  let key := cache_key claim candidates in
  match (if use_cache then _verification_cache self !! key else None) with
  | Some cached => (cached, self)
  | None =>
      let result :=
        verify_citation claim candidates (threshold self)
                        default_jurisdiction_boost in
      if use_cache
      then (result,
            {| threshold := threshold self;
               _verification_cache := <[key := result]> (_verification_cache self) |})
      else (result, self)
  end.
End Verifier.

Definition verify_batch (self : CitationVerifier) (claims : list string)
    (candidates : list CitationCandidate) : list VerificationResult :=
  batch_verify_citations claims candidates (threshold self).

(** [filter_valid_citations]: the loop over [zip(claims, results)]. *)
Definition filter_valid_citations (self : CitationVerifier) (claims : list string)
    (candidates : list CitationCandidate) : list Models.Citation :=
  let results := verify_batch self claims candidates in
  omap (fun cr : string * VerificationResult => create_verified_citation cr.1 cr.2)
       (zip claims results).

(** The global instance [citation_verifier = CitationVerifier(threshold=0.25)]. *)
Definition citation_verifier : CitationVerifier := init (Some (25 # 100)).

(** [get_stats]: the values under ["threshold"], ["cache_size"] and
    ["total_verifications"]. *)
Record Stats := {
  stats_threshold : Q;
  cache_size : nat;
  total_verifications : nat
}.

Definition get_stats (self : CitationVerifier) : Stats :=
  {| stats_threshold := threshold self;
     cache_size := size (_verification_cache self);
     total_verifications := size (_verification_cache self) |}.

(** [clear_cache]: [self._verification_cache.clear()]. *)
Definition clear_cache (self : CitationVerifier) : CitationVerifier :=
  {| threshold := threshold self; _verification_cache := ∅ |}.

End Citations.

(** ** [rag/vector_store.py] *)

Module VectorStore.

Import Models(JurisdictionType, DIFC).
Local Open Scope Q_scope.

Record DocumentChunk := {
  id : string;
  doc_id : string;
  content : string;
  chunk_index : Z;
  section_ref : option string;
  metadata : option (gmap string string)
}.

(** What [self._chunks] holds under a chunk id: a [DocumentChunk] stored by
    [_store_chunks_in_db], or the plain dict [{"doc_id", "chunk_index"}]
    that [_load_metadata] puts there. *)
Inductive chunk_entry :=
| Chunk (c : DocumentChunk)
| Info (doc_id : option string) (chunk_index : Z).

Record RetrievalMatch := {
  chunk : chunk_entry;
  score : Q
}.

(** [chunk.metadata] and [chunk.id]: a plain dict has neither attribute
    ([None] stands for the [AttributeError]). *)
Definition metadata_of (e : chunk_entry) : option (option (gmap string string)) :=
  match e with Chunk c => Some (metadata c) | Info _ _ => None end.

Definition id_of (e : chunk_entry) : option string :=
  match e with Chunk c => Some (id c) | Info _ _ => None end.

(** [bool(chunk.metadata)]: neither [None] nor the empty dict. *)
Definition has_metadata (m : option (gmap string string)) : bool :=
  match m with Some d => negb (bool_decide (d = ∅)) | None => false end.

Definition metadata_get (m : option (gmap string string)) (k : string)
    : option string :=
  m ≫= (fun d => d !! k).

(** The loaded index: its size and its nearest-neighbour search, which
    yields [zip(scores[0], indices[0])].  The loaded metadata: [None] when
    [self._metadata] is [None] or empty, [Some None] when it has no
    ["vectors"] key, else the [chunk_id] of each entry of ["vectors"] (if
    the entry has one). *)
Record FaissIndex := {
  ntotal : Z;
  index_search : list Q -> Z -> Py.outcome (list (Q * Z))
}.

Record Store := {
  _index : option FaissIndex;
  _metadata : option (option (list (option string)));
  _chunks : Py.dict chunk_entry
}.

(** [self._metadata["vectors"][idx]["chunk_id"]] for [idx >= 0]; [None] is a
    [KeyError] or an [IndexError]. *)
Definition vector_chunk_id (st : Store) (idx : Z) : option string :=
  vectors ← mjoin (_metadata st);
  mjoin (vectors !! Z.to_nat idx).

(** One round of the loop of [search] on a hit [(score, idx)]: [None] is an
    exception, [Some None] a [continue], [Some (Some m)] an append. *)
Definition search_hit (st : Store) (jurisdiction : option JurisdictionType)
    (boost_difc : bool) (hit : Q * Z) : option (option RetrievalMatch) :=
  let '(score, idx) := hit in
  if (idx <? 0)%Z then Some None
  else
    chunk_id ← vector_chunk_id st idx;
    match Py.dict_get (_chunks st) chunk_id with
    | None => Some None
    | Some chunk =>
        filtered ←
          match jurisdiction with
          | Some j =>
              m ← metadata_of chunk;
              Some (has_metadata m &&
                    negb (bool_decide (metadata_get m "jurisdiction"
                                       = Some (Models.jurisdiction_value j))))
          | None => Some false
          end;
        if filtered : bool then Some None
        else
          adjusted_score ←
            (if boost_difc then
               m ← metadata_of chunk;
               Some (if has_metadata m &&
                        bool_decide (metadata_get m "jurisdiction"
                                     = Some (Models.jurisdiction_value DIFC))
                     then score * (12 # 10) else score)
             else Some score);
          Some (Some {| chunk := chunk; score := adjusted_score |})
    end.

Fixpoint search_hits (st : Store) (jurisdiction : option JurisdictionType)
    (boost_difc : bool) (hits : list (Q * Z)) : option (list RetrievalMatch) :=
  match hits with
  | [] => Some []
  | hit :: rest =>
      r ← search_hit st jurisdiction boost_difc hit;
      results ← search_hits st jurisdiction boost_difc rest;
      Some (match r with Some m => m :: results | None => results end)
  end.

Section Search.
(** [embeddings.embed_query], an external call. *)
Variable embed_query : string -> Py.outcome (list Q).

Definition search (st : Store) (query : string) (limit : Z)
    (jurisdiction : option JurisdictionType) (boost_difc : bool)
    : list RetrievalMatch :=
  match _index st, _metadata st with
  | Some index, Some _ =>
      match embed_query query with
      | Py.Raised _ => []
      | Py.Returned query_vector =>
          if Py.empty query_vector then []
          else
            let search_limit := Z.min (limit * 3) (ntotal index) in
            match index_search index query_vector search_limit with
            | Py.Raised _ => []
            | Py.Returned hits =>
                match search_hits st jurisdiction boost_difc hits with
                | None => []
                | Some results =>
                    Py.slice_to (Py.sort_desc score results) limit
                end
            end
      end
  | _, _ => []
  end.

(** [_keyword_search]: the chunks in the order of [self._chunks.values()]. *)
Definition keyword_hit (query_terms : gset string) (e : chunk_entry)
    : option RetrievalMatch :=
  match e with
  | Chunk c =>
      let content_terms : gset string :=
        list_to_set (Py.split (Py.lower (content c))) in
      let overlap := size (query_terms ∩ content_terms) in
      if (0 <? overlap)%nat
      then Some {| chunk := e;
                   score := Citations.ratio overlap (size query_terms) |}
      else None
  | Info _ _ => None
  end.

Definition _keyword_search (st : Store) (query : string) (limit : Z)
    : list RetrievalMatch :=
  let query_terms : gset string := list_to_set (Py.split (Py.lower query)) in
  let results := omap (fun kv : string * chunk_entry => keyword_hit query_terms kv.2)
                      (_chunks st) in
  Py.slice_to (Py.sort_desc score results) limit.

(** The entries of [combined_scores]. *)
Record combined := {
  c_chunk : chunk_entry;
  vector_score : Q;
  keyword_score : Q
}.

(** The two loops that fill [combined_scores]; [None] is the
    [AttributeError] of [result.chunk.id] on a plain dict. *)
Fixpoint add_vector_scores (combined_scores : Py.dict combined)
    (vector_results : list RetrievalMatch) : option (Py.dict combined) :=
  match vector_results with
  | [] => Some combined_scores
  | result :: rest =>
      chunk_id ← id_of (chunk result);
      add_vector_scores
        (Py.dict_set combined_scores chunk_id
           {| c_chunk := chunk result; vector_score := score result;
              keyword_score := 0 |})
        rest
  end.

Fixpoint add_keyword_scores (combined_scores : Py.dict combined)
    (keyword_results : list RetrievalMatch) : option (Py.dict combined) :=
  match keyword_results with
  | [] => Some combined_scores
  | result :: rest =>
      chunk_id ← id_of (chunk result);
      add_keyword_scores
        (match Py.dict_get combined_scores chunk_id with
         | Some scores =>
             Py.dict_set combined_scores chunk_id
               {| c_chunk := c_chunk scores; vector_score := vector_score scores;
                  keyword_score := score result |}
         | None =>
             Py.dict_set combined_scores chunk_id
               {| c_chunk := chunk result; vector_score := 0;
                  keyword_score := score result |}
         end)
        rest
  end.

(** The score that a ranking gives to a chunk id: that of its last entry
    for the id, if it has one. *)
Fixpoint last_score (chunk_id : string) (results : list RetrievalMatch) : option Q :=
  match results with
  | [] => None
  | result :: rest =>
      match last_score chunk_id rest with
      | Some q => Some q
      | None =>
          if bool_decide (id_of (chunk result) = Some chunk_id)
          then Some (score result) else None
      end
  end.

Definition combined_score (vector_weight keyword_weight : Q) (scores : combined) : Q :=
  vector_score scores * vector_weight + keyword_score scores * keyword_weight.

(** The part of [hybrid_search] after the two searches: fusing and
    ranking. *)
Definition fuse (vector_results keyword_results : list RetrievalMatch)
    (limit : Z) (vector_weight keyword_weight : Q)
    : option (list RetrievalMatch) :=
  with_vector ← add_vector_scores [] vector_results;
  combined_scores ← add_keyword_scores with_vector keyword_results;
  let final_results :=
    (fun kv : string * combined =>
       {| chunk := c_chunk kv.2;
          score := combined_score vector_weight keyword_weight kv.2 |})
      <$> combined_scores in
  Some (Py.slice_to (Py.sort_desc score final_results) limit).

Definition default_vector_weight : Q := 7 # 10.
Definition default_keyword_weight : Q := 3 # 10.

Definition hybrid_search (st : Store) (query : string) (limit : Z)
    (vector_weight keyword_weight : Q) : option (list RetrievalMatch) :=
  let vector_results := search st query (limit * 2) None true in
  let keyword_results := _keyword_search st query (limit * 2) in
  fuse vector_results keyword_results limit vector_weight keyword_weight.
End Search.

(** [_split_text].  The [while] loop is run with a bound on its rounds:
    [None] means the bound was reached before the loop ended. *)
Fixpoint split_loop (fuel : nat) (words : list string) (chunk_size overlap : Z)
    (i : Z) (chunks : list string) : option (list string) :=
  match fuel with
  | O => None
  | S fuel' =>
      if (i <? Z.of_nat (length words))%Z then
        let chunk_words := Py.slice words i (i + chunk_size) in
        let chunks := (chunks ++ [Py.join " " chunk_words])%list in
        let i := (i + (chunk_size - overlap))%Z in
        if (i <=? 0)%Z then Some chunks
        else split_loop fuel' words chunk_size overlap i chunks
      else Some chunks
  end.

Definition _split_text (fuel : nat) (text : string) (chunk_size overlap : Z)
    : option (list string) :=
  split_loop fuel (Py.split text) chunk_size overlap 0 [].

(** [_store_chunks_in_db]: [self._chunks[chunk.id] = chunk] for each chunk. *)
Definition _store_chunks_in_db (st : Store) (chunks : list DocumentChunk) : Store :=
  {| _index := _index st;
     _metadata := _metadata st;
     _chunks := foldl (fun d c => Py.dict_set d (id c) (Chunk c)) (_chunks st) chunks |}.

(** [_load_chunk]: [self._chunks.get(chunk_id)]. *)
Definition _load_chunk (st : Store) (chunk_id : string) : option chunk_entry :=
  Py.dict_get (_chunks st) chunk_id.

(** [__init__]: nothing is loaded. *)
Definition init : Store := {| _index := None; _metadata := None; _chunks := [] |}.

(** [_load_index]: [file] is the index read from [qaai.faiss], if the file
    exists and can be read.  The method reads it only while [self._index]
    is [None]. *)
Definition _load_index (file : option FaissIndex) (st : Store) : Store :=
  match _index st with
  | None => {| _index := file; _metadata := _metadata st; _chunks := _chunks st |}
  | Some _ => st
  end.

(** What [json.load] gives for [metadata.json]: a dict whose ["vectors"]
    entry, if it has one, lists dicts with the optional keys ["chunk_id"],
    ["doc_id"] and ["chunk_index"]; [build_info] tells whether the dict has
    the ["build_info"] key that [build_index] writes next to ["vectors"]. *)
Record vector_info := {
  v_chunk_id : option string;
  v_doc_id : option string;
  v_chunk_index : option Z
}.

Record metadata_json := {
  vectors : option (list vector_info);
  build_info : bool
}.

(** The [metadata] that [build_index] dumps to [metadata.json]. *)
Definition build_index_metadata (all_chunks : list DocumentChunk) : metadata_json :=
  {| vectors :=
       Some ((fun chunk =>
                {| v_chunk_id := Some (id chunk);
                   v_doc_id := Some (doc_id chunk);
                   v_chunk_index := Some (chunk_index chunk) |}) <$> all_chunks);
     build_info := true |}.

(** The "Build chunk mapping" loop of [_load_metadata]. *)
Definition chunk_mapping (vectors : list vector_info) (chunks : Py.dict chunk_entry)
    : Py.dict chunk_entry :=
  foldl (fun d v =>
           match v_chunk_id v with
           | Some chunk_id =>
               if Py.truthy chunk_id
               then Py.dict_set d chunk_id
                      (Info (v_doc_id v) (default 0%Z (v_chunk_index v)))
               else d
           | None => d
           end)
        chunks vectors.

(** [_load_metadata]: [file] is the parsed content of [metadata.json] if the
    file exists.  The method reads it only while [self._metadata] is [None]. *)
Definition _load_metadata (file : option metadata_json) (st : Store) : Store :=
  match _metadata st, file with
  | None, Some loaded =>
      {| _index := _index st;
         _metadata :=
           match vectors loaded with
           | Some vs => Some (Some (v_chunk_id <$> vs))
           | None => if build_info loaded then Some None else None
           end;
         _chunks := chunk_mapping (default [] (vectors loaded)) (_chunks st) |}
  | _, _ => st
  end.

End VectorStore.

(** ** [rag/retrievers.py] *)

Module Retrievers.

Import Models(JurisdictionType).

Record RetrievalContext := {
  query : string;
  jurisdiction : JurisdictionType;
  max_results : Z;
  include_citations : bool;
  boost_difc : bool;
  hybrid_search : bool
}.

Record DIFCRetriever := {
  vector_store : VectorStore.Store;
  citation_verifier : Citations.CitationVerifier
}.

(** [content[:200] + "..." if len(content) > 200 else content] *)
Definition snippet (content : string) : string :=
  if (200 <? String.length content)%nat
  then Citations.prefix 200 content +:+ "..." else content.

(** The candidate of one match: [Raised] is the [AttributeError] of a chunk
    that is a plain dict or the [ValueError] of an enumeration constructor,
    [Returned None] a match without metadata. *)
Definition candidate_of (m : VectorStore.RetrievalMatch)
    : Py.outcome (option Citations.CitationCandidate) :=
  match VectorStore.chunk m with
  | VectorStore.Info _ _ => Py.Raised "'dict' object has no attribute 'metadata'"
  | VectorStore.Chunk c =>
      let metadata := VectorStore.metadata c in
      if VectorStore.has_metadata metadata then
        let jv := default "OTHER" (VectorStore.metadata_get metadata "jurisdiction") in
        let iv := default "OTHER" (VectorStore.metadata_get metadata "instrument_type") in
        match Models.jurisdiction_of_value jv, Models.instrument_of_value iv with
        | None, _ => Py.Raised ("'" +:+ jv +:+ "' is not a valid JurisdictionType")
        | _, None => Py.Raised ("'" +:+ iv +:+ "' is not a valid InstrumentType")
        | Some j, Some i =>
            Py.Returned (Some
              {| Citations.title :=
                   default "Unknown Document" (VectorStore.metadata_get metadata "title");
                 Citations.section := VectorStore.section_ref c;
                 Citations.url := VectorStore.metadata_get metadata "url";
                 Citations.jurisdiction := j;
                 Citations.instrument_type := i;
                 Citations.content_snippet := Some (snippet (VectorStore.content c)) |})
        end
      else Py.Returned None
  end.

Fixpoint candidates_of (matches : list VectorStore.RetrievalMatch)
    : Py.outcome (list Citations.CitationCandidate) :=
  match matches with
  | [] => Py.Returned []
  | m :: rest =>
      match candidate_of m with
      | Py.Raised e => Py.Raised e
      | Py.Returned c =>
          match candidates_of rest with
          | Py.Raised e => Py.Raised e
          | Py.Returned cs =>
              Py.Returned (match c with Some c => c :: cs | None => cs end)
          end
      end
  end.

(** "Verify citations" and "Create verified citations": every candidate is
    paired with the result of verifying the query against the whole
    candidate list. *)
Definition verified_citations (self : DIFCRetriever) (query : string)
    (candidates : list Citations.CitationCandidate) : list Models.Citation :=
  if Py.empty candidates then []
  else
    let verification_results :=
      Citations.verify_batch (citation_verifier self)
        (replicate (length candidates) query) candidates in
    omap (fun cr : Citations.CitationCandidate * Citations.VerificationResult =>
            if Citations.passed cr.2
            then Citations.create_verified_citation query cr.2
            else None)
         (zip candidates verification_results).

Section Retrieve.
Variable embed_query : string -> Py.outcome (list Q).

Definition retrieve_with_citations (self : DIFCRetriever)
    (context : RetrievalContext)
    : Py.outcome (list VectorStore.RetrievalMatch * list Models.Citation) :=
  let found :=
    if hybrid_search context then
      match VectorStore.hybrid_search embed_query (vector_store self)
              (query context) (max_results context)
              VectorStore.default_vector_weight
              VectorStore.default_keyword_weight with
      | Some matches => Py.Returned matches
      | None => Py.Raised "'dict' object has no attribute 'id'"
      end
    else
      Py.Returned
        (VectorStore.search embed_query (vector_store self) (query context)
           (max_results context) (Some (jurisdiction context))
           (boost_difc context)) in
  match found with
  | Py.Raised e => Py.Raised e
  | Py.Returned matches =>
      if include_citations context && negb (Py.empty matches) then
        match candidates_of matches with
        | Py.Raised e => Py.Raised e
        | Py.Returned candidates =>
            Py.Returned (matches, verified_citations self (query context) candidates)
        end
      else Py.Returned (matches, [])
  end.
End Retrieve.

Import (hints) Models.

Section Searches.
Variable embed_query : string -> Py.outcome (list Q).

(** The filter loop of [search_vault_project] and of
    [search_by_instrument_type]: a match whose non-empty metadata satisfies
    [keep] is appended, and the loop is left once [limit] matches are there.
    [Raised] is the [AttributeError] of [match.chunk.metadata] on a chunk
    that is a plain dict. *)
Fixpoint filter_matches (keep : option (gmap string string) -> bool) (limit : Z)
    (matches : list VectorStore.RetrievalMatch)
    (kept : list VectorStore.RetrievalMatch)
    : Py.outcome (list VectorStore.RetrievalMatch) :=
  match matches with
  | [] => Py.Returned kept
  | m :: rest =>
      match VectorStore.metadata_of (VectorStore.chunk m) with
      | None => Py.Raised "'dict' object has no attribute 'metadata'"
      | Some metadata =>
          if VectorStore.has_metadata metadata && keep metadata then
            let kept := (kept ++ [m])%list in
            if (limit <=? Z.of_nat (length kept))%Z then Py.Returned kept
            else filter_matches keep limit rest kept
          else filter_matches keep limit rest kept
      end
  end.

Definition search_vault_project (self : DIFCRetriever) (query project_id : string)
    (limit : Z) : Py.outcome (list VectorStore.RetrievalMatch) :=
  let matches :=
    VectorStore.search embed_query (vector_store self) query (limit * 2) None true in
  filter_matches
    (fun metadata =>
       bool_decide (VectorStore.metadata_get metadata "project_id" = Some project_id))
    limit matches [].

(** [get_related_documents] *)
Definition get_related_documents (self : DIFCRetriever) (document_id : string)
    (limit : Z) : list VectorStore.RetrievalMatch := [].

Definition search_by_jurisdiction (self : DIFCRetriever) (query : string)
    (jurisdiction : JurisdictionType) (limit : Z)
    : list VectorStore.RetrievalMatch :=
  VectorStore.search embed_query (vector_store self) query limit
    (Some jurisdiction) (bool_decide (jurisdiction = Models.DIFC)).

Definition search_by_instrument_type (self : DIFCRetriever) (query : string)
    (instrument_type : Models.InstrumentType)
    (jurisdiction : option JurisdictionType) (limit : Z)
    : Py.outcome (list VectorStore.RetrievalMatch) :=
  let matches :=
    VectorStore.search embed_query (vector_store self) query (limit * 2)
      jurisdiction true in
  filter_matches
    (fun metadata =>
       bool_decide (VectorStore.metadata_get metadata "instrument_type"
                    = Some (Models.instrument_value instrument_type)))
    limit matches [].

(** The module-level [search_difc_sources]. *)
Definition search_difc_sources (self : DIFCRetriever) (query : string) (limit : Z)
    : list VectorStore.RetrievalMatch :=
  search_by_jurisdiction self query Models.DIFC limit.

(** The loop of the module-level [search_legal_instruments]: the matches of
    each instrument type in turn, [per_type] being
    [limit // len(instrument_types) + 1]. *)
Fixpoint matches_of_types (self : DIFCRetriever) (query : string)
    (instrument_types : list Models.InstrumentType) (per_type : Z)
    (all_matches : list VectorStore.RetrievalMatch)
    : Py.outcome (list VectorStore.RetrievalMatch) :=
  match instrument_types with
  | [] => Py.Returned all_matches
  | instrument_type :: rest =>
      match search_by_instrument_type self query instrument_type None per_type with
      | Py.Raised e => Py.Raised e
      | Py.Returned matches =>
          matches_of_types self query rest per_type (all_matches ++ matches)%list
      end
  end.

Definition search_legal_instruments (self : DIFCRetriever) (query : string)
    (instrument_types : list Models.InstrumentType) (limit : Z)
    : Py.outcome (list VectorStore.RetrievalMatch) :=
  let per_type := (limit `div` Z.of_nat (length instrument_types) + 1)%Z in
  match matches_of_types self query instrument_types per_type [] with
  | Py.Raised e => Py.Raised e
  | Py.Returned all_matches =>
      Py.Returned (Py.slice_to (Py.sort_desc VectorStore.score all_matches) limit)
  end.

End Searches.

End Retrievers.

(** ** [agents/nodes.py] *)

Module Nodes.

Import Models(JurisdictionType, DIFC, Citation).
Import Py(outcome, Returned, Raised).
Local Open Scope Q_scope.

Inductive ModelProvider := OPENAI | ANTHROPIC.

(** The entries of [retrieved_context]. *)
Record doc_info := {
  d_title : string;
  d_content : string;
  d_score : Q;
  d_jurisdiction : option string;
  d_instrument_type : option string;
  d_section_ref : option string
}.

Record model_info := {
  planner : string;
  drafter : string;
  verifier : string
}.

(** The dict that [human_review] stores under ["final_output"]. *)
Record FinalOutput := {
  fo_draft : string;
  fo_plan : string;
  fo_citations : list Citation;
  fo_verification_result : string;
  fo_verification_passed : bool;
  fo_retrieved_context_count : nat;
  fo_model_info : model_info;
  fo_thinking_states : list string;
  fo_jurisdiction : string
}.

(** The dict that [export] stores under ["export_data"]. *)
Record ExportData := {
  ex_content : string;
  ex_prompt : string;
  ex_jurisdiction : string;
  ex_citations_count : nat;
  ex_verification_passed : bool;
  ex_generated_at : string;
  ex_models_used : model_info;
  ex_citations : list Citation;
  ex_thinking_states : list string
}.

(** [WorkflowState]: a dict in which every key may be missing ([None]).
    The first eleven keys are the declared ones; the last four are the keys
    that [verify_citations], [human_review] and [export] add. *)
Record WorkflowState := {
  prompt : option string;
  template_doc_id : option string;
  reference_doc_ids : option (list string);
  jurisdiction : option JurisdictionType;
  plan_text : option string;
  retrieved_context : option (list doc_info);
  citations : option (list Citation);
  draft_text : option string;
  thinking : option (list string);
  error : option string;
  model_override : option string;
  verification_result : option string;
  verification_passed : option bool;
  final_output : option FinalOutput;
  export_data : option ExportData
}.

(** [{**state, key: value}] for the keys the nodes write. *)
Definition with_thinking (s : WorkflowState) (v : list string) : WorkflowState :=
  {| prompt := prompt s; template_doc_id := template_doc_id s;
     reference_doc_ids := reference_doc_ids s; jurisdiction := jurisdiction s;
     plan_text := plan_text s; retrieved_context := retrieved_context s;
     citations := citations s; draft_text := draft_text s;
     thinking := Some v; error := error s; model_override := model_override s;
     verification_result := verification_result s;
     verification_passed := verification_passed s;
     final_output := final_output s; export_data := export_data s |}.

Definition with_error (s : WorkflowState) (v : string) : WorkflowState :=
  {| prompt := prompt s; template_doc_id := template_doc_id s;
     reference_doc_ids := reference_doc_ids s; jurisdiction := jurisdiction s;
     plan_text := plan_text s; retrieved_context := retrieved_context s;
     citations := citations s; draft_text := draft_text s;
     thinking := thinking s; error := Some v; model_override := model_override s;
     verification_result := verification_result s;
     verification_passed := verification_passed s;
     final_output := final_output s; export_data := export_data s |}.

Definition with_jurisdiction (s : WorkflowState) (v : JurisdictionType) : WorkflowState :=
  {| prompt := prompt s; template_doc_id := template_doc_id s;
     reference_doc_ids := reference_doc_ids s; jurisdiction := Some v;
     plan_text := plan_text s; retrieved_context := retrieved_context s;
     citations := citations s; draft_text := draft_text s;
     thinking := thinking s; error := error s; model_override := model_override s;
     verification_result := verification_result s;
     verification_passed := verification_passed s;
     final_output := final_output s; export_data := export_data s |}.

Definition with_citations (s : WorkflowState) (v : list Citation) : WorkflowState :=
  {| prompt := prompt s; template_doc_id := template_doc_id s;
     reference_doc_ids := reference_doc_ids s; jurisdiction := jurisdiction s;
     plan_text := plan_text s; retrieved_context := retrieved_context s;
     citations := Some v; draft_text := draft_text s;
     thinking := thinking s; error := error s; model_override := model_override s;
     verification_result := verification_result s;
     verification_passed := verification_passed s;
     final_output := final_output s; export_data := export_data s |}.

Definition with_plan (s : WorkflowState) (v : string) : WorkflowState :=
  {| prompt := prompt s; template_doc_id := template_doc_id s;
     reference_doc_ids := reference_doc_ids s; jurisdiction := jurisdiction s;
     plan_text := Some v; retrieved_context := retrieved_context s;
     citations := citations s; draft_text := draft_text s;
     thinking := thinking s; error := error s; model_override := model_override s;
     verification_result := verification_result s;
     verification_passed := verification_passed s;
     final_output := final_output s; export_data := export_data s |}.

Definition with_retrieved (s : WorkflowState) (docs : list doc_info)
    (cs : list Citation) : WorkflowState :=
  {| prompt := prompt s; template_doc_id := template_doc_id s;
     reference_doc_ids := reference_doc_ids s; jurisdiction := jurisdiction s;
     plan_text := plan_text s; retrieved_context := Some docs;
     citations := Some cs; draft_text := draft_text s;
     thinking := thinking s; error := error s; model_override := model_override s;
     verification_result := verification_result s;
     verification_passed := verification_passed s;
     final_output := final_output s; export_data := export_data s |}.

Definition with_draft (s : WorkflowState) (v : string) : WorkflowState :=
  {| prompt := prompt s; template_doc_id := template_doc_id s;
     reference_doc_ids := reference_doc_ids s; jurisdiction := jurisdiction s;
     plan_text := plan_text s; retrieved_context := retrieved_context s;
     citations := citations s; draft_text := Some v;
     thinking := thinking s; error := error s; model_override := model_override s;
     verification_result := verification_result s;
     verification_passed := verification_passed s;
     final_output := final_output s; export_data := export_data s |}.

Definition with_verification (s : WorkflowState) (result : string)
    (ok : bool) : WorkflowState :=
  {| prompt := prompt s; template_doc_id := template_doc_id s;
     reference_doc_ids := reference_doc_ids s; jurisdiction := jurisdiction s;
     plan_text := plan_text s; retrieved_context := retrieved_context s;
     citations := citations s; draft_text := draft_text s;
     thinking := thinking s; error := error s; model_override := model_override s;
     verification_result := Some result;
     verification_passed := Some ok;
     final_output := final_output s; export_data := export_data s |}.

Definition with_final_output (s : WorkflowState) (v : FinalOutput) : WorkflowState :=
  {| prompt := prompt s; template_doc_id := template_doc_id s;
     reference_doc_ids := reference_doc_ids s; jurisdiction := jurisdiction s;
     plan_text := plan_text s; retrieved_context := retrieved_context s;
     citations := citations s; draft_text := draft_text s;
     thinking := thinking s; error := error s; model_override := model_override s;
     verification_result := verification_result s;
     verification_passed := verification_passed s;
     final_output := Some v; export_data := export_data s |}.

Definition with_export_data (s : WorkflowState) (v : ExportData) : WorkflowState :=
  {| prompt := prompt s; template_doc_id := template_doc_id s;
     reference_doc_ids := reference_doc_ids s; jurisdiction := jurisdiction s;
     plan_text := plan_text s; retrieved_context := retrieved_context s;
     citations := citations s; draft_text := draft_text s;
     thinking := thinking s; error := error s; model_override := model_override s;
     verification_result := verification_result s;
     verification_passed := verification_passed s;
     final_output := final_output s; export_data := Some v |}.

(** What the nodes call outside themselves: the wall clock, the model
    router, the completion clients, the retriever, the prompt templates and
    Python's [str()] of a context.  [clock n] is the [%H:%M:%S] reading
    taken for the label that becomes entry [n] of the trace.
    [validate_model_availability] gives ["valid"] and the text of
    ["issues"].  [complete provider model prompt max_tokens temperature]
    gives the ["content"] of the response of the client of [provider], and
    [None] when the response is empty or has no content. *)
Record Collaborators := {
  clock : nat -> string;
  isoformat_now : string;
  validate_model_availability : outcome (bool * string);
  get_planner_model : outcome (string * ModelProvider);
  get_drafter_model : option Z -> outcome (string * ModelProvider);
  get_verifier_model : outcome (string * ModelProvider);
  complete : ModelProvider -> string -> string -> Z -> Q -> outcome (option string);
  retrieve_with_citations :
    Retrievers.RetrievalContext ->
    outcome (list VectorStore.RetrievalMatch * list Citation);
  get_planner_prompt :
    string -> JurisdictionType -> option string -> list string -> option string -> string;
  get_drafter_prompt : string -> string -> JurisdictionType -> string;
  get_verifier_prompt : string -> list Citation -> string;
  get_disclaimer_for_topic : string -> string;
  context_length : option string -> option (list doc_info) -> Z;
  format_context : list doc_info -> string
}.

(** [state.get("error")] in a condition. *)
Definition has_error (state : WorkflowState) : bool :=
  Citations.truthy_opt (error state).

(** [sub in s] *)
Fixpoint starts_with (sub s : string) : bool :=
  match sub, s with
  | EmptyString, _ => true
  | String a sub', String c s' => Ascii.eqb a c && starts_with sub' s'
  | String _ _, EmptyString => false
  end.

Fixpoint contains (sub s : string) : bool :=
  starts_with sub s ||
  match s with
  | EmptyString => false
  | String _ s' => contains sub s'
  end.

(** The [jurisdiction] entry of [final_output] and of the export metadata:
    the [value] of the member, or ["DIFC"] when the key is missing. *)
Definition jurisdiction_text (state : WorkflowState) : string :=
  match jurisdiction state with
  | Some j => Models.jurisdiction_value j
  | None => "DIFC"
  end.

Section WithCollaborators.
Variable w : Collaborators.

Definition emit (state : WorkflowState) (label : string) : WorkflowState :=
  let thinking := default [] (thinking state) in
  with_thinking state
    (thinking ++ ["[" +:+ clock w (length thinking) +:+ "] " +:+ label])%list.

Definition preflight (state : WorkflowState) : outcome WorkflowState :=
  let state := emit state "Validating workflow inputs" in
  if negb (Citations.truthy_opt (prompt state)) then
    Returned (with_error state "Missing user prompt")
  else
    let state :=
      match jurisdiction state with
      | None => with_jurisdiction state DIFC
      | Some _ => state
      end in
    let state :=
      match thinking state with
      | None => with_thinking state []
      | Some _ => state
      end in
    let state :=
      match citations state with
      | None => with_citations state []
      | Some _ => state
      end in
    match validate_model_availability w with
    | Raised e => Returned (with_error state ("Model routing error: " +:+ e))
    | Returned (valid, issues) =>
        if negb valid then
          Returned (with_error state ("Model availability issues: " +:+ issues))
        else Returned (emit state "Preflight validation completed")
    end.

Definition plan (state : WorkflowState) : outcome WorkflowState :=
  let state := emit state "Creating workflow plan" in
  if has_error state then Returned state
  else
    match get_planner_model w with
    | Raised e => Returned (with_error state ("Planning error: " +:+ e))
    | Returned (model_name, provider) =>
        let state := emit state ("Using " +:+ model_name +:+ " for planning") in
        match prompt state with
        | None => Returned (with_error state "Planning error: 'prompt'")
        | Some query =>
            let prompt :=
              get_planner_prompt w query (default DIFC (jurisdiction state))
                (template_doc_id state)
                (default [] (reference_doc_ids state))
                (model_override state) in
            match complete w provider model_name prompt 2000 (1 # 10) with
            | Raised e => Returned (with_error state ("Planning error: " +:+ e))
            | Returned plan_response =>
                if negb (Citations.truthy_opt plan_response) then
                  Returned (with_error state "Failed to generate plan")
                else
                  let plan_content := Citations.or_empty plan_response in
                  let state := emit state "Plan generation completed" in
                  Returned (with_plan state plan_content)
            end
        end
    end.

(** The entry of [retrieved_context] for one match; [None] is the
    [AttributeError] of a chunk that is a plain dict. *)
Definition doc_info_of (m : VectorStore.RetrievalMatch) : option doc_info :=
  match VectorStore.chunk m with
  | VectorStore.Info _ _ => None
  | VectorStore.Chunk c =>
      let metadata := VectorStore.metadata c in
      let known := VectorStore.has_metadata metadata in
      Some {| d_title :=
                if known
                then default "Unknown" (VectorStore.metadata_get metadata "title")
                else "Unknown";
              d_content := VectorStore.content c;
              d_score := VectorStore.score m;
              d_jurisdiction :=
                if known then VectorStore.metadata_get metadata "jurisdiction"
                else Some "Unknown";
              d_instrument_type :=
                if known then VectorStore.metadata_get metadata "instrument_type"
                else Some "Unknown";
              d_section_ref := VectorStore.section_ref c |}
  end.

Definition retrieve (state : WorkflowState) : outcome WorkflowState :=
  let state := emit state "Retrieving DIFC sources and context" in
  if has_error state then Returned state
  else
    match prompt state with
    | None => Returned (with_error state "Retrieval error: 'prompt'")
    | Some query =>
        let retrieval_context :=
          {| Retrievers.query := query;
             Retrievers.jurisdiction := default DIFC (jurisdiction state);
             Retrievers.max_results := 10;
             Retrievers.include_citations := true;
             Retrievers.boost_difc := true;
             Retrievers.hybrid_search := true |} in
        match retrieve_with_citations w retrieval_context with
        | Raised e => Returned (with_error state ("Retrieval error: " +:+ e))
        | Returned (matches, citations) =>
            let state :=
              emit state ("Retrieved " +:+ pretty (length matches)
                          +:+ " relevant documents") in
            match mapM doc_info_of matches with
            | None =>
                Returned (with_error state
                  "Retrieval error: 'dict' object has no attribute 'metadata'")
            | Some retrieved_docs =>
                let state :=
                  emit state ("Generated " +:+ pretty (length citations)
                              +:+ " verified citations") in
                Returned (with_retrieved state retrieved_docs citations)
            end
        end
    end.

Definition draft (state : WorkflowState) : outcome WorkflowState :=
  let state := emit state "Drafting content with DIFC legal analysis" in
  if has_error state then Returned state
  else
    let context_length :=
      context_length w (plan_text state) (retrieved_context state) in
    match get_drafter_model w (Some context_length) with
    | Raised e => Returned (with_error state ("Drafting error: " +:+ e))
    | Returned (model_name, provider) =>
        let state := emit state ("Using " +:+ model_name +:+ " for drafting") in
        let context_text :=
          match retrieved_context state with
          | Some (_ :: _ as docs) => format_context w (take 5 docs)
          | _ => ""
          end in
        let prompt :=
          get_drafter_prompt w (default "No plan provided" (plan_text state))
            context_text (default DIFC (jurisdiction state)) in
        match complete w provider model_name prompt 4000 (2 # 10) with
        | Raised e => Returned (with_error state ("Drafting error: " +:+ e))
        | Returned draft_response =>
            if negb (Citations.truthy_opt draft_response) then
              Returned (with_error state "Failed to generate draft")
            else
              let draft_content := Citations.or_empty draft_response in
              match Nodes.prompt state with
              | None => Returned (with_error state "Drafting error: 'prompt'")
              | Some topic =>
                  let disclaimer := get_disclaimer_for_topic w topic in
                  let draft_with_disclaimer :=
                    draft_content +:+ "\n\n" +:+ disclaimer in
                  let state := emit state "Draft generation completed" in
                  Returned (with_draft state draft_with_disclaimer)
              end
        end
    end.

Definition verify_citations (state : WorkflowState) : outcome WorkflowState :=
  let state := emit state "Verifying citations and content accuracy" in
  if has_error state then Returned state
  else
    match get_verifier_model w with
    | Raised e => Returned (with_error state ("Verification error: " +:+ e))
    | Returned (model_name, provider) =>
        let state := emit state ("Using " +:+ model_name +:+ " for verification") in
        let prompt :=
          get_verifier_prompt w (default "" (draft_text state))
            (default [] (citations state)) in
        match complete w provider model_name prompt 2000 0 with
        | Raised e => Returned (with_error state ("Verification error: " +:+ e))
        | Returned verify_response =>
            if negb (Citations.truthy_opt verify_response) then
              Returned (with_error state "Failed to verify content")
            else
              let verification_result := Citations.or_empty verify_response in
              let verification_passed :=
                contains "approved" (Py.lower verification_result)
                || contains "verified" (Py.lower verification_result) in
              let state :=
                if verification_passed
                then emit state "Citation verification passed"
                else emit state "Citation verification flagged issues" in
              Returned (with_verification state verification_result
                                          verification_passed)
        end
    end.

(** The three router calls that fill [model_info] / [models_used]; they
    are made outside any [try], so a [Raised] leaves the node. *)
Definition router_model_info : outcome model_info :=
  match get_planner_model w with
  | Raised e => Raised e
  | Returned (p, _) =>
      match get_drafter_model w None with
      | Raised e => Raised e
      | Returned (d, _) =>
          match get_verifier_model w with
          | Raised e => Raised e
          | Returned (v, _) =>
              Returned {| planner := p; drafter := d; verifier := v |}
          end
      end
  end.

Definition human_review (state : WorkflowState) : outcome WorkflowState :=
  let state := emit state "Preparing content for review" in
  match router_model_info with
  | Raised e => Raised e
  | Returned models =>
      let final_output :=
        {| fo_draft := default "" (draft_text state);
           fo_plan := default "" (plan_text state);
           fo_citations := default [] (citations state);
           fo_verification_result := default "" (verification_result state);
           fo_verification_passed := default false (verification_passed state);
           fo_retrieved_context_count :=
             length (default [] (retrieved_context state));
           fo_model_info := models;
           fo_thinking_states := default [] (thinking state);
           fo_jurisdiction := jurisdiction_text state |} in
      let state := emit state "Content prepared for human review" in
      Returned (with_final_output state final_output)
  end.

Definition export (state : WorkflowState) : outcome WorkflowState :=
  let state := emit state "Exporting final content" in
  if has_error state then Returned state
  else
    match router_model_info with
    | Raised e => Raised e
    | Returned models =>
        let export_data :=
          {| ex_content := default "" (draft_text state);
             ex_prompt := default "" (prompt state);
             ex_jurisdiction := jurisdiction_text state;
             ex_citations_count := length (default [] (citations state));
             ex_verification_passed := default false (verification_passed state);
             ex_generated_at := isoformat_now w;
             ex_models_used := models;
             ex_citations := default [] (citations state);
             ex_thinking_states := default [] (thinking state) |} in
        let state := emit state "Export completed" in
        Returned (with_export_data state export_data)
    end.

End WithCollaborators.

End Nodes.

(** ** [agents/graph.py] *)

Module Graph.

Import Models(JurisdictionType, Citation).
Import Py(outcome, Returned, Raised).
Import Nodes(WorkflowState, Collaborators).

(** [langgraph.graph.END] *)
Definition END : string := "__end__".

(** What [_build_graph] hands to [StateGraph]: the nodes by name, the entry
    point, the plain edges, and for each [add_conditional_edges(source, path,
    path_map)] the routing function and its map from labels to targets. *)
Record StateGraph := {
  nodes : Py.dict (WorkflowState -> outcome WorkflowState);
  entry_point : string;
  edges : list (string * string);
  branches : Py.dict ((WorkflowState -> string) * Py.dict string)
}.

Definition _should_continue (state : WorkflowState) : string :=
  if Nodes.has_error state then "end" else "continue".

Definition _build_graph (w : Collaborators) : StateGraph :=
  {| nodes :=
       [ ("preflight", Nodes.preflight w);
         ("plan", Nodes.plan w);
         ("retrieve", Nodes.retrieve w);
         ("draft", Nodes.draft w);
         ("verify_citations", Nodes.verify_citations w);
         ("human_review", Nodes.human_review w);
         ("export", Nodes.export w) ];
     entry_point := "preflight";
     edges :=
       [ ("preflight", "plan");
         ("plan", "retrieve");
         ("retrieve", "draft");
         ("draft", "verify_citations");
         ("verify_citations", "human_review");
         ("human_review", "export");
         ("export", END) ];
     branches :=
       [ ("preflight", (_should_continue, [("continue", "plan"); ("end", END)]));
         ("plan", (_should_continue, [("continue", "retrieve"); ("end", END)]));
         ("retrieve", (_should_continue, [("continue", "draft"); ("end", END)]));
         ("draft", (_should_continue, [("continue", "verify_citations"); ("end", END)])) ] |}.

(** Modelled from the spec: the graph runtime behind [self.app] ([compile],
    [ainvoke] and [astream] belong to the langgraph package, which is not
    among the sources).  Section 4.1: one edge per consecutive pair of
    stages; after Intake, Plan, Retrieve and Draft a guard checks the error
    and, if it is set, leads straight to the end.  So the routing function
    of a stage that has one decides its successor, and the plain edge
    decides it otherwise. *)
Definition successor (g : StateGraph) (name : string) (state : WorkflowState)
    : option string :=
  match Py.dict_get (branches g) name with
  | Some (path, path_map) => Py.dict_get path_map (path state)
  | None => Py.dict_get (edges g) name
  end.

Inductive ending :=
| Completed
| Faulted (msg : string).

(** A run: the stages that returned, each with the snapshot it returned, and
    how the run ended. *)
Record execution := {
  steps : list (string * WorkflowState);
  final : ending
}.

(** Modelled from the spec: the run of the compiled graph.  Section 4.1 and
    section 5: the stages run strictly one after the other, each on the
    snapshot the previous one returned; the snapshot a stage returns is the
    next snapshot; a fault of a stage ends the run at the boundary.
    [limit] bounds the number of stages of one run. *)
Fixpoint execute (g : StateGraph) (limit : nat) (name : string)
    (state : WorkflowState) : execution :=
  if String.eqb name END then {| steps := []; final := Completed |}
  else
    match limit with
    | O => {| steps := []; final := Faulted "Recursion limit reached" |}
    | S limit' =>
        match Py.dict_get (nodes g) name with
        | None => {| steps := []; final := Faulted ("Unknown node " +:+ name) |}
        | Some node =>
            match node state with
            | Raised e => {| steps := []; final := Faulted e |}
            | Returned state' =>
                let rest :=
                  match successor g name state' with
                  | Some next => execute g limit' next state'
                  | None => {| steps := []; final := Completed |}
                  end in
                {| steps := (name, state') :: steps rest; final := final rest |}
            end
        end
    end.

(** The default bound of the runtime on the stages of one run. *)
Definition recursion_limit : nat := 25.

(** [self.app.astream(initial_state, run_config)]: one update per stage. *)
Definition astream (g : StateGraph) (initial_state : WorkflowState) : execution :=
  execute g recursion_limit (entry_point g) initial_state.

(** [self.app.ainvoke(initial_state, run_config)]: the last snapshot. *)
Definition ainvoke (g : StateGraph) (initial_state : WorkflowState)
    : outcome WorkflowState :=
  let ex := astream g initial_state in
  match final ex with
  | Faulted e => Raised e
  | Completed => Returned (default initial_state (snd <$> last (steps ex)))
  end.

(** The [initial_state] of [run] and [stream_run]. *)
Definition initial_state (prompt : string) (jurisdiction : JurisdictionType)
    (template_doc_id : option string) (reference_doc_ids : option (list string))
    (model_override : option string) : WorkflowState :=
  {| Nodes.prompt := Some prompt;
     Nodes.template_doc_id := template_doc_id;
     Nodes.reference_doc_ids := Some (default [] reference_doc_ids);
     Nodes.jurisdiction := Some jurisdiction;
     Nodes.plan_text := None;
     Nodes.retrieved_context := None;
     Nodes.citations := Some [];
     Nodes.draft_text := None;
     Nodes.thinking := Some [];
     Nodes.error := None;
     Nodes.model_override := model_override;
     Nodes.verification_result := None;
     Nodes.verification_passed := None;
     Nodes.final_output := None;
     Nodes.export_data := None |}.

(** The dict that [run] returns. *)
Record RunResult := {
  success : bool;
  output : option (Nodes.ExportData + WorkflowState);
  thinking_states : list string;
  run_error : option string;
  run_verification_passed : bool;
  run_citations : list Citation;
  nodes_executed : nat;
  has_error : bool
}.

Definition run (w : Collaborators) (prompt : string) (jurisdiction : JurisdictionType)
    (template_doc_id : option string) (reference_doc_ids : option (list string))
    (model_override : option string) : RunResult :=
  let initial_state :=
    initial_state prompt jurisdiction template_doc_id reference_doc_ids
                  model_override in
  match ainvoke (_build_graph w) initial_state with
  | Returned result =>
      {| success := true;
         output := Some (match Nodes.export_data result with
                         | Some data => inl data
                         | None => inr result
                         end);
         thinking_states := default [] (Nodes.thinking result);
         run_error := Nodes.error result;
         run_verification_passed := default false (Nodes.verification_passed result);
         run_citations := default [] (Nodes.citations result);
         nodes_executed := length (default [] (Nodes.thinking result));
         has_error := Nodes.has_error result |}
  | Raised e =>
      {| success := false;
         output := None;
         thinking_states := [];
         run_error := Some ("Workflow execution error: " +:+ e);
         run_verification_passed := false;
         run_citations := [];
         nodes_executed := 0;
         has_error := true |}
  end.

(** The events that [stream_run] yields, by their ["type"]. *)
Inductive event :=
| thinking_state (node label : string)
| draft_progress (node content : string) (complete : bool)
| citation (c : Citation)
| error (node err : string)
| done (message : string).

(** What [stream_run] yields for the update of one stage, and whether it
    returns after it. *)
Definition events_of_update (node_name : string) (node_output : WorkflowState)
    : list event * bool :=
  let thinking_events :=
    match last (default [] (Nodes.thinking node_output)) with
    | Some label => [thinking_state node_name label]
    | None => []
    end in
  let draft_events :=
    match Nodes.draft_text node_output with
    | Some text =>
        if String.eqb node_name "draft"
        then [draft_progress node_name (Citations.prefix 200 text +:+ "...") false]
        else []
    | None => []
    end in
  let citation_events := citation <$> default [] (Nodes.citations node_output) in
  let stop := Nodes.has_error node_output in
  let error_events :=
    if stop then [error node_name (Citations.or_empty (Nodes.error node_output))]
    else [] in
  ((thinking_events ++ draft_events ++ citation_events ++ error_events)%list, stop).

Fixpoint stream_updates (updates : list (string * WorkflowState)) (final : ending)
    : list event :=
  match updates with
  | [] =>
      match final with
      | Completed => [done "Workflow completed successfully"]
      | Faulted e => [error "workflow" ("Workflow streaming error: " +:+ e)]
      end
  | (node_name, node_output) :: rest =>
      let '(events, stop) := events_of_update node_name node_output in
      if stop then events else (events ++ stream_updates rest final)%list
  end.

Definition stream_run (w : Collaborators) (prompt : string)
    (jurisdiction : JurisdictionType) (template_doc_id : option string)
    (reference_doc_ids : option (list string)) (model_override : option string)
    : list event :=
  let ex :=
    astream (_build_graph w)
      (initial_state prompt jurisdiction template_doc_id reference_doc_ids
                     model_override) in
  stream_updates (steps ex) (final ex).

End Graph.

(** ** [agents/graph.py]: [SimpleAssistantGraph] *)

Module SimpleAssistantGraph.

Import Models(JurisdictionType, Citation).
Import Py(outcome, Returned, Raised).
Import Nodes(WorkflowState, Collaborators).

(** The combined node of [_build_simple_graph]. *)
Definition simple_assistant (w : Collaborators) (state : WorkflowState)
    : outcome WorkflowState :=
  match Nodes.retrieve w state with
  | Raised e => Raised e
  | Returned retrieval_state =>
      if Nodes.has_error retrieval_state then Returned retrieval_state
      else Nodes.draft w retrieval_state
  end.

Definition _build_simple_graph (w : Collaborators) : Graph.StateGraph :=
  {| Graph.nodes := [ ("assistant", simple_assistant w) ];
     Graph.entry_point := "assistant";
     Graph.edges := [ ("assistant", Graph.END) ];
     Graph.branches := [] |}.

(** The [initial_state] of [run]: four keys. *)
Definition initial_state (prompt : string) (jurisdiction : JurisdictionType)
    : WorkflowState :=
  {| Nodes.prompt := Some prompt;
     Nodes.template_doc_id := None;
     Nodes.reference_doc_ids := None;
     Nodes.jurisdiction := Some jurisdiction;
     Nodes.plan_text := None;
     Nodes.retrieved_context := None;
     Nodes.citations := Some [];
     Nodes.draft_text := None;
     Nodes.thinking := Some [];
     Nodes.error := None;
     Nodes.model_override := None;
     Nodes.verification_result := None;
     Nodes.verification_passed := None;
     Nodes.final_output := None;
     Nodes.export_data := None |}.

(** The dict that [run] returns. *)
Record AssistantResult := {
  success : bool;
  content : string;
  citations : list Citation;
  error : option string;
  thinking_states : list string
}.

Definition run (w : Collaborators) (prompt mode : string)
    (jurisdiction : JurisdictionType) (vault_project_id : option string)
    : AssistantResult :=
  match Graph.ainvoke (_build_simple_graph w) (initial_state prompt jurisdiction) with
  | Returned result =>
      {| success := true;
         content := default "" (Nodes.draft_text result);
         citations := default [] (Nodes.citations result);
         error := Nodes.error result;
         thinking_states := default [] (Nodes.thinking result) |}
  | Raised e =>
      {| success := false;
         content := "";
         citations := [];
         error := Some ("Assistant error: " +:+ e);
         thinking_states := [] |}
  end.

End SimpleAssistantGraph.

(** ** [agents/router.py] *)

Module Router.

Import Models(JurisdictionType, DIFC).
Import Nodes(ModelProvider, OPENAI, ANTHROPIC).
Import Py(outcome, Returned, Raised).

Inductive ModelCapability := REASONING | GENERATION | VERIFICATION | LONG_CONTEXT.

#[export] Instance ModelCapability_eq_dec : EqDecision ModelCapability.
Proof. solve_decision. Defined.

#[export] Instance ModelProvider_eq_dec : EqDecision ModelProvider.
Proof. solve_decision. Defined.

Definition capability_value (capability : ModelCapability) : string :=
  match capability with
  | REASONING => "reasoning"
  | GENERATION => "generation"
  | VERIFICATION => "verification"
  | LONG_CONTEXT => "long_context"
  end.

Definition DEFAULT_MODELS : list (ModelCapability * string) :=
  [ (REASONING, "o1");
    (GENERATION, "gpt-4.1");
    (VERIFICATION, "claude-3.7-sonnet");
    (LONG_CONTEXT, "claude-3.7-sonnet") ].

Definition MODEL_PROVIDERS : Py.dict ModelProvider :=
  [ ("o1", OPENAI);
    ("o3", OPENAI);
    ("gpt-4.1", OPENAI);
    ("gpt-4-turbo", OPENAI);
    ("claude-3.7-sonnet", ANTHROPIC);
    ("claude-3-opus", ANTHROPIC);
    ("claude-3-haiku", ANTHROPIC) ].

Definition FALLBACK_MODELS : Py.dict (list string) :=
  [ ("o1", ["gpt-4.1"; "claude-3.7-sonnet"]);
    ("gpt-4.1", ["gpt-4-turbo"; "claude-3.7-sonnet"]);
    ("claude-3.7-sonnet", ["claude-3-opus"; "gpt-4.1"]);
    ("o3", ["o1"; "gpt-4.1"]);
    ("claude-3-opus", ["claude-3.7-sonnet"; "gpt-4.1"]) ].

(** [DEFAULT_MODELS.get(capability)] *)
Fixpoint capability_get (d : list (ModelCapability * string))
    (capability : ModelCapability) : option string :=
  match d with
  | [] => None
  | (c, model) :: rest =>
      if bool_decide (c = capability) then Some model else capability_get rest capability
  end.

Record ModelRouter := {
  override_model : option string;
  _available_models : Py.dict bool
}.

(** [_get_available_models], from the two keys of the settings. *)
Definition _get_available_models (openai_api_key anthropic_api_key : option string)
    : Py.dict bool :=
  let available : Py.dict bool := [] in
  let available :=
    if Citations.truthy_opt openai_api_key
    then foldl (fun d model => Py.dict_set d model true) available
               ["o1"; "o3"; "gpt-4.1"; "gpt-4-turbo"]
    else available in
  let available :=
    if Citations.truthy_opt anthropic_api_key
    then foldl (fun d model => Py.dict_set d model true) available
               ["claude-3.7-sonnet"; "claude-3-opus"; "claude-3-haiku"]
    else available in
  available.

(** [__init__] *)
Definition init (openai_api_key anthropic_api_key : option string) : ModelRouter :=
  {| override_model := None;
     _available_models := _get_available_models openai_api_key anthropic_api_key |}.

(** [model in self._available_models] *)
Definition is_key (self : ModelRouter) (model : string) : bool :=
  match Py.dict_get (_available_models self) model with
  | Some _ => true
  | None => false
  end.

(** [self._available_models.get(model, False)] *)
Definition is_available (self : ModelRouter) (model : string) : bool :=
  default false (Py.dict_get (_available_models self) model).

Definition set_manual_override (self : ModelRouter) (model : option string)
    : ModelRouter :=
  {| override_model :=
       match model with
       | Some m => if Py.truthy m && is_key self m then Some m else None
       | None => None
       end;
     _available_models := _available_models self |}.

(** [self.MODEL_PROVIDERS.get(model, ModelProvider.OPENAI)] *)
Definition provider_of (model : string) : ModelProvider :=
  default OPENAI (Py.dict_get MODEL_PROVIDERS model).

(** [context_length and context_length > 32000] *)
Definition long_context (context_length : option Z) : bool :=
  match context_length with
  | Some n => negb (n =? 0)%Z && (32000 <? n)%Z
  | None => false
  end.

Definition no_models : string := "No models available - check API key configuration".

Definition get_model_for_capability (self : ModelRouter)
    (capability : ModelCapability) (context_length : option Z)
    (jurisdiction : JurisdictionType) : outcome (string * ModelProvider) :=
  if Citations.truthy_opt (override_model self) then
    let model := Citations.or_empty (override_model self) in
    Returned (model, provider_of model)
  else
    let capability :=
      if long_context context_length then LONG_CONTEXT else capability in
    let primary_model := default "gpt-4.1" (capability_get DEFAULT_MODELS capability) in
    if is_key self primary_model then Returned (primary_model, provider_of primary_model)
    else
      let fallbacks := default [] (Py.dict_get FALLBACK_MODELS primary_model) in
      match List.find (is_key self) fallbacks with
      | Some fallback => Returned (fallback, provider_of fallback)
      | None =>
          match List.find (fun kv : string * bool => kv.2) (_available_models self) with
          | Some (model, _) => Returned (model, provider_of model)
          | None => Raised no_models
          end
      end.

Definition get_planner_model (self : ModelRouter) : outcome (string * ModelProvider) :=
  get_model_for_capability self REASONING None DIFC.

Definition get_drafter_model (self : ModelRouter) (context_length : option Z)
    : outcome (string * ModelProvider) :=
  if long_context context_length
  then get_model_for_capability self LONG_CONTEXT None DIFC
  else get_model_for_capability self GENERATION None DIFC.

Definition get_verifier_model (self : ModelRouter) : outcome (string * ModelProvider) :=
  get_model_for_capability self VERIFICATION None DIFC.

Definition get_assistant_model (self : ModelRouter) (mode : string)
    (context_length : option Z) : outcome (string * ModelProvider) :=
  if String.eqb mode "assist" then get_model_for_capability self GENERATION None DIFC
  else if String.eqb mode "draft" then
    if long_context context_length
    then get_model_for_capability self LONG_CONTEXT None DIFC
    else get_model_for_capability self REASONING None DIFC
  else get_model_for_capability self GENERATION None DIFC.

Definition _get_context_limit (model_name : string) : Z :=
  default 32000%Z
    (Py.dict_get
       [ ("o1", 128000%Z); ("o3", 128000%Z); ("gpt-4.1", 128000%Z);
         ("gpt-4-turbo", 128000%Z); ("claude-3.7-sonnet", 200000%Z);
         ("claude-3-opus", 200000%Z); ("claude-3-haiku", 200000%Z) ]
       model_name).

(** The dict that [validate_model_availability] returns. *)
Record Validation := {
  valid : bool;
  issues : list string;
  warnings : list string;
  available_count : nat;
  total_count : nat
}.

(** [any(MODEL_PROVIDERS.get(model) == provider and available ...)] *)
Definition has_provider (self : ModelRouter) (provider : ModelProvider) : bool :=
  existsb (fun kv : string * bool =>
             bool_decide (Py.dict_get MODEL_PROVIDERS kv.1 = Some provider) && kv.2)
          (_available_models self).

(** One round of the loop over [DEFAULT_MODELS.items()]. *)
Definition check_primary (self : ModelRouter) (found : list string * list string)
    (entry : ModelCapability * string) : list string * list string :=
  let '(issues, warnings) := found in
  let '(capability, model) := entry in
  if negb (is_available self model) then
    let fallbacks := default [] (Py.dict_get FALLBACK_MODELS model) in
    let has_fallback := existsb (is_available self) fallbacks in
    if negb has_fallback then
      ((issues ++ ["No available model for " +:+ capability_value capability
                   +:+ " capability"])%list, warnings)
    else
      (issues,
       (warnings ++ ["Primary " +:+ capability_value capability +:+ " model ("
                     +:+ model +:+ ") unavailable, using fallback"])%list)
  else (issues, warnings).

Definition validate_model_availability (self : ModelRouter) : Validation :=
  let has_openai := has_provider self OPENAI in
  let has_anthropic := has_provider self ANTHROPIC in
  let found : list string * list string :=
    if negb has_openai && negb has_anthropic then ([no_models], [])
    else if negb has_openai then
      ([], ["OpenAI models unavailable - limited to Anthropic models"])
    else if negb has_anthropic then
      ([], ["Anthropic models unavailable - limited to OpenAI models"])
    else ([], []) in
  let '(issues, warnings) := foldl (check_primary self) found DEFAULT_MODELS in
  {| valid := Py.empty issues;
     issues := issues;
     warnings := warnings;
     available_count :=
       length (filter (fun kv : string * bool => kv.2 = true) (_available_models self));
     total_count := length (_available_models self) |}.

End Router.

(** ** [rag/vector_store.py]: what [build_index] infers from a file name *)

Module VectorStoreBuild.

Import Models.

Definition _infer_jurisdiction (filename : string) : JurisdictionType :=
  let filename_lower := Py.lower filename in
  if Nodes.contains "difc" filename_lower then DIFC
  else if Nodes.contains "dfsa" filename_lower then DFSA
  else if Nodes.contains "uae" filename_lower then UAE
  else OTHER.

Definition _infer_instrument_type (filename : string) : InstrumentType :=
  let filename_lower := Py.lower filename in
  if Nodes.contains "law" filename_lower then LAW
  else if Nodes.contains "regulation" filename_lower then REGULATION
  else if Nodes.contains "rule" filename_lower then COURT_RULE
  else if Nodes.contains "rulebook" filename_lower then RULEBOOK
  else OTHER_INSTRUMENT.

End VectorStoreBuild.

(** ** [api/assistant.py]: the chunks of a streamed answer *)

Module Assistant.

Import Py(outcome, Returned, Raised).

(** [_chunk_text]; [range] raises [ValueError] on a zero step. *)
Definition _chunk_text (text : string) (chunk_size : Z) : outcome (list string) :=
  let words := Py.split text in
  if (chunk_size =? 0)%Z then Raised "range() arg 3 must not be zero"
  else
    Returned
      ((fun i => Py.join " " (Py.slice words i (i + chunk_size)))
         <$> Py.range_by (Z.of_nat (length words)) chunk_size).

End Assistant.

(** ** [rag/embeddings.py]: [OpenAIEmbeddingProvider] *)

Module Embeddings.

Import Py(outcome, Returned, Raised).

Section OpenAI.
(** [create k texts]: the answer of the call number [k] (from 0) that the
    process makes to [client.embeddings.create], as the list
    [[item.embedding for item in response.data]]. *)
Variable create : nat -> list string -> outcome (list (list Q)).

(** The loop of [_embed_with_retry] with [rounds] attempts left, [calls]
    calls made so far: the outcome and the calls made after it.
    [Returned None] is the end of the loop without a [return]. *)
Fixpoint attempts (rounds : nat) (texts : list string) (calls : nat)
    : outcome (option (list (list Q))) * nat :=
  match rounds with
  | O => (Returned None, calls)
  | S rounds' =>
      match create calls texts with
      | Returned embeddings => (Returned (Some embeddings), S calls)
      | Raised e =>
          match rounds' with
          | O => (Raised e, S calls)
          | S _ => attempts rounds' texts (S calls)
          end
      end
  end.

Definition _embed_with_retry (texts : list string) (max_retries : Z) (calls : nat)
    : outcome (option (list (list Q))) * nat :=
  attempts (Z.to_nat (max_retries + 1)) texts calls.

(** The loop of [embed_texts] over the batches. *)
Fixpoint embed_batches (batches : list (list string)) (calls : nat)
    (all_embeddings : list (list Q)) : outcome (list (list Q)) * nat :=
  match batches with
  | [] => (Returned all_embeddings, calls)
  | batch :: rest =>
      match _embed_with_retry batch 3 calls with
      | (Raised e, calls) => (Raised e, calls)
      | (Returned None, calls) => (Raised "'NoneType' object is not iterable", calls)
      | (Returned (Some batch_embeddings), calls) =>
          embed_batches rest calls (all_embeddings ++ batch_embeddings)%list
      end
  end.

Definition batch_size : Z := 100.

Definition embed_texts (texts : list string) (calls : nat)
    : outcome (list (list Q)) * nat :=
  if Py.empty texts then (Returned [], calls)
  else
    embed_batches
      ((fun i => Py.slice texts i (i + batch_size))
         <$> Py.range_by (Z.of_nat (length texts)) batch_size)
      calls [].

Definition embed_query (query : string) (calls : nat) : outcome (list Q) * nat :=
  match embed_texts [query] calls with
  | (Raised e, calls) => (Raised e, calls)
  | (Returned results, calls) => (Returned (default [] (head results)), calls)
  end.

End OpenAI.

End Embeddings.

(** ** [examples/citations_check.py] *)

Module CitationsCheck.

Local Open Scope Q_scope.

Definition normalize (s : string) : string :=
  let s := Py.lower s in
  let s := Citations.blank_punctuation s in
  Py.strip (Citations.collapse_whitespace false s).

Definition jaccard (a b : string) : Q :=
  let A : gset string := list_to_set (Py.split (normalize a)) in
  let B : gset string := list_to_set (Py.split (normalize b)) in
  if bool_decide (A = ∅) || bool_decide (B = ∅) then 0
  else Citations.ratio (size (A ∩ B)) (size (A ∪ B)).

(** A candidate is a dict that may have a ["title"] and a ["section"]. *)
Record candidate := {
  title : option string;
  section : option string
}.

Record match_result := {
  passed : bool;
  best : option candidate;
  score : Q
}.

(** The [score] of one candidate in the loop of [binary_match]. *)
Definition candidate_score (claim : string) (c : candidate) : Q :=
  Py.max3 (jaccard claim (default "" (title c)))
          (jaccard claim (default "" (section c)))
          (jaccard claim (default "" (title c) +:+ " " +:+ default "" (section c))).

Fixpoint best_match (claim : string) (candidates : list candidate)
    (best : option candidate) (best_score : Q) : option candidate * Q :=
  match candidates with
  | [] => (best, best_score)
  | c :: rest =>
      let score := candidate_score claim c in
      if negb (Qle_bool score best_score) then best_match claim rest (Some c) score
      else best_match claim rest best best_score
  end.

Definition binary_match (claim : string) (candidates : list candidate)
    (threshold : Q) : match_result :=
  let '(best, best_score) := best_match claim candidates None (-1) in
  {| passed := Qle_bool threshold best_score;
     best := best;
     score := Py.round3 best_score |}.

End CitationsCheck.

(** ** [examples/rag_ingest.py] *)

Module RagIngest.

(** [split_text], its [while] loop run with a bound on its rounds as for
    [VectorStore._split_text]; the loop is left when [i < 0]. *)
Fixpoint split_loop (fuel : nat) (words : list string) (size overlap : Z)
    (i : Z) (chunks : list string) : option (list string) :=
  match fuel with
  | O => None
  | S fuel' =>
      if (i <? Z.of_nat (length words))%Z then
        let chunk := Py.slice words i (i + size) in
        let chunks := (chunks ++ [Py.join " " chunk])%list in
        let i := (i + (size - overlap))%Z in
        if (i <? 0)%Z then Some chunks
        else split_loop fuel' words size overlap i chunks
      else Some chunks
  end.

Definition split_text (fuel : nat) (text : string) (size overlap : Z)
    : option (list string) :=
  split_loop fuel (Py.split text) size overlap 0 [].

End RagIngest.

(** ** Sample inputs *)

Module Samples.

(** The claim of the examples. *)
Definition leave_claim : string :=
  "Employees get minimum leave under Employment Law".

(** One candidate under a jurisdiction of choice. *)
Definition employment_law (j : Models.JurisdictionType) : Citations.CitationCandidate :=
  {| Citations.title := "Employment Law No. 2 of 2019";
     Citations.section := Some "Part 9 - Leave";
     Citations.url := None;
     Citations.jurisdiction := j;
     Citations.instrument_type := Models.LAW;
     Citations.content_snippet := None |}.

Definition data_protection_law (j : Models.JurisdictionType)
    : Citations.CitationCandidate :=
  {| Citations.title := "Data Protection Law 2020";
     Citations.section := Some "Article 27";
     Citations.url := None;
     Citations.jurisdiction := j;
     Citations.instrument_type := Models.LAW;
     Citations.content_snippet := None |}.

(** A retriever with nothing indexed and the global verifier. *)
Definition retriever : Retrievers.DIFCRetriever :=
  {| Retrievers.vector_store :=
       {| VectorStore._index := None;
          VectorStore._metadata := None;
          VectorStore._chunks := [] |};
     Retrievers.citation_verifier := Citations.citation_verifier |}.

(** Two passages for the hybrid search. *)
Definition passage (chunk_id : string) : VectorStore.chunk_entry :=
  VectorStore.Chunk
    {| VectorStore.id := chunk_id;
       VectorStore.doc_id := "doc";
       VectorStore.content := "text";
       VectorStore.chunk_index := 0;
       VectorStore.section_ref := None;
       VectorStore.metadata := None |}.

Definition ranked (chunk_id : string) (score : Q) : VectorStore.RetrievalMatch :=
  {| VectorStore.chunk := passage chunk_id; VectorStore.score := score |}.

(** A store of two passages: the index ranks A (0.9) before B (0.5). *)
Definition store : VectorStore.Store :=
  {| VectorStore._index :=
       Some {| VectorStore.ntotal := 2;
               VectorStore.index_search :=
                 fun _ _ => Py.Returned [(0.9%Q, 0%Z); (0.5%Q, 1%Z)] |};
     VectorStore._metadata := Some (Some [Some "A"; Some "B"]);
     VectorStore._chunks :=
       [ ("A", VectorStore.Chunk
                 {| VectorStore.id := "A"; VectorStore.doc_id := "doc";
                    VectorStore.content := "Annual leave";
                    VectorStore.chunk_index := 0;
                    VectorStore.section_ref := None;
                    VectorStore.metadata := None |});
         ("B", VectorStore.Chunk
                 {| VectorStore.id := "B"; VectorStore.doc_id := "doc";
                    VectorStore.content := "Employment law on leave";
                    VectorStore.chunk_index := 1;
                    VectorStore.section_ref := None;
                    VectorStore.metadata := None |}) ] |}.

Definition embed_query (query : string) : Py.outcome (list Q) :=
  Py.Returned [1%Q; 0%Q].

(** Collaborators of a run in which the router offers the default models,
    the OpenAI models answer, and the verification model gives [reply]. *)
Definition collaborators (reply : option string) : Nodes.Collaborators :=
  {| Nodes.clock := fun _ => "12:00:00";
     Nodes.isoformat_now := "2025-01-01T12:00:00";
     Nodes.validate_model_availability := Py.Returned (true, "[]");
     Nodes.get_planner_model := Py.Returned ("o1", Nodes.OPENAI);
     Nodes.get_drafter_model := fun _ => Py.Returned ("gpt-4.1", Nodes.OPENAI);
     Nodes.get_verifier_model := Py.Returned ("claude-3.7-sonnet", Nodes.ANTHROPIC);
     Nodes.complete :=
       fun provider _ _ _ _ =>
         match provider with
         | Nodes.OPENAI => Py.Returned (Some "Generated text")
         | Nodes.ANTHROPIC => Py.Returned reply
         end;
     Nodes.retrieve_with_citations := fun _ => Py.Returned ([], []);
     Nodes.get_planner_prompt := fun _ _ _ _ _ => "planner prompt";
     Nodes.get_drafter_prompt := fun _ _ _ => "drafter prompt";
     Nodes.get_verifier_prompt := fun _ _ => "verifier prompt";
     Nodes.get_disclaimer_for_topic := fun _ => "Disclaimer";
     Nodes.context_length := fun _ _ => 0%Z;
     Nodes.format_context := fun _ => "" |}.

(** The start of a run on a plain instruction. *)
Definition start : Nodes.WorkflowState :=
  Graph.initial_state "Draft a leave policy" Models.DIFC None None None.

End Samples.

(** ** Notions used in the statements *)

Module Notions.

(** Every entry of [combined_scores] sits under the id of its chunk. *)
Definition keyed_by_id (d : Py.dict VectorStore.combined) : Prop :=
  forall k e, Py.dict_get d k = Some e ->
    VectorStore.id_of (VectorStore.c_chunk e) = Some k.

(** The stages with a guard behind them. *)
Definition guarded : list string := ["preflight"; "plan"; "retrieve"; "draft"].

(** The stages that can follow another stage. *)
Definition later_stage (w : Nodes.Collaborators)
    (node : Nodes.WorkflowState -> Py.outcome Nodes.WorkflowState) : Prop :=
  node = Nodes.plan w \/ node = Nodes.retrieve w \/ node = Nodes.draft w \/
  node = Nodes.verify_citations w \/ node = Nodes.human_review w \/
  node = Nodes.export w.

(** [package] is the review package that [human_review] compiles from the
    keys of [state]: copies of what the state holds. *)
Definition review_package_of (state : Nodes.WorkflowState)
    (package : Nodes.FinalOutput) : Prop :=
  Nodes.fo_draft package = default "" (Nodes.draft_text state) /\
  Nodes.fo_plan package = default "" (Nodes.plan_text state) /\
  Nodes.fo_citations package = default [] (Nodes.citations state) /\
  Nodes.fo_verification_result package
    = default "" (Nodes.verification_result state) /\
  Nodes.fo_verification_passed package
    = default false (Nodes.verification_passed state) /\
  Nodes.fo_retrieved_context_count package
    = length (default [] (Nodes.retrieved_context state)) /\
  Nodes.fo_jurisdiction package = Nodes.jurisdiction_text state.

(** [state'] has the error, the model-written texts and every other key of
    [state], except for the trace, which may have grown, and for
    [final_output], which may have been set to the review package compiled
    from the keys of [state]. *)
Definition carries (state state' : Nodes.WorkflowState) : Prop :=
  Nodes.error state' = Nodes.error state /\
  Nodes.plan_text state' = Nodes.plan_text state /\
  Nodes.draft_text state' = Nodes.draft_text state /\
  Nodes.verification_result state' = Nodes.verification_result state /\
  Nodes.verification_passed state' = Nodes.verification_passed state /\
  Nodes.retrieved_context state' = Nodes.retrieved_context state /\
  Nodes.citations state' = Nodes.citations state /\
  Nodes.export_data state' = Nodes.export_data state /\
  Nodes.prompt state' = Nodes.prompt state /\
  Nodes.jurisdiction state' = Nodes.jurisdiction state /\
  Nodes.template_doc_id state' = Nodes.template_doc_id state /\
  Nodes.reference_doc_ids state' = Nodes.reference_doc_ids state /\
  Nodes.model_override state' = Nodes.model_override state /\
  (Nodes.final_output state' = Nodes.final_output state \/
   exists package,
     Nodes.final_output state' = Some package /\ review_package_of state package) /\
  exists labels,
    Nodes.thinking state' = Some (default [] (Nodes.thinking state) ++ labels)%list.

(** The guard holds in a run: a guarded stage that returns a state with
    the error set is the last step, and the run is complete. *)
Definition halts_at_guard (ex : Graph.execution) : Prop :=
  forall i name state,
    Graph.steps ex !! i = Some (name, state) ->
    Nodes.has_error state = true -> name ∈ guarded ->
    length (Graph.steps ex) = S i /\ Graph.final ex = Graph.Completed.

(** A text in the form that [normalize_text] produces: lower-case letters
    and digits in words that single blanks separate.  [single_spaced
    after_blank s] reads the text after a blank ([after_blank]) or after a
    character of a word. *)
Fixpoint single_spaced (after_blank : bool) (s : string) : bool :=
  match s with
  | EmptyString => negb after_blank
  | String c r =>
      if Ascii.eqb c " "%char then negb after_blank && single_spaced true r
      else (Py.is_lower c || Py.is_digit c) && single_spaced false r
  end.

Definition normalized (s : string) : bool :=
  match s with EmptyString => true | _ => single_spaced true s end.

(** The same without the conditions on the two ends of the text. *)
Fixpoint spaced (after_blank : bool) (s : string) : bool :=
  match s with
  | EmptyString => true
  | String c r =>
      if Ascii.eqb c " "%char then negb after_blank && spaced true r
      else (Py.is_lower c || Py.is_digit c) && spaced false r
  end.

(** Only lower-case letters, digits and whitespace. *)
Fixpoint plain (s : string) : bool :=
  match s with
  | EmptyString => true
  | String c r => (Py.is_lower c || Py.is_digit c || Py.is_space c) && plain r
  end.

(** A chunk entry that is a [DocumentChunk]. *)
Definition is_chunk (e : VectorStore.chunk_entry) : bool :=
  match e with VectorStore.Chunk _ => true | VectorStore.Info _ _ => false end.

(** A [DocumentChunk] whose metadata is not empty and has [value] under
    [key]. *)
Definition tagged (key value : string) (e : VectorStore.chunk_entry) : bool :=
  match e with
  | VectorStore.Chunk c =>
      VectorStore.has_metadata (VectorStore.metadata c) &&
      bool_decide (VectorStore.metadata_get (VectorStore.metadata c) key = Some value)
  | VectorStore.Info _ _ => false
  end.

(** A [DocumentChunk] without metadata ([None] or the empty dict). *)
Definition untagged (e : VectorStore.chunk_entry) : bool :=
  match e with
  | VectorStore.Chunk c => negb (VectorStore.has_metadata (VectorStore.metadata c))
  | VectorStore.Info _ _ => false
  end.

(** Any of the seven stages of the workflow. *)
Definition stage (w : Nodes.Collaborators)
    (node : Nodes.WorkflowState -> Py.outcome Nodes.WorkflowState) : Prop :=
  node = Nodes.preflight w \/ later_stage w node.

(** The stages that write an output key only when they succeed. *)
Definition worker (w : Nodes.Collaborators)
    (node : Nodes.WorkflowState -> Py.outcome Nodes.WorkflowState) : Prop :=
  node = Nodes.plan w \/ node = Nodes.retrieve w \/ node = Nodes.draft w \/
  node = Nodes.verify_citations w \/ node = Nodes.export w.

(** [state'] has the output keys of [state]. *)
Definition same_outputs (state state' : Nodes.WorkflowState) : Prop :=
  Nodes.plan_text state' = Nodes.plan_text state /\
  Nodes.retrieved_context state' = Nodes.retrieved_context state /\
  Nodes.citations state' = Nodes.citations state /\
  Nodes.draft_text state' = Nodes.draft_text state /\
  Nodes.verification_result state' = Nodes.verification_result state /\
  Nodes.verification_passed state' = Nodes.verification_passed state /\
  Nodes.final_output state' = Nodes.final_output state /\
  Nodes.export_data state' = Nodes.export_data state.

(** The events after which [stream_run] yields nothing. *)
Definition terminal (e : Graph.event) : bool :=
  match e with
  | Graph.error _ _ | Graph.done _ => true
  | _ => false
  end.

(** The stages in the order of the edges of [_build_graph]. *)
Definition stage_names : list string :=
  ["preflight"; "plan"; "retrieve"; "draft"; "verify_citations"; "human_review"; "export"].

(** A run that starts at stage number [k]: its stages are the stages from
    [k] on, in order, up to where it ends; and it goes through all of them
    if it ends without a fault and no stage returns a state with the error
    set. *)
Definition run_from (k : nat) (ex : Graph.execution) : Prop :=
  (Graph.steps ex).*1 `prefix_of` drop k stage_names /\
  (Graph.final ex = Graph.Completed ->
   Forall (fun step => Nodes.has_error step.2 = false) (Graph.steps ex) ->
   (Graph.steps ex).*1 = drop k stage_names).

End Notions.

(** * Properties *)

Import (hints) Models.
Import Notions.
Open Scope list_scope.

(** ** The Python helpers *)

Section SortFacts.
Context {A : Type} (key : A -> Q).

Lemma insert_desc_perm (x : A) (l : list A) :
  Py.insert_desc key x l ≡ₚ x :: l.
Proof.
  induction l as [|y ys IH]; simpl; [done|].
  destruct (Qle_bool (key y) (key x)); [done|].
  rewrite IH. apply Permutation_swap.
Qed.

Lemma sort_desc_perm (l : list A) : Py.sort_desc key l ≡ₚ l.
Proof.
  induction l as [|x xs IH]; simpl; [done|].
  by rewrite insert_desc_perm, IH.
Qed.

Lemma insert_desc_sorted (x : A) (l : list A) :
  Py.sorted_desc key l -> Py.sorted_desc key (Py.insert_desc key x l).
Proof.
  induction 1 as [|y ys Hall Hs IH]; simpl.
  - constructor; [constructor | constructor].
  - destruct (Qle_bool (key y) (key x)) eqn:E.
    + apply Qle_bool_iff in E.
      constructor; [|by constructor].
      constructor; [done|].
      eapply Forall_impl; [exact Hall|]. simpl. intros z Hz.
      by apply Qle_trans with (key y).
    + assert (key x <= key y)%Q as Hxy.
      { destruct (Qlt_le_dec (key x) (key y)) as [Hlt|Hle].
        - by apply Qlt_le_weak.
        - apply Qle_bool_iff in Hle. congruence. }
      constructor; [|done].
      rewrite insert_desc_perm. by constructor.
Qed.

Lemma sort_desc_sorted (l : list A) : Py.sorted_desc key (Py.sort_desc key l).
Proof.
  induction l as [|x xs IH]; simpl; [constructor|].
  by apply insert_desc_sorted.
Qed.

Lemma sorted_desc_take (n : nat) (l : list A) :
  Py.sorted_desc key l -> Py.sorted_desc key (take n l).
Proof.
  intros Hs. revert n.
  induction Hs as [|x l Hall Hs IH]; intros [|n]; simpl; try constructor.
  - apply Forall_take. exact Hall.
  - apply IH.
Qed.

Lemma sorted_desc_slice_to (hi : Z) (l : list A) :
  Py.sorted_desc key l -> Py.sorted_desc key (Py.slice_to l hi).
Proof.
  intros Hs. unfold Py.slice_to, Py.slice.
  replace (Z.to_nat (Py.clamp_index (Z.of_nat (length l)) 0)) with 0%nat.
  - rewrite drop_0. by apply sorted_desc_take.
  - unfold Py.clamp_index. simpl. lia.
Qed.

(** In a list sorted by descending key, an earlier entry never has a
    smaller key than a later one. *)
Lemma sorted_desc_lookup (l : list A) (i j : nat) (r1 r2 : A) :
  Py.sorted_desc key l -> (i < j)%nat ->
  l !! i = Some r1 -> l !! j = Some r2 -> (key r2 <= key r1)%Q.
Proof.
  intros Hs. revert i j.
  induction Hs as [|x l Hall Hs IH]; intros i j Hij H1 H2; [done|].
  destruct j as [|j]; [lia|].
  destruct i as [|i]; simpl in *.
  - injection H1 as <-.
    rewrite Forall_forall in Hall. apply Hall.
    by eapply list_elem_of_lookup_2.
  - apply (IH i j); [lia|done..].
Qed.

End SortFacts.

Lemma min_le_r (a b : Q) : (Py.min a b <= b)%Q.
Proof.
  unfold Py.min. destruct (Qle_bool a b) eqn:E.
  - by apply Qle_bool_iff.
  - apply Qle_refl.
Qed.

Lemma min_le_l (a b : Q) : (Py.min a b <= a)%Q.
Proof.
  unfold Py.min. destruct (Qle_bool a b) eqn:E; [apply Qle_refl|].
  destruct (Qlt_le_dec b a) as [H|H]; [by apply Qlt_le_weak|].
  apply Qle_bool_iff in H. congruence.
Qed.

Lemma min_glb (a b c : Q) : (c <= a)%Q -> (c <= b)%Q -> (c <= Py.min a b)%Q.
Proof. intros Ha Hb. unfold Py.min. by destruct (Qle_bool a b). Qed.

Lemma min_mono_l (a a' b : Q) : (a <= a')%Q -> (Py.min a b <= Py.min a' b)%Q.
Proof.
  intros H. apply min_glb; [|apply min_le_r].
  eapply Qle_trans; [apply min_le_l | exact H].
Qed.

(** Capping a capped value changes nothing. *)
Lemma min_min (a b : Q) : Py.min (Py.min a b) b = Py.min a b.
Proof.
  unfold Py.min at 2 3. destruct (Qle_bool a b) eqn:E.
  - unfold Py.min. by rewrite E.
  - unfold Py.min.
    assert (Qle_bool b b = true) as -> by (apply Qle_bool_iff, Qle_refl). done.
Qed.

Lemma round_half_even_bounds (y : Q) :
  (Qfloor y <= Py.round_half_even y <= Qfloor y + 1)%Z.
Proof.
  unfold Py.round_half_even.
  destruct (_ ?= _)%Q; [destruct (Z.even _)|..]; lia.
Qed.

Lemma round_half_even_mono (x y : Q) :
  (x <= y)%Q -> (Py.round_half_even x <= Py.round_half_even y)%Z.
Proof.
  intros Hxy.
  pose proof (Qfloor_resp_le _ _ Hxy) as Hfl.
  pose proof (round_half_even_bounds x) as Hx.
  pose proof (round_half_even_bounds y) as Hy.
  destruct (Z.eq_dec (Qfloor x) (Qfloor y)) as [Heq|Hne]; [|lia].
  unfold Py.round_half_even in *. rewrite <- Heq in *.
  destruct (x - inject_Z (Qfloor x) ?= 1 # 2)%Q eqn:Ex;
    destruct (y - inject_Z (Qfloor x) ?= 1 # 2)%Q eqn:Ey;
    try (destruct (Z.even (Qfloor x))); try lia; exfalso;
    repeat match goal with
           | H : (_ ?= _)%Q = Eq |- _ => apply Qeq_alt in H
           | H : (_ ?= _)%Q = Lt |- _ => apply Qlt_alt in H
           | H : (_ ?= _)%Q = Gt |- _ => apply Qgt_alt in H
           end;
    generalize dependent (inject_Z (Qfloor x)); intros; lra.
Qed.

Lemma round3_mono (x y : Q) : (x <= y)%Q -> (Py.round3 x <= Py.round3 y)%Q.
Proof.
  intros H. unfold Py.round3.
  apply Qmult_le_compat_r; [|discriminate].
  rewrite <- Zle_Qle. apply round_half_even_mono.
  apply Qmult_le_compat_r; [exact H | discriminate].
Qed.

Lemma round3_le_1 (x : Q) : (x <= 1)%Q -> (Py.round3 x <= 1)%Q.
Proof.
  intros H. apply round3_mono in H.
  eapply Qle_trans; [exact H|]. vm_compute. discriminate.
Qed.

(** ** C5: Jaccard similarity *)

Lemma split_from_word (w s : string) :
  w <> EmptyString -> Py.split_from w s <> [].
Proof.
  revert w. induction s as [|c r IH]; intros w Hw; simpl.
  - by destruct w.
  - destruct (Py.is_space c).
    + by destruct w.
    + apply IH. by destruct w.
Qed.

Lemma lstrip_head (s : string) (c : ascii) (r : string) :
  Py.lstrip s = String c r -> Py.is_space c = false.
Proof.
  induction s as [|a s IH]; simpl; [done|].
  destruct (Py.is_space a) eqn:E; [done|].
  intros [= <- <-]. exact E.
Qed.

Lemma strip_head (s : string) (c : ascii) (r : string) :
  Py.strip s = String c r -> Py.is_space c = false.
Proof.
  unfold Py.strip.
  destruct (Py.lstrip s) as [|a t] eqn:E; simpl; [done|].
  apply lstrip_head in E.
  destruct (Py.rstrip t); rewrite ?E; by intros [= <- _].
Qed.

(** A text whose normal form is not empty has at least one word. *)
Lemma normalized_words (text : string) :
  Citations.normalize_text text <> EmptyString ->
  Py.split (Citations.normalize_text text) <> [].
Proof.
  unfold Citations.normalize_text.
  destruct (negb (Py.truthy text)); [done|].
  intros Hne.
  destruct (Py.strip _) as [|c r] eqn:E; [done|].
  apply strip_head in E.
  unfold Py.split. simpl. rewrite E.
  by apply split_from_word.
Qed.

Lemma word_set_nonempty (text : string) :
  Citations.normalize_text text <> EmptyString -> Citations.word_set text <> ∅.
Proof.
  intros H%normalized_words. unfold Citations.word_set.
  destruct (Py.split _) as [|x xs]; [done|].
  simpl. set_solver.
Qed.

Lemma ratio_nonneg (n d : nat) : (0 <= Citations.ratio n d)%Q.
Proof. unfold Citations.ratio, Qle. simpl. lia. Qed.

Lemma pos_of_nat_Z (d : nat) : (0 < d)%nat -> Z.pos (Pos.of_nat d) = Z.of_nat d.
Proof. intros H. rewrite <- positive_nat_Z, Nat2Pos.id by lia. done. Qed.

Lemma ratio_le_1 (n d : nat) : (n <= d)%nat -> (Citations.ratio n d <= 1)%Q.
Proof.
  intros H. unfold Citations.ratio, Qle. simpl.
  destruct d as [|d]; [replace n with 0%nat by lia; simpl; lia|].
  rewrite pos_of_nat_Z by lia. lia.
Qed.

Lemma ratio_same (n : nat) : (0 < n)%nat -> (Citations.ratio n n == 1)%Q.
Proof.
  intros H. unfold Citations.ratio, Qeq. simpl.
  rewrite pos_of_nat_Z by lia. lia.
Qed.

Lemma ratio_zero (d : nat) : (Citations.ratio 0 d == 0)%Q.
Proof. unfold Citations.ratio, Qeq. simpl. lia. Qed.

(** [jaccard_similarity] in terms of the two word sets. *)
Lemma jaccard_similarity_unfold (a b : string) :
  Citations.jaccard_similarity a b =
  if negb (Py.truthy (Citations.normalize_text a))
     || negb (Py.truthy (Citations.normalize_text b)) then 0%Q
  else if bool_decide (Citations.word_set a = ∅)
          || bool_decide (Citations.word_set b = ∅) then 0%Q
  else if (0 <? size (Citations.word_set a ∪ Citations.word_set b))%nat
       then Citations.ratio (size (Citations.word_set a ∩ Citations.word_set b))
                            (size (Citations.word_set a ∪ Citations.word_set b))
       else 0%Q.
Proof. reflexivity. Qed.

Lemma jaccard_similarity_comm (a b : string) :
  Citations.jaccard_similarity a b = Citations.jaccard_similarity b a.
Proof.
  rewrite !jaccard_similarity_unfold.
  rewrite (orb_comm (negb (Py.truthy (Citations.normalize_text a)))).
  rewrite (orb_comm (bool_decide (Citations.word_set a = ∅))).
  rewrite (comm_L (∪) (Citations.word_set a)).
  rewrite (comm_L (∩) (Citations.word_set a)).
  reflexivity.
Qed.

Lemma jaccard_similarity_range (a b : string) :
  (0 <= Citations.jaccard_similarity a b <= 1)%Q.
Proof.
  rewrite jaccard_similarity_unfold.
  assert (0 <= 0 <= 1)%Q as Hzero by (split; [apply Qle_refl | discriminate]).
  destruct (negb _ || negb _); [exact Hzero|].
  destruct (bool_decide _ || bool_decide _); [exact Hzero|].
  destruct (0 <? _)%nat; [|exact Hzero].
  split; [apply ratio_nonneg|].
  apply ratio_le_1, subseteq_size.
  etrans; [apply intersection_subseteq_l | apply union_subseteq_l].
Qed.

Lemma jaccard_similarity_identical (a b : string) :
  Citations.normalize_text a = Citations.normalize_text b ->
  Citations.normalize_text a <> EmptyString ->
  (Citations.jaccard_similarity a b == 1)%Q.
Proof.
  intros Heq Hne.
  assert (Citations.word_set b = Citations.word_set a) as Hset
    by (unfold Citations.word_set; by rewrite Heq).
  pose proof (word_set_nonempty a Hne) as Hwords.
  rewrite jaccard_similarity_unfold, <- Heq, Hset.
  assert (Py.truthy (Citations.normalize_text a) = true) as ->
    by (destruct (Citations.normalize_text a); done).
  rewrite bool_decide_eq_false_2 by done. simpl.
  rewrite (idemp_L (∪)), (idemp_L (∩)).
  assert (0 < size (Citations.word_set a))%nat as Hsize.
  { destruct (size (Citations.word_set a)) eqn:E; [|lia].
    by apply size_empty_inv, leibniz_equiv in E. }
  rewrite (proj2 (Nat.ltb_lt _ _) Hsize).
  by apply ratio_same.
Qed.

Lemma jaccard_similarity_disjoint (a b : string) :
  Citations.word_set a ∩ Citations.word_set b = ∅ ->
  (Citations.jaccard_similarity a b == 0)%Q.
Proof.
  intros Hdisj. rewrite jaccard_similarity_unfold, Hdisj, size_empty.
  destruct (negb _ || negb _); [reflexivity|].
  destruct (bool_decide _ || bool_decide _); [reflexivity|].
  destruct (0 <? _)%nat; [apply ratio_zero | reflexivity].
Qed.

(** C5, as the code has it: Jaccard similarity is symmetric and lies in
    [0, 1]; two texts with the same normal form score 1.0 provided that
    normal form is not empty; two texts whose normalized word sets are
    disjoint score 0.0. *)
Theorem jaccard_similarity_properties (a b : string) :
  Citations.jaccard_similarity a b = Citations.jaccard_similarity b a /\
  (0 <= Citations.jaccard_similarity a b <= 1)%Q /\
  (Citations.normalize_text a = Citations.normalize_text b ->
   Citations.normalize_text a <> EmptyString ->
   (Citations.jaccard_similarity a b == 1)%Q) /\
  (Citations.word_set a ∩ Citations.word_set b = ∅ ->
   (Citations.jaccard_similarity a b == 0)%Q).
Proof.
  split; [apply jaccard_similarity_comm|].
  split; [apply jaccard_similarity_range|].
  split; [apply jaccard_similarity_identical | apply jaccard_similarity_disjoint].
Qed.

(** The theorem at two texts with the same non-empty normal form, and at two
    texts without a common word. *)
Lemma jaccard_similarity_properties_witness :
  (Citations.jaccard_similarity "Employment Law, 2019" "employment  law (2019)" == 1)%Q /\
  (Citations.jaccard_similarity "Data Protection Law" "Article 27" == 0)%Q.
Proof.
  split.
  - apply (jaccard_similarity_properties
             "Employment Law, 2019" "employment  law (2019)");
      [reflexivity | discriminate].
  - apply (jaccard_similarity_properties "Data Protection Law" "Article 27").
    vm_compute. reflexivity.
Defined.

(** C5 as stated fails where the common normal form is empty: both texts
    below normalize to the empty string, and their similarity is 0.0. *)
Lemma jaccard_similarity_identical_counterexample :
  ~ (forall a b : string,
       Citations.normalize_text a = Citations.normalize_text b ->
       (Citations.jaccard_similarity a b == 1)%Q).
Proof.
  intros H. specialize (H "?!" "..." eq_refl).
  vm_compute in H. discriminate.
Qed.

(** ** C2: the jurisdiction boost of [verify_citation] *)

(** The similarity is already capped, so capping it again returns it. *)
Lemma enhanced_similarity_capped (claim : string) (c : Citations.CitationCandidate) :
  Py.min (Citations.enhanced_similarity claim c) 1 = Citations.enhanced_similarity claim c.
Proof.
  unfold Citations.enhanced_similarity.
  destruct (negb _ || negb _); [reflexivity | apply min_min].
Qed.

(** The similarity reads the title and the section of a candidate only. *)
Lemma enhanced_similarity_ext (claim : string) (c c' : Citations.CitationCandidate) :
  Citations.title c' = Citations.title c ->
  Citations.section c' = Citations.section c ->
  Citations.enhanced_similarity claim c' = Citations.enhanced_similarity claim c.
Proof.
  intros Ht Hs.
  unfold Citations.enhanced_similarity, Citations.title_and_section.
  by rewrite Ht, Hs.
Qed.

Lemma final_score_DIFC (claim : string) (boost : Q) (c : Citations.CitationCandidate) :
  Citations.jurisdiction c = Models.DIFC ->
  Citations.final_score claim boost c =
  Py.min (Citations.enhanced_similarity claim c + boost) 1.
Proof.
  intros H. unfold Citations.final_score.
  by rewrite bool_decide_eq_true_2.
Qed.

Lemma final_score_other (claim : string) (boost : Q) (c : Citations.CitationCandidate) :
  Citations.jurisdiction c <> Models.DIFC ->
  Citations.final_score claim boost c = Citations.enhanced_similarity claim c.
Proof.
  intros H. unfold Citations.final_score.
  rewrite bool_decide_eq_false_2 by done.
  apply enhanced_similarity_capped.
Qed.

Lemma final_score_le_1 (claim : string) (boost : Q) (c : Citations.CitationCandidate) :
  (Citations.final_score claim boost c <= 1)%Q.
Proof. apply min_le_r. Qed.

(** The entries of [all_scores] are the candidates, each with its rounded
    final score. *)
Lemma all_scores_spec (claim : string) (candidates : list Citations.CitationCandidate)
    (threshold boost : Q) (c : Citations.CitationCandidate) (s : Q) :
  (c, s) ∈ Citations.all_scores (Citations.verify_citation claim candidates threshold boost) ->
  c ∈ candidates /\ s = Py.round3 (Citations.final_score claim boost c).
Proof.
  unfold Citations.verify_citation.
  destruct (negb (Py.truthy claim) || Py.empty candidates); simpl.
  - by intros ?%elem_of_nil.
  - intros ([c' s'] & [= -> ->] & Hin)%list_elem_of_fmap.
    unfold Citations.scored_candidates in Hin.
    rewrite sort_desc_perm in Hin.
    apply list_elem_of_fmap in Hin as (c0 & [= -> ->] & Hin).
    done.
Qed.

Lemma all_scores_complete (claim : string) (candidates : list Citations.CitationCandidate)
    (threshold boost : Q) (c : Citations.CitationCandidate) :
  Py.truthy claim = true -> c ∈ candidates ->
  (c, Py.round3 (Citations.final_score claim boost c))
    ∈ Citations.all_scores (Citations.verify_citation claim candidates threshold boost).
Proof.
  intros Hclaim Hin. unfold Citations.verify_citation. rewrite Hclaim.
  destruct candidates as [|c0 cs]; [by apply elem_of_nil in Hin|]. simpl.
  apply list_elem_of_fmap.
  exists (c, Citations.final_score claim boost c). split; [done|].
  unfold Citations.scored_candidates. rewrite sort_desc_perm.
  apply list_elem_of_fmap. by exists c.
Qed.

(** C2, as the code has it: [verify_citation] scores every candidate, and
    adds the boost of 0.1 to the enhanced similarity exactly when the
    candidate's jurisdiction is DIFC, whatever jurisdiction the caller
    prefers; every reported score is at most 1.0; and of two candidates that
    differ in jurisdiction only, the DIFC one never scores lower. *)
Theorem verify_citation_jurisdiction_boost
    (claim : string) (candidates : list Citations.CitationCandidate) (threshold : Q) :
  let result :=
    Citations.verify_citation claim candidates threshold
                              Citations.default_jurisdiction_boost in
  (Py.truthy claim = true ->
   forall c, c ∈ candidates -> exists s, (c, s) ∈ Citations.all_scores result) /\
  (forall c s, (c, s) ∈ Citations.all_scores result ->
     (Citations.jurisdiction c = Models.DIFC ->
      s = Py.round3 (Py.min (Citations.enhanced_similarity claim c + (1 # 10)) 1)) /\
     (Citations.jurisdiction c <> Models.DIFC ->
      s = Py.round3 (Citations.enhanced_similarity claim c)) /\
     (s <= 1)%Q) /\
  (forall c c',
     Citations.title c' = Citations.title c ->
     Citations.section c' = Citations.section c ->
     Citations.jurisdiction c = Models.DIFC ->
     Citations.jurisdiction c' <> Models.DIFC ->
     (Py.round3 (Citations.final_score claim Citations.default_jurisdiction_boost c')
      <= Py.round3 (Citations.final_score claim Citations.default_jurisdiction_boost c))%Q).
Proof.
  intros result. split; [|split].
  - intros Hclaim c Hin. eexists. by apply all_scores_complete.
  - intros c s [Hin ->]%all_scores_spec. split; [|split].
    + intros Hj. by rewrite final_score_DIFC.
    + intros Hj. by rewrite final_score_other.
    + apply round3_le_1, final_score_le_1.
  - intros c c' Ht Hs Hj Hj'. apply round3_mono.
    rewrite (final_score_DIFC _ _ c Hj), (final_score_other _ _ c' Hj').
    rewrite (enhanced_similarity_ext claim c c' Ht Hs).
    rewrite <- (enhanced_similarity_capped claim c) at 1.
    apply min_mono_l.
    unfold Citations.default_jurisdiction_boost.
    generalize (Citations.enhanced_similarity claim c). intros q. lra.
Qed.

(** The theorem on a DIFC and a UAE copy of one candidate: the DIFC copy is
    reported with the boost, the UAE copy without. *)
Lemma verify_citation_jurisdiction_boost_witness :
  let claim := Samples.leave_claim in
  (462 # 1000) =
    Py.round3 (Py.min (Citations.enhanced_similarity claim (Samples.employment_law Models.DIFC)
                       + (1 # 10)) 1) /\
  (362 # 1000) =
    Py.round3 (Citations.enhanced_similarity claim (Samples.employment_law Models.UAE)).
Proof.
  intros claim.
  pose proof (verify_citation_jurisdiction_boost claim
                [Samples.employment_law Models.UAE; Samples.employment_law Models.DIFC]
                Citations.default_threshold) as (_ & Hscores & _).
  split.
  - apply (Hscores (Samples.employment_law Models.DIFC)); [|reflexivity].
    apply list_elem_of_In. vm_compute. left. reflexivity.
  - apply (Hscores (Samples.employment_law Models.UAE)); [|discriminate].
    apply list_elem_of_In. vm_compute. right. left. reflexivity.
Defined.

(** C2 as stated fails: the boost does not follow the jurisdiction the
    caller prefers.  For a caller that prefers UAE, the UAE candidate is
    reported without the boost. *)
Lemma verify_citation_preferred_jurisdiction_counterexample :
  ~ (forall (preferred : Models.JurisdictionType) (claim : string)
            (c : Citations.CitationCandidate) (threshold : Q),
       (Citations.score
          (Citations.verify_citation claim [c] threshold
                                     Citations.default_jurisdiction_boost)
        == Py.round3
             (Py.min (Citations.enhanced_similarity claim c
                      + (if bool_decide (Citations.jurisdiction c = preferred)
                         then 1 # 10 else 0)) 1))%Q).
Proof.
  intros H.
  specialize (H Models.UAE Samples.leave_claim
                (Samples.employment_law Models.UAE) Citations.default_threshold).
  vm_compute in H. discriminate.
Qed.

(** ** C3: the cache of [CitationVerifier.verify] *)

(** A call that misses the cache returns what [verify_citation] returns and
    stores it under the key of the call. *)
Lemma verify_miss (hash_str : string -> Z) (hash_tuple : list string -> Z)
    (self : Citations.CitationVerifier) (claim : string)
    (candidates : list Citations.CitationCandidate) :
  Citations._verification_cache self
    !! Citations.cache_key hash_str hash_tuple claim candidates = None ->
  let '(result, self') :=
    Citations.verify hash_str hash_tuple self claim candidates true in
  result = Citations.verify_citation claim candidates (Citations.threshold self)
             Citations.default_jurisdiction_boost /\
  Citations._verification_cache self'
    !! Citations.cache_key hash_str hash_tuple claim candidates = Some result.
Proof.
  intros Hmiss. unfold Citations.verify. rewrite Hmiss. simpl.
  split; [done | apply lookup_insert_eq].
Qed.

(** A call whose key is in the cache returns the stored result, whatever
    the candidates of the call are. *)
Lemma verify_hit (hash_str : string -> Z) (hash_tuple : list string -> Z)
    (self : Citations.CitationVerifier) (claim : string)
    (candidates : list Citations.CitationCandidate)
    (cached : Citations.VerificationResult) :
  Citations._verification_cache self
    !! Citations.cache_key hash_str hash_tuple claim candidates = Some cached ->
  Citations.verify hash_str hash_tuple self claim candidates true = (cached, self).
Proof. intros Hhit. unfold Citations.verify. by rewrite Hhit. Qed.

(** C3 fails on the code: the cache key reads the claim and the titles of
    the candidates only.  After a call with the DIFC copy of a candidate, a
    call with the UAE copy of it (same claim, same title) is answered from
    the cache with the DIFC result, boost included, and not with what
    [verify_citation] returns for the UAE copy.  This holds for every pair
    of hash functions. *)
Theorem verify_returns_stale_result
    (hash_str : string -> Z) (hash_tuple : list string -> Z) :
  let claim := Samples.leave_claim in
  let first :=
    Citations.verify hash_str hash_tuple Citations.citation_verifier claim
                     [Samples.employment_law Models.DIFC] true in
  let second :=
    Citations.verify hash_str hash_tuple first.2 claim
                     [Samples.employment_law Models.UAE] true in
  let uncached :=
    Citations.verify_citation claim [Samples.employment_law Models.UAE]
                              Citations.default_threshold
                              Citations.default_jurisdiction_boost in
  second.1 = first.1 /\
  Citations.best_candidate second.1 = Some (Samples.employment_law Models.DIFC) /\
  Citations.score second.1 = 462 # 1000 /\
  Citations.best_candidate uncached = Some (Samples.employment_law Models.UAE) /\
  Citations.score uncached = 362 # 1000 /\
  second.1 <> uncached.
Proof.
  intros claim first second uncached.
  pose proof (verify_miss hash_str hash_tuple Citations.citation_verifier claim
                [Samples.employment_law Models.DIFC] (lookup_empty _)) as Hfirst.
  fold first in Hfirst. destruct first as [r1 v1] eqn:E1.
  destruct Hfirst as [Hr1 Hcache].
  assert (second = (r1, v1)) as Hsecond by (apply verify_hit; exact Hcache).
  rewrite Hsecond. simpl.
  assert (Citations.best_candidate r1 = Some (Samples.employment_law Models.DIFC)) as Hb1
    by (rewrite Hr1; vm_compute; reflexivity).
  assert (Citations.best_candidate uncached = Some (Samples.employment_law Models.UAE)) as Hb2
    by (vm_compute; reflexivity).
  split; [reflexivity|]. split; [exact Hb1|].
  split; [rewrite Hr1; vm_compute; reflexivity|].
  split; [exact Hb2|].
  split; [vm_compute; reflexivity|].
  intros Heq. rewrite Heq in Hb1. rewrite Hb2 in Hb1. discriminate.
Qed.

(** ** C8: citations come from passing results only *)

(** The best candidate of a result is one of the candidates, no candidate
    has a higher final score, and the result passes exactly when that score
    reaches the threshold. *)
Lemma verify_citation_best (claim : string)
    (candidates : list Citations.CitationCandidate) (threshold boost : Q)
    (b : Citations.CitationCandidate) :
  Citations.best_candidate (Citations.verify_citation claim candidates threshold boost)
    = Some b ->
  b ∈ candidates /\
  Citations.passed (Citations.verify_citation claim candidates threshold boost)
    = Qle_bool threshold (Citations.final_score claim boost b) /\
  (forall c, c ∈ candidates ->
     (Citations.final_score claim boost c <= Citations.final_score claim boost b)%Q).
Proof.
  unfold Citations.verify_citation.
  destruct (negb (Py.truthy claim) || Py.empty candidates); simpl; [done|].
  pose proof (sort_desc_perm snd
    ((fun c => (c, Citations.final_score claim boost c)) <$> candidates)) as Hperm.
  pose proof (sort_desc_sorted snd
    ((fun c => (c, Citations.final_score claim boost c)) <$> candidates)) as Hsorted.
  fold (Citations.scored_candidates claim boost candidates) in Hperm, Hsorted.
  destruct (Citations.scored_candidates claim boost candidates) as [|[b0 s0] rest];
    simpl; [done|].
  intros [= ->].
  assert ((b, s0) ∈ (fun c => (c, Citations.final_score claim boost c)) <$> candidates)
    as (c0 & [= -> ->] & Hin)%list_elem_of_fmap
    by (rewrite <- Hperm; apply list_elem_of_here).
  split; [done|]. split; [done|].
  intros c Hc.
  assert ((c, Citations.final_score claim boost c) ∈
          (c0, Citations.final_score claim boost c0) :: rest) as Hc'.
  { rewrite Hperm. apply list_elem_of_fmap. by exists c. }
  inversion Hsorted as [|? ? Hall _]; subst.
  apply elem_of_cons in Hc' as [[= -> ]|Hc']; [apply Qle_refl|].
  rewrite Forall_forall in Hall. apply (Hall _ Hc').
Qed.

Lemma create_verified_citation_Some (claim : string)
    (r : Citations.VerificationResult) (cit : Models.Citation) :
  Citations.create_verified_citation claim r = Some cit <->
  Citations.passed r = true /\
  exists c, Citations.best_candidate r = Some c /\ cit = Citations.citation_of c.
Proof.
  unfold Citations.create_verified_citation.
  destruct (Citations.passed r), (Citations.best_candidate r) as [c|]; simpl;
    split; try done.
  - intros [= <-]. eauto.
  - by intros [_ (c' & [= <-] & ->)].
  - by intros [_ (c' & ? & _)].
  - by intros [? _].
  - by intros [? _].
Qed.

(** Every citation of [retrieve_with_citations] is the citation of a
    candidate whose final score reaches the threshold. *)
Lemma verified_citations_passed (self : Retrievers.DIFCRetriever) (query : string)
    (candidates : list Citations.CitationCandidate) (cit : Models.Citation) :
  cit ∈ Retrievers.verified_citations self query candidates ->
  exists c, c ∈ candidates /\ cit = Citations.citation_of c /\
    (Citations.threshold (Retrievers.citation_verifier self)
     <= Citations.final_score query Citations.default_jurisdiction_boost c)%Q.
Proof.
  unfold Retrievers.verified_citations.
  destruct (Py.empty candidates); [by intros ?%elem_of_nil|].
  intros ([c r] & Hzip & Hcit)%list_elem_of_omap. simpl in Hcit.
  apply elem_of_zip_r in Hzip. simpl in Hzip.
  unfold Citations.verify_batch, Citations.batch_verify_citations in Hzip.
  apply list_elem_of_fmap in Hzip as (q & -> & Hq).
  apply elem_of_replicate in Hq as [-> _].
  destruct (Citations.passed _) eqn:Hpassed; [|done].
  apply create_verified_citation_Some in Hcit as (_ & b & Hbest & ->).
  apply verify_citation_best in Hbest as (Hin & Hp & _).
  exists b. split; [done|]. split; [done|].
  apply Qle_bool_iff. by rewrite <- Hp.
Qed.

(** C8: [create_verified_citation] returns [None] whenever the result did
    not pass or has no best candidate; a candidate whose score is below the
    threshold gives no citation when verified on its own; every citation
    that [retrieve_with_citations] builds is the citation of a candidate
    whose score reaches the threshold; and when no candidate reaches it the
    list of citations is empty.  The functions are total: a miss is a value
    ([None], the empty list), never an exception. *)
Theorem citation_only_from_passing_result :
  (forall claim r,
     Citations.passed r = false \/ Citations.best_candidate r = None ->
     Citations.create_verified_citation claim r = None) /\
  (forall claim c (threshold : Q),
     (Citations.final_score claim Citations.default_jurisdiction_boost c < threshold)%Q ->
     Citations.create_verified_citation claim
       (Citations.verify_citation claim [c] threshold
                                  Citations.default_jurisdiction_boost) = None) /\
  (forall self query candidates cit,
     cit ∈ Retrievers.verified_citations self query candidates ->
     exists c, c ∈ candidates /\ cit = Citations.citation_of c /\
       (Citations.threshold (Retrievers.citation_verifier self)
        <= Citations.final_score query Citations.default_jurisdiction_boost c)%Q) /\
  (forall self query candidates,
     (forall c, c ∈ candidates ->
        (Citations.final_score query Citations.default_jurisdiction_boost c
         < Citations.threshold (Retrievers.citation_verifier self))%Q) ->
     Retrievers.verified_citations self query candidates = []).
Proof.
  split; [|split; [|split]].
  - intros claim r [Hp|Hb]; unfold Citations.create_verified_citation.
    + by rewrite Hp.
    + rewrite Hb. by destruct (negb _).
  - intros claim c threshold Hlt.
    destruct (Citations.create_verified_citation _ _) as [cit|] eqn:E; [|done].
    apply create_verified_citation_Some in E as (Hp & b & Hbest & _).
    apply verify_citation_best in Hbest as (Hin & Hp' & _).
    apply list_elem_of_singleton in Hin as ->.
    rewrite Hp in Hp'. symmetry in Hp'. apply Qle_bool_iff in Hp'.
    exfalso. by apply (Qlt_not_le _ _ Hlt).
  - apply verified_citations_passed.
  - intros self query candidates Hall. apply elem_of_nil_inv. intros cit Hcit.
    apply verified_citations_passed in Hcit as (c & Hin & _ & Hle).
    by apply (Qlt_not_le _ _ (Hall c Hin)).
Qed.

(** The theorem on a candidate that misses the threshold of 0.25. *)
Lemma citation_only_from_passing_result_witness :
  Citations.create_verified_citation Samples.leave_claim
    (Citations.verify_citation Samples.leave_claim
       [Samples.data_protection_law Models.UAE]
       Citations.default_threshold Citations.default_jurisdiction_boost) = None /\
  Retrievers.verified_citations Samples.retriever Samples.leave_claim
    [Samples.data_protection_law Models.UAE] = [].
Proof.
  destruct citation_only_from_passing_result as (_ & Hsingle & _ & Hnone).
  split.
  - apply Hsingle. vm_compute. reflexivity.
  - apply Hnone. intros c ->%list_elem_of_singleton. vm_compute. reflexivity.
Defined.

(** ** C6 and C9: fused scores and the order of retrieval results *)

Lemma dict_get_set {V} (d : Py.dict V) (k k' : string) (v : V) :
  Py.dict_get (Py.dict_set d k v) k' =
  if String.eqb k k' then Some v else Py.dict_get d k'.
Proof.
  induction d as [|[k0 v0] d IH]; simpl.
  - done.
  - destruct (String.eqb k0 k) eqn:E0; simpl.
    + apply String.eqb_eq in E0 as ->. by destruct (String.eqb k k').
    + rewrite IH. destruct (String.eqb k0 k') eqn:E1; [|done].
      apply String.eqb_eq in E1 as ->.
      rewrite String.eqb_sym in E0. by rewrite E0.
Qed.

Lemma dict_set_keys {V} (d : Py.dict V) (k : string) (v : V) :
  (Py.dict_set d k v).*1 = d.*1 \/ ((Py.dict_set d k v).*1 = d.*1 ++ [k] /\ k ∉ d.*1).
Proof.
  induction d as [|[k0 v0] d IH]; simpl.
  - right. split; [done | apply not_elem_of_nil].
  - destruct (String.eqb k0 k) eqn:E0; [by left|].
    apply String.eqb_neq in E0. rewrite fmap_cons. simpl.
    destruct IH as [IH|[IH Hk]]; [left|right]; rewrite IH; [done|].
    split; [done|]. rewrite not_elem_of_cons. by split.
Qed.

Lemma dict_set_NoDup {V} (d : Py.dict V) (k : string) (v : V) :
  NoDup d.*1 -> NoDup (Py.dict_set d k v).*1.
Proof.
  intros Hd. destruct (dict_set_keys d k v) as [->|[-> Hk]]; [done|].
  apply NoDup_app. split; [done|]. split; [|apply NoDup_singleton].
  intros x Hx ->%list_elem_of_singleton. done.
Qed.

Lemma dict_get_elem_of {V} (d : Py.dict V) (k : string) (v : V) :
  NoDup d.*1 -> (k, v) ∈ d -> Py.dict_get d k = Some v.
Proof.
  induction d as [|[k0 v0] d IH]; simpl; intros Hd Hin.
  - by apply elem_of_nil in Hin.
  - apply NoDup_cons in Hd as [Hk0 Hd].
    apply elem_of_cons in Hin as [[= -> ->]|Hin].
    + by rewrite String.eqb_refl.
    + destruct (String.eqb k0 k) eqn:E; [|by apply IH].
      apply String.eqb_eq in E as ->. exfalso. apply Hk0.
      apply list_elem_of_fmap. by exists (k, v).
Qed.

Lemma keyed_by_id_set (d : Py.dict VectorStore.combined) (k : string)
    (e : VectorStore.combined) :
  keyed_by_id d -> VectorStore.id_of (VectorStore.c_chunk e) = Some k ->
  keyed_by_id (Py.dict_set d k e).
Proof.
  intros Hd He k' e'. rewrite dict_get_set.
  destruct (String.eqb k k') eqn:E; [|apply Hd].
  apply String.eqb_eq in E as ->. by intros [= <-].
Qed.

Lemma add_vector_scores_spec (vector_results : list VectorStore.RetrievalMatch) :
  forall d d',
    VectorStore.add_vector_scores d vector_results = Some d' ->
    NoDup d.*1 -> keyed_by_id d ->
    NoDup d'.*1 /\ keyed_by_id d' /\
    forall k,
      match VectorStore.last_score k vector_results with
      | Some q =>
          exists e, Py.dict_get d' k = Some e /\
            VectorStore.vector_score e = q /\ VectorStore.keyword_score e = 0%Q
      | None => Py.dict_get d' k = Py.dict_get d k
      end.
Proof.
  induction vector_results as [|r rest IH]; intros d d' Hrun Hnd Hkeys; simpl in *.
  - by injection Hrun as <-.
  - destruct (VectorStore.id_of (VectorStore.chunk r)) as [cid|] eqn:Hid; [|done].
    simpl in Hrun.
    apply IH in Hrun as (Hnd' & Hkeys' & Hget);
      [|by apply dict_set_NoDup|by apply keyed_by_id_set].
    split; [done|]. split; [done|]. intros k. specialize (Hget k).
    destruct (VectorStore.last_score k rest); [done|].
    rewrite dict_get_set in Hget.
    case_bool_decide as Hk.
    + injection Hk as ->. rewrite String.eqb_refl in Hget. eauto.
    + destruct (String.eqb cid k) eqn:E; [|done].
      apply String.eqb_eq in E as ->. done.
Qed.

Lemma add_keyword_scores_spec (keyword_results : list VectorStore.RetrievalMatch) :
  forall d d',
    VectorStore.add_keyword_scores d keyword_results = Some d' ->
    NoDup d.*1 -> keyed_by_id d ->
    NoDup d'.*1 /\ keyed_by_id d' /\
    forall k,
      match VectorStore.last_score k keyword_results with
      | Some q =>
          exists e, Py.dict_get d' k = Some e /\
            VectorStore.keyword_score e = q /\
            VectorStore.vector_score e
              = default 0%Q (VectorStore.vector_score <$> Py.dict_get d k)
      | None => Py.dict_get d' k = Py.dict_get d k
      end.
Proof.
  induction keyword_results as [|r rest IH]; intros d d' Hrun Hnd Hkeys; simpl in *.
  - by injection Hrun as <-.
  - destruct (VectorStore.id_of (VectorStore.chunk r)) as [cid|] eqn:Hid; [|done].
    simpl in Hrun.
    set (d1 := match Py.dict_get d cid with
               | Some scores => Py.dict_set d cid _
               | None => Py.dict_set d cid _
               end) in Hrun.
    assert (NoDup d1.*1) as Hnd1
      by (unfold d1; destruct (Py.dict_get d cid); by apply dict_set_NoDup).
    assert (keyed_by_id d1) as Hkeys1.
    { unfold d1. destruct (Py.dict_get d cid) as [e0|] eqn:E0;
        apply keyed_by_id_set; simpl; try done. by apply Hkeys. }
    assert (forall k, Py.dict_get d1 k =
              if String.eqb cid k
              then Some {| VectorStore.c_chunk :=
                             match Py.dict_get d cid with
                             | Some e0 => VectorStore.c_chunk e0
                             | None => VectorStore.chunk r
                             end;
                           VectorStore.vector_score :=
                             default 0%Q (VectorStore.vector_score <$> Py.dict_get d cid);
                           VectorStore.keyword_score := VectorStore.score r |}
              else Py.dict_get d k) as Hd1.
    { intros k. unfold d1. destruct (Py.dict_get d cid); by rewrite dict_get_set. }
    apply IH in Hrun as (Hnd' & Hkeys' & Hget); [|done..].
    split; [done|]. split; [done|]. intros k. specialize (Hget k).
    rewrite Hd1 in Hget.
    destruct (VectorStore.last_score k rest).
    + destruct Hget as (e & He & Hk & Hv). exists e. split; [done|]. split; [done|].
      rewrite Hv. destruct (String.eqb cid k) eqn:E; [|done].
      apply String.eqb_eq in E as ->. done.
    + case_bool_decide as Hk.
      * injection Hk as ->. rewrite String.eqb_refl in Hget. eauto.
      * destruct (String.eqb cid k) eqn:E; [|done].
        apply String.eqb_eq in E as ->. done.
Qed.

Lemma slice_to_take {A} (l : list A) (hi : Z) :
  exists n, Py.slice_to l hi = take n l.
Proof.
  unfold Py.slice_to, Py.slice. eexists.
  replace (Z.to_nat (Py.clamp_index (Z.of_nat (length l)) 0)) with 0%nat
    by (unfold Py.clamp_index; simpl; lia).
  by rewrite drop_0.
Qed.

Lemma elem_of_slice_to {A} (l : list A) (hi : Z) (x : A) :
  x ∈ Py.slice_to l hi -> x ∈ l.
Proof.
  destruct (slice_to_take l hi) as [n ->]. apply subseteq_take.
Qed.

(** What [fuse] returns: each result carries a chunk id and the weighted sum
    of the scores the two rankings give to that id (0.0 where a ranking has
    no entry for it), and the results are in descending order of score. *)
Lemma fuse_spec (vector_results keyword_results : list VectorStore.RetrievalMatch)
    (limit : Z) (vector_weight keyword_weight : Q)
    (results : list VectorStore.RetrievalMatch) :
  VectorStore.fuse vector_results keyword_results limit vector_weight keyword_weight
    = Some results ->
  (forall m, m ∈ results ->
     exists chunk_id,
       VectorStore.id_of (VectorStore.chunk m) = Some chunk_id /\
       VectorStore.score m =
         (default 0 (VectorStore.last_score chunk_id vector_results) * vector_weight
          + default 0 (VectorStore.last_score chunk_id keyword_results) * keyword_weight)%Q) /\
  Py.sorted_desc VectorStore.score results.
Proof.
  unfold VectorStore.fuse. intros Hfuse.
  destruct (VectorStore.add_vector_scores [] vector_results) as [d1|] eqn:E1;
    [|done]. simpl in Hfuse.
  destruct (VectorStore.add_keyword_scores d1 keyword_results) as [d2|] eqn:E2;
    [|done]. simpl in Hfuse. injection Hfuse as <-.
  apply add_vector_scores_spec in E1 as (Hnd1 & Hkeys1 & Hget1);
    [|apply NoDup_nil_2|by intros ? ?].
  apply add_keyword_scores_spec in E2 as (Hnd2 & Hkeys2 & Hget2); [|done..].
  split; [|apply sorted_desc_slice_to, sort_desc_sorted].
  intros m Hm%elem_of_slice_to. rewrite sort_desc_perm in Hm.
  apply list_elem_of_fmap in Hm as ([k e] & -> & Hin). simpl.
  apply dict_get_elem_of in Hin; [|done].
  exists k. split; [by apply Hkeys2|].
  unfold VectorStore.combined_score.
  specialize (Hget1 k). specialize (Hget2 k). simpl in Hget1.
  destruct (VectorStore.last_score k keyword_results) as [qk|].
  - destruct Hget2 as (e' & He' & Hk & Hv). rewrite Hin in He'.
    injection He' as <-. rewrite Hk, Hv.
    destruct (VectorStore.last_score k vector_results) as [qv|].
    + destruct Hget1 as (e1 & -> & <- & _). done.
    + by rewrite Hget1.
  - rewrite Hin in Hget2. symmetry in Hget2.
    destruct (VectorStore.last_score k vector_results) as [qv|].
    + destruct Hget1 as (e1 & He1 & <- & Hk1). rewrite Hget2 in He1.
      injection He1 as <-. by rewrite Hk1.
    + rewrite Hget1 in Hget2. done.
Qed.

(** C6: in hybrid search every returned passage has the fused score
    [vector_weight * vector_score + keyword_weight * keyword_score] of its
    chunk id, the default weights are 0.7 and 0.3, and the results are sorted
    by descending fused score; for A with scores 0.9 and 0.2 and B with
    scores 0.5 and 0.95 the fused scores are 0.69 and 0.635 and A comes
    first. *)
Theorem hybrid_search_fused_scores :
  (forall embed_query st query limit vector_weight keyword_weight results,
     VectorStore.hybrid_search embed_query st query limit vector_weight keyword_weight
       = Some results ->
     let vector_results := VectorStore.search embed_query st query (limit * 2) None true in
     let keyword_results := VectorStore._keyword_search st query (limit * 2) in
     (forall m, m ∈ results ->
        exists chunk_id,
          VectorStore.id_of (VectorStore.chunk m) = Some chunk_id /\
          VectorStore.score m =
            (default 0 (VectorStore.last_score chunk_id vector_results) * vector_weight
             + default 0 (VectorStore.last_score chunk_id keyword_results)
               * keyword_weight)%Q) /\
     Py.sorted_desc VectorStore.score results) /\
  (VectorStore.default_vector_weight == 0.7)%Q /\
  (VectorStore.default_keyword_weight == 0.3)%Q /\
  exists A B,
    VectorStore.fuse [Samples.ranked "A" 0.9; Samples.ranked "B" 0.5]
                     [Samples.ranked "B" 0.95; Samples.ranked "A" 0.2]
                     10 VectorStore.default_vector_weight
                     VectorStore.default_keyword_weight = Some [A; B] /\
    VectorStore.id_of (VectorStore.chunk A) = Some "A" /\
    (VectorStore.score A == 0.69)%Q /\
    VectorStore.id_of (VectorStore.chunk B) = Some "B" /\
    (VectorStore.score B == 0.635)%Q.
Proof.
  split; [|split; [reflexivity|split; [reflexivity|]]].
  - intros embed_query st query limit vw kw results Hrun.
    eapply fuse_spec. exact Hrun.
  - eexists _, _. split; [vm_compute; reflexivity|].
    repeat split; vm_compute; reflexivity.
Qed.

(** The theorem on a store of two passages. *)
Lemma hybrid_search_fused_scores_witness :
  Py.sorted_desc VectorStore.score
    (default []
       (VectorStore.hybrid_search Samples.embed_query Samples.store "leave law" 10
          VectorStore.default_vector_weight VectorStore.default_keyword_weight)).
Proof.
  assert (VectorStore.hybrid_search Samples.embed_query Samples.store "leave law" 10
            VectorStore.default_vector_weight VectorStore.default_keyword_weight
          = Some (default []
              (VectorStore.hybrid_search Samples.embed_query Samples.store "leave law" 10
                 VectorStore.default_vector_weight VectorStore.default_keyword_weight)))
    as Hrun by (vm_compute; reflexivity).
  apply (proj1 hybrid_search_fused_scores) in Hrun. apply Hrun.
Defined.

Lemma search_sorted embed_query st query limit jurisdiction boost_difc :
  Py.sorted_desc VectorStore.score
    (VectorStore.search embed_query st query limit jurisdiction boost_difc).
Proof.
  unfold VectorStore.search.
  repeat case_match; try constructor.
  apply sorted_desc_slice_to, sort_desc_sorted.
Qed.

Lemma hybrid_search_sorted embed_query st query limit vector_weight keyword_weight
    results :
  VectorStore.hybrid_search embed_query st query limit vector_weight keyword_weight
    = Some results ->
  Py.sorted_desc VectorStore.score results.
Proof. intros Hrun. eapply fuse_spec. exact Hrun. Qed.

(** C9: in every list that [search] returns and in every list that
    [hybrid_search] returns, hence in the matches of
    [retrieve_with_citations], an entry that comes before another has a
    score at least as high. *)
Theorem retrieval_results_descending :
  (forall embed_query st query limit jurisdiction boost_difc i j r1 r2,
     (i < j)%nat ->
     VectorStore.search embed_query st query limit jurisdiction boost_difc !! i
       = Some r1 ->
     VectorStore.search embed_query st query limit jurisdiction boost_difc !! j
       = Some r2 ->
     (VectorStore.score r2 <= VectorStore.score r1)%Q) /\
  (forall embed_query st query limit vector_weight keyword_weight results i j r1 r2,
     VectorStore.hybrid_search embed_query st query limit vector_weight keyword_weight
       = Some results ->
     (i < j)%nat -> results !! i = Some r1 -> results !! j = Some r2 ->
     (VectorStore.score r2 <= VectorStore.score r1)%Q) /\
  (forall embed_query self context matches citations i j r1 r2,
     Retrievers.retrieve_with_citations embed_query self context
       = Py.Returned (matches, citations) ->
     (i < j)%nat -> matches !! i = Some r1 -> matches !! j = Some r2 ->
     (VectorStore.score r2 <= VectorStore.score r1)%Q).
Proof.
  split; [|split].
  - intros embed_query st query limit jurisdiction boost_difc i j r1 r2.
    apply sorted_desc_lookup, search_sorted.
  - intros embed_query st query limit vw kw results i j r1 r2 Hrun.
    apply sorted_desc_lookup. by eapply hybrid_search_sorted.
  - intros embed_query self context matches citations i j r1 r2 Hrun.
    apply sorted_desc_lookup.
    unfold Retrievers.retrieve_with_citations in Hrun.
    destruct (Retrievers.hybrid_search context).
    + destruct (VectorStore.hybrid_search _ _ _ _ _ _) as [found|] eqn:E; [|done].
      apply hybrid_search_sorted in E.
      repeat case_match; simplify_eq; done.
    + pose proof (search_sorted embed_query (Retrievers.vector_store self)
                    (Retrievers.query context) (Retrievers.max_results context)
                    (Some (Retrievers.jurisdiction context))
                    (Retrievers.boost_difc context)) as E.
      repeat case_match; simplify_eq; done.
Qed.

(** The theorem on the store of two passages. *)
Lemma retrieval_results_descending_witness :
  match VectorStore.hybrid_search Samples.embed_query Samples.store "leave law" 10
          VectorStore.default_vector_weight VectorStore.default_keyword_weight with
  | Some [r1; r2] => (VectorStore.score r2 <= VectorStore.score r1)%Q
  | _ => False
  end.
Proof.
  pose proof (proj1 (proj2 retrieval_results_descending)
                Samples.embed_query Samples.store "leave law" 10%Z
                VectorStore.default_vector_weight
                VectorStore.default_keyword_weight) as H.
  remember (VectorStore.hybrid_search _ _ _ _ _ _) as run eqn:E.
  vm_compute in E. subst run.
  eapply (H _ 0%nat 1%nat); [reflexivity | lia | reflexivity | reflexivity].
Defined.

(** ** C10: [_split_text] ends *)

(** With a positive step the loop ends within the rounds that the distance
    from [i] to the end of the words allows, one chunk per round. *)
Lemma split_loop_advancing (words : list string) (chunk_size overlap : Z) :
  (0 < chunk_size - overlap)%Z ->
  forall fuel i chunks,
    (0 <= i)%Z -> (0 < fuel)%nat -> (Z.of_nat (length words) - i < Z.of_nat fuel)%Z ->
    exists result,
      VectorStore.split_loop fuel words chunk_size overlap i chunks = Some result /\
      (Z.of_nat (length result)
       <= Z.of_nat (length chunks) + Z.max 0 (Z.of_nat (length words) - i))%Z.
Proof.
  intros Hstep. induction fuel as [|fuel IH]; intros i chunks Hi Hpos Hfuel; [lia|].
  simpl.
  destruct (Z.ltb_spec i (Z.of_nat (length words))); [|eexists; split; [done|lia]].
  destruct (Z.leb_spec (i + (chunk_size - overlap)) 0); [lia|].
  destruct (IH (i + (chunk_size - overlap))%Z (chunks ++ [Py.join " " (Py.slice words i (i + chunk_size))]))
    as (result & Hrun & Hlen); [lia..|].
  exists result. split; [done|].
  rewrite length_app in Hlen. simpl in Hlen. lia.
Qed.

(** With a step that is zero or negative the first round is the last. *)
Lemma split_loop_stalling (words : list string) (chunk_size overlap : Z) :
  (chunk_size - overlap <= 0)%Z ->
  forall fuel chunks,
    exists result,
      VectorStore.split_loop (S fuel) words chunk_size overlap 0 chunks = Some result /\
      (length result <= length chunks + 1)%nat /\
      (length result <= length chunks + length words)%nat.
Proof.
  intros Hstep fuel chunks. simpl.
  destruct (Z.ltb_spec 0 (Z.of_nat (length words))); [|eexists; split; [done|lia]].
  destruct (Z.leb_spec (0 + (chunk_size - overlap)) 0); [|lia].
  eexists. split; [done|]. rewrite length_app. simpl. lia.
Qed.

(** More rounds than needed do not change the result. *)
Lemma split_loop_more_fuel (words : list string) (chunk_size overlap : Z) :
  forall fuel fuel' i chunks result,
    (fuel <= fuel')%nat ->
    VectorStore.split_loop fuel words chunk_size overlap i chunks = Some result ->
    VectorStore.split_loop fuel' words chunk_size overlap i chunks = Some result.
Proof.
  induction fuel as [|fuel IH]; intros fuel' i chunks result Hle Hrun; [done|].
  destruct fuel' as [|fuel']; [lia|]. simpl in *.
  destruct (i <? Z.of_nat (length words))%Z; [|done].
  destruct (i + (chunk_size - overlap) <=? 0)%Z; [done|].
  apply (IH fuel'); [lia | done].
Qed.

(** C10: for every text and all integers [chunk_size] and [overlap],
    [_split_text] ends and returns a list of chunks: one more round than the
    text has words is always enough, the list has at most one chunk per
    word, and it has at most one chunk when the step [chunk_size - overlap]
    is zero or negative. *)
Theorem _split_text_terminates (text : string) (chunk_size overlap : Z) :
  exists chunks,
    (forall fuel, (length (Py.split text) < fuel)%nat ->
       VectorStore._split_text fuel text chunk_size overlap = Some chunks) /\
    (length chunks <= length (Py.split text))%nat /\
    ((chunk_size - overlap <= 0)%Z -> (length chunks <= 1)%nat).
Proof.
  unfold VectorStore._split_text.
  destruct (Z.le_gt_cases (chunk_size - overlap) 0) as [Hstall|Hstep].
  - destruct (split_loop_stalling (Py.split text) chunk_size overlap Hstall 0 [])
      as (chunks & Hrun & Hone & Hlen).
    exists chunks. split; [|split; [exact Hlen | intros _; exact Hone]].
    intros fuel Hfuel. destruct fuel as [|fuel]; [lia|].
    apply (split_loop_more_fuel _ _ _ 1%nat (S fuel)); [lia | exact Hrun].
  - destruct (split_loop_advancing (Py.split text) chunk_size overlap Hstep
                (S (length (Py.split text))) 0 []) as (chunks & Hrun & Hlen);
      [lia..|].
    exists chunks. split; [|split; [simpl in Hlen; lia | lia]].
    intros fuel Hfuel.
    destruct (split_loop_advancing (Py.split text) chunk_size overlap Hstep
                fuel 0 []) as (chunks' & Hrun' & _); [lia..|].
    rewrite Hrun'. f_equal.
    destruct (Nat.le_ge_cases fuel (S (length (Py.split text)))) as [Hle|Hge].
    + apply (split_loop_more_fuel _ _ _ _ _ _ _ _ Hle) in Hrun'. congruence.
    + apply (split_loop_more_fuel _ _ _ _ _ _ _ _ Hge) in Hrun. congruence.
Qed.

(** The theorem on a text of seven words with an overlap larger than the
    chunk size. *)
Lemma _split_text_terminates_witness :
  exists chunks,
    VectorStore._split_text 8 "a b c d e f g" 3 5 = Some chunks /\
    (length chunks <= 1)%nat.
Proof.
  destruct (_split_text_terminates "a b c d e f g" 3 5) as (chunks & Hrun & _ & Hone).
  exists chunks. split.
  - apply Hrun. vm_compute. lia.
  - apply Hone. lia.
Defined.

(** ** C4: the run with an empty prompt *)

(** C4: with the empty string as prompt, [preflight] returns a state whose
    error is "Missing user prompt", and [stream_run] yields exactly one
    [thinking_state] event followed by one [error] event: no draft fragment
    and no citation.  The stream ends at the update of [preflight] whatever
    updates the runtime would deliver after it. *)
Theorem empty_prompt_stream (w : Nodes.Collaborators)
    (jurisdiction : Models.JurisdictionType) (template_doc_id : option string)
    (reference_doc_ids : option (list string)) (model_override : option string) :
  let events :=
    [ Graph.thinking_state "preflight"
        ("[" +:+ Nodes.clock w 0 +:+ "] Validating workflow inputs");
      Graph.error "preflight" "Missing user prompt" ] in
  exists state,
    Nodes.preflight w
      (Graph.initial_state "" jurisdiction template_doc_id reference_doc_ids
                           model_override) = Py.Returned state /\
    Nodes.error state = Some "Missing user prompt" /\
    Graph.stream_run w "" jurisdiction template_doc_id reference_doc_ids
                     model_override = events /\
    forall later final,
      Graph.stream_updates (("preflight", state) :: later) final = events.
Proof.
  eexists. split; [reflexivity|]. split; [reflexivity|]. split; reflexivity.
Qed.

(** ** The run of the graph *)

Lemma execute_unfold (g : Graph.StateGraph) (limit : nat) (name : string)
    (s : Nodes.WorkflowState) :
  String.eqb name Graph.END = false ->
  Graph.execute g (S limit) name s =
  match Py.dict_get (Graph.nodes g) name with
  | None => {| Graph.steps := []; Graph.final := Graph.Faulted ("Unknown node " +:+ name) |}
  | Some node =>
      match node s with
      | Py.Raised e => {| Graph.steps := []; Graph.final := Graph.Faulted e |}
      | Py.Returned s' =>
          let rest :=
            match Graph.successor g name s' with
            | Some next => Graph.execute g limit next s'
            | None => {| Graph.steps := []; Graph.final := Graph.Completed |}
            end in
          {| Graph.steps := (name, s') :: Graph.steps rest;
             Graph.final := Graph.final rest |}
      end
  end.
Proof. intros H. simpl. by rewrite H. Qed.

Lemma execute_END (g : Graph.StateGraph) (limit : nat) (s : Nodes.WorkflowState) :
  Graph.execute g limit Graph.END s
  = {| Graph.steps := []; Graph.final := Graph.Completed |}.
Proof. by destruct limit. Qed.

(** The first step of a run is the stage it starts at, on the state it
    starts from. *)
Lemma execute_head (g : Graph.StateGraph) (limit : nat) (name : string)
    (s : Nodes.WorkflowState) (n1 : string) (s1 : Nodes.WorkflowState) :
  Graph.steps (Graph.execute g limit name s) !! 0%nat = Some (n1, s1) ->
  n1 = name /\
  exists node, Py.dict_get (Graph.nodes g) name = Some node /\ node s = Py.Returned s1.
Proof.
  destruct (String.eqb name Graph.END) eqn:E.
  - apply String.eqb_eq in E as ->. by rewrite execute_END.
  - destruct limit as [|limit]; [simpl; by rewrite E|].
    rewrite execute_unfold by done.
    destruct (Py.dict_get (Graph.nodes g) name) as [node|]; [|done].
    destruct (node s) as [s'|e] eqn:Hnode; [|done].
    simpl. intros [= <- <-]. eauto.
Qed.

(** Two steps in a row: the second stage is the successor of the first and
    ran on the state the first returned. *)
Lemma execute_linked (g : Graph.StateGraph) :
  forall limit name s i n1 s1 n2 s2,
    Graph.steps (Graph.execute g limit name s) !! i = Some (n1, s1) ->
    Graph.steps (Graph.execute g limit name s) !! S i = Some (n2, s2) ->
    exists node,
      Graph.successor g n1 s1 = Some n2 /\
      Py.dict_get (Graph.nodes g) n2 = Some node /\ node s1 = Py.Returned s2.
Proof.
  induction limit as [|limit IH]; intros name s i n1 s1 n2 s2.
  - simpl. by destruct (String.eqb name Graph.END).
  - destruct (String.eqb name Graph.END) eqn:E.
    { apply String.eqb_eq in E as ->. by rewrite execute_END. }
    rewrite execute_unfold by done.
    destruct (Py.dict_get (Graph.nodes g) name) as [node|]; [|done].
    destruct (node s) as [s'|e]; [|done]. simpl.
    destruct (Graph.successor g name s') as [next|] eqn:Hnext; [|by destruct i].
    destruct i as [|i]; simpl.
    + intros [= <- <-] Hsecond.
      apply execute_head in Hsecond as (-> & node' & Hnode' & Hrun). eauto.
    + apply IH.
Qed.

(** In the workflow graph a stage that follows another one is never
    [preflight]. *)
Lemma successor_later (w : Nodes.Collaborators) (n : string)
    (s : Nodes.WorkflowState) (n2 : string)
    (node : Nodes.WorkflowState -> Py.outcome Nodes.WorkflowState) :
  Graph.successor (Graph._build_graph w) n s = Some n2 ->
  Py.dict_get (Graph.nodes (Graph._build_graph w)) n2 = Some node ->
  later_stage w node.
Proof.
  unfold Graph.successor, Graph._build_graph, Graph._should_continue, later_stage.
  cbn -[String.eqb].
  repeat (destruct (String.eqb _ n); cbn -[String.eqb]; [
    try destruct (Nodes.has_error s); cbn;
    intros [= <-]; cbn; intros [= <-]; tauto |]).
  done.
Qed.

Lemma emit_carries (w : Nodes.Collaborators) (s : Nodes.WorkflowState)
    (label : string) :
  carries s (Nodes.emit w s label).
Proof.
  unfold carries. repeat (split; [reflexivity|]).
  split; [by left | by eexists].
Qed.

Lemma carries_trans (s1 s2 s3 : Nodes.WorkflowState) :
  carries s1 s2 -> carries s2 s3 -> carries s1 s3.
Proof.
  unfold carries.
  intros (?&?&?&?&?&?&?&?&?&?&?&?&?& Hf1 & l1 & Hl1)
         (?&?&?&?&?&?&?&?&?&?&?&?&?& Hf2 & l2 & Hl2).
  repeat (split; [congruence|]).
  split.
  - destruct Hf2 as [Hf2|(package & Hf2 & Hp)].
    + rewrite Hf2. exact Hf1.
    + right. exists package. split; [done|].
      unfold review_package_of, Nodes.jurisdiction_text in *.
      repeat match goal with
             | H : _ s2 = _ s1 |- _ => try rewrite H in Hp; clear H
             end.
      exact Hp.
  - exists (l1 ++ l2). rewrite Hl2, Hl1. simpl. by rewrite app_assoc.
Qed.

Lemma carries_has_error (s s' : Nodes.WorkflowState) :
  carries s s' -> Nodes.has_error s' = Nodes.has_error s.
Proof. intros (H & _). unfold Nodes.has_error. by rewrite H. Qed.

(** A stage other than [preflight], run on a state whose error is set,
    returns a state that carries the state it was given. *)
Lemma later_stage_keeps_error (w : Nodes.Collaborators)
    (node : Nodes.WorkflowState -> Py.outcome Nodes.WorkflowState)
    (s s' : Nodes.WorkflowState) :
  later_stage w node -> Nodes.has_error s = true ->
  node s = Py.Returned s' -> carries s s'.
Proof.
  intros Hnode Herr.
  assert (forall label, Nodes.has_error (Nodes.emit w s label) = true) as Hemit
    by (intros label; exact Herr).
  destruct Hnode as [-> | [-> | [-> | [-> | [-> | ->]]]]].
  - unfold Nodes.plan. rewrite Hemit. intros [= <-]. apply emit_carries.
  - unfold Nodes.retrieve. rewrite Hemit. intros [= <-]. apply emit_carries.
  - unfold Nodes.draft. rewrite Hemit. intros [= <-]. apply emit_carries.
  - unfold Nodes.verify_citations. rewrite Hemit. intros [= <-]. apply emit_carries.
  - unfold Nodes.human_review.
    destruct (Nodes.router_model_info w) as [models|e]; [|done].
    intros [= <-]. unfold carries. repeat (split; [reflexivity|]).
    split.
    + right. eexists. split; [reflexivity|].
      unfold review_package_of. by repeat split.
    + eexists [_; _]. simpl. by rewrite <- app_assoc.
  - unfold Nodes.export. rewrite Hemit. intros [= <-]. apply emit_carries.
Qed.

(** ** C1: where the run halts *)

(** From [verify_citations] on, no stage has a guard behind it. *)
Lemma execute_from_verify (w : Nodes.Collaborators) (limit : nat)
    (s : Nodes.WorkflowState) :
  Forall (fun step => step.1 ∈ ["verify_citations"; "human_review"; "export"])
         (Graph.steps (Graph.execute (Graph._build_graph w) limit "verify_citations" s)).
Proof.
  destruct limit as [|limit]; [constructor|].
  rewrite execute_unfold by reflexivity. cbn -[Graph.execute].
  destruct (Nodes.verify_citations w s) as [s1|]; [|constructor].
  constructor; [apply list_elem_of_In; simpl; tauto|]. cbn -[Graph.execute].
  destruct limit as [|limit]; [constructor|].
  rewrite execute_unfold by reflexivity. cbn -[Graph.execute].
  destruct (Nodes.human_review w s1) as [s2|]; [|constructor].
  constructor; [apply list_elem_of_In; simpl; tauto|]. cbn -[Graph.execute].
  destruct limit as [|limit]; [constructor|].
  rewrite execute_unfold by reflexivity. cbn -[Graph.execute].
  destruct (Nodes.export w s2) as [s3|]; [|constructor].
  constructor; [apply list_elem_of_In; simpl; tauto|]. cbn -[Graph.execute].
  rewrite execute_END. constructor.
Qed.

Lemma halts_from_verify (w : Nodes.Collaborators) (limit : nat)
    (s : Nodes.WorkflowState) :
  halts_at_guard (Graph.execute (Graph._build_graph w) limit "verify_citations" s).
Proof.
  intros i name state Hstep _ Hguarded. exfalso.
  pose proof (execute_from_verify w limit s) as Hnames.
  rewrite Forall_forall in Hnames.
  apply list_elem_of_lookup_2, Hnames in Hstep. simpl in Hstep.
  unfold guarded in Hguarded.
  rewrite !elem_of_cons, elem_of_nil in Hstep.
  rewrite !elem_of_cons, elem_of_nil in Hguarded.
  destruct Hstep as [-> | [-> | [-> | []]]];
    destruct Hguarded as [? | [? | [? | [? | []]]]]; discriminate.
Qed.

(** One guarded stage: if the run from the next stage halts at its guards,
    so does the run from this stage. *)
Lemma halts_guarded_step (w : Nodes.Collaborators) (limit : nat)
    (name next : string)
    (node : Nodes.WorkflowState -> Py.outcome Nodes.WorkflowState) :
  String.eqb name Graph.END = false ->
  Py.dict_get (Graph.nodes (Graph._build_graph w)) name = Some node ->
  (forall s, Graph.successor (Graph._build_graph w) name s
             = Some (if Nodes.has_error s then Graph.END else next)) ->
  (forall s, halts_at_guard (Graph.execute (Graph._build_graph w) limit next s)) ->
  forall s, halts_at_guard (Graph.execute (Graph._build_graph w) (S limit) name s).
Proof.
  intros Hname Hnode Hsucc IH s.
  rewrite execute_unfold by done. rewrite Hnode.
  destruct (node s) as [s'|e]; [|by intros i ? ? ?].
  rewrite Hsucc. cbn zeta.
  destruct (Nodes.has_error s') eqn:Herr.
  - rewrite execute_END. intros [|i] n st; simpl; [done|done].
  - intros [|i] n st; simpl.
    + intros [= <- <-]. congruence.
    + intros Hstep Hst Hguarded.
      destruct (IH s' i n st Hstep Hst Hguarded) as [-> ->]. done.
Qed.

Lemma successor_guard (w : Nodes.Collaborators) (s : Nodes.WorkflowState) :
  Graph.successor (Graph._build_graph w) "preflight" s
    = Some (if Nodes.has_error s then Graph.END else "plan") /\
  Graph.successor (Graph._build_graph w) "plan" s
    = Some (if Nodes.has_error s then Graph.END else "retrieve") /\
  Graph.successor (Graph._build_graph w) "retrieve" s
    = Some (if Nodes.has_error s then Graph.END else "draft") /\
  Graph.successor (Graph._build_graph w) "draft" s
    = Some (if Nodes.has_error s then Graph.END else "verify_citations").
Proof.
  unfold Graph.successor. cbn. unfold Graph._should_continue.
  by destruct (Nodes.has_error s).
Qed.

Lemma astream_halts_at_guard (w : Nodes.Collaborators) (s0 : Nodes.WorkflowState) :
  halts_at_guard (Graph.astream (Graph._build_graph w) s0).
Proof.
  unfold Graph.astream, Graph.recursion_limit.
  change (Graph.entry_point (Graph._build_graph w)) with "preflight".
  revert s0.
  eapply halts_guarded_step;
    [reflexivity | reflexivity | intros s; apply successor_guard |].
  eapply halts_guarded_step;
    [reflexivity | reflexivity | intros s; apply successor_guard |].
  eapply halts_guarded_step;
    [reflexivity | reflexivity | intros s; apply successor_guard |].
  eapply halts_guarded_step;
    [reflexivity | reflexivity | intros s; apply successor_guard |].
  intros s. apply halts_from_verify.
Qed.

(** C1, as the code has it: when one of the four guarded stages
    ([preflight], [plan], [retrieve], [draft]) returns a state whose error
    is set, that stage is the last step of the run, the run is complete and
    its final state is the state the stage returned, so that no later stage
    runs and the trace that [run] reports is the trace of that state, with
    no later label in it. *)
Theorem run_halts_after_guarded_error (w : Nodes.Collaborators)
    (s0 : Nodes.WorkflowState) (i : nat) (name : string)
    (state : Nodes.WorkflowState) :
  let ex := Graph.astream (Graph._build_graph w) s0 in
  Graph.steps ex !! i = Some (name, state) ->
  Nodes.has_error state = true ->
  name ∈ guarded ->
  length (Graph.steps ex) = S i /\
  Graph.final ex = Graph.Completed /\
  Graph.ainvoke (Graph._build_graph w) s0 = Py.Returned state /\
  forall prompt jurisdiction template_doc_id reference_doc_ids model_override,
    s0 = Graph.initial_state prompt jurisdiction template_doc_id
                             reference_doc_ids model_override ->
    let result :=
      Graph.run w prompt jurisdiction template_doc_id reference_doc_ids
                model_override in
    Graph.thinking_states result = default [] (Nodes.thinking state) /\
    Graph.run_error result = Nodes.error state.
Proof.
  intros ex Hstep Herr Hguarded. subst ex.
  destruct (astream_halts_at_guard w s0 i name state Hstep Herr Hguarded)
    as [Hlen Hfinal].
  assert (Graph.ainvoke (Graph._build_graph w) s0 = Py.Returned state) as Hinvoke.
  { unfold Graph.ainvoke. rewrite Hfinal.
    rewrite last_lookup, Hlen. simpl. by rewrite Hstep. }
  split; [done|]. split; [done|]. split; [done|].
  intros prompt jurisdiction template_doc_id reference_doc_ids model_override ->.
  unfold Graph.run. by rewrite Hinvoke.
Qed.

(** The theorem on the run with an empty prompt: [preflight] is the only
    step. *)
Lemma run_halts_after_guarded_error_witness :
  let ex :=
    Graph.astream (Graph._build_graph (Samples.collaborators None))
      (Graph.initial_state "" Models.DIFC None None None) in
  length (Graph.steps ex) = 1%nat /\ Graph.final ex = Graph.Completed.
Proof.
  intros ex.
  destruct (run_halts_after_guarded_error (Samples.collaborators None)
              (Graph.initial_state "" Models.DIFC None None None)
              0%nat "preflight"
              (Nodes.with_error
                 (Nodes.emit (Samples.collaborators None)
                    (Graph.initial_state "" Models.DIFC None None None)
                    "Validating workflow inputs")
                 "Missing user prompt"))
    as (Hlen & Hfinal & _).
  - reflexivity.
  - reflexivity.
  - apply list_elem_of_In. simpl. tauto.
  - split; [exact Hlen | exact Hfinal].
Defined.

(** C1 as stated fails: there is no guard behind [verify_citations].  In
    the run below the verification model returns no content, so
    [verify_citations] is the fifth step and returns a state whose error is
    set; the run goes on for two more steps. *)
Lemma run_continues_after_verification_error_counterexample :
  ~ (forall (w : Nodes.Collaborators) (s0 : Nodes.WorkflowState) (i : nat)
            (name : string) (state : Nodes.WorkflowState),
       Graph.steps (Graph.astream (Graph._build_graph w) s0) !! i
         = Some (name, state) ->
       Nodes.has_error state = true ->
       length (Graph.steps (Graph.astream (Graph._build_graph w) s0)) = S i).
Proof.
  intros H.
  specialize (H (Samples.collaborators None) Samples.start 4%nat).
  remember (Graph.steps (Graph.astream _ _)) as run eqn:E.
  vm_compute in E. subst run.
  specialize (H _ _ eq_refl eq_refl). discriminate.
Qed.

(** The same run in full: the seven stages run, and the final trace holds
    the labels of [human_review] and [export] after the failure. *)
Example run_after_verification_error :
  let w := Samples.collaborators None in
  (Graph.steps (Graph.astream (Graph._build_graph w) Samples.start)).*1
  = ["preflight"; "plan"; "retrieve"; "draft"; "verify_citations";
     "human_review"; "export"] /\
  Graph.run_error (Graph.run w "Draft a leave policy" Models.DIFC None None None)
  = Some "Failed to verify content" /\
  drop 13 (Graph.thinking_states
             (Graph.run w "Draft a leave policy" Models.DIFC None None None))
  = ["[12:00:00] Preparing content for review";
     "[12:00:00] Content prepared for human review";
     "[12:00:00] Exporting final content"].
Proof. vm_compute. repeat split. Qed.

(** ** C7: a set error stays *)

(** Two steps in a row of a run, the first with its error set: the second
    state carries the first. *)
Lemma next_step_carries (w : Nodes.Collaborators) (s0 : Nodes.WorkflowState)
    (i : nat) (n1 n2 : string) (s1 s2 : Nodes.WorkflowState) :
  Graph.steps (Graph.astream (Graph._build_graph w) s0) !! i = Some (n1, s1) ->
  Graph.steps (Graph.astream (Graph._build_graph w) s0) !! S i = Some (n2, s2) ->
  Nodes.has_error s1 = true ->
  carries s1 s2.
Proof.
  unfold Graph.astream. intros H1 H2 Herr.
  destruct (execute_linked _ _ _ _ _ _ _ _ _ H1 H2) as (node & Hs & Hn & Hrun).
  eapply later_stage_keeps_error; [|exact Herr|exact Hrun].
  by eapply successor_later.
Qed.

Lemma later_step_carries (w : Nodes.Collaborators) (s0 : Nodes.WorkflowState)
    (i : nat) (ni : string) (si : Nodes.WorkflowState) :
  Graph.steps (Graph.astream (Graph._build_graph w) s0) !! i = Some (ni, si) ->
  Nodes.has_error si = true ->
  forall d nj sj,
    Graph.steps (Graph.astream (Graph._build_graph w) s0) !! (i + S d)%nat
      = Some (nj, sj) ->
    carries si sj.
Proof.
  intros Hi Herr. induction d as [|d IH]; intros nj sj Hj.
  - replace (i + 1)%nat with (S i) in Hj by lia.
    by eapply next_step_carries.
  - replace (i + S (S d))%nat with (S (i + S d)) in Hj by lia.
    destruct (Graph.steps (Graph.astream (Graph._build_graph w) s0) !! (i + S d)%nat)
      as [[nk sk]|] eqn:Hk.
    + pose proof (IH _ _ eq_refl) as Hcarries.
      apply carries_trans with sk; [done|].
      eapply next_step_carries; [exact Hk | exact Hj |].
      by rewrite (carries_has_error _ _ Hcarries).
    + apply lookup_ge_None in Hk.
      apply lookup_lt_Some in Hj. lia.
Qed.

(** C7: once the error is set, every stage that can follow returns a state
    with the same error, the same plan, draft and verification texts and the
    same other keys, and a trace that extends the earlier one; so in every
    run, every state after a state whose error is set carries it.  Beside
    the trace only [final_output] can be written, and only with the review
    package that [human_review] compiles from the keys of the state:
    copies, no new content. *)
Theorem error_persists_through_run (w : Nodes.Collaborators) :
  (forall node s s',
     node ∈ [Nodes.plan w; Nodes.retrieve w; Nodes.draft w;
             Nodes.verify_citations w; Nodes.human_review w; Nodes.export w] ->
     Nodes.has_error s = true -> node s = Py.Returned s' -> carries s s') /\
  (forall s0 i j ni nj si sj,
     let ex := Graph.astream (Graph._build_graph w) s0 in
     (i < j)%nat ->
     Graph.steps ex !! i = Some (ni, si) ->
     Graph.steps ex !! j = Some (nj, sj) ->
     Nodes.has_error si = true ->
     carries si sj).
Proof.
  split.
  - intros node s s' Hnode. apply (later_stage_keeps_error w).
    rewrite !elem_of_cons, elem_of_nil in Hnode. unfold later_stage. tauto.
  - intros s0 i j ni nj si sj ex Hij Hi Hj Herr. subst ex.
    replace j with (i + S (j - i - 1))%nat in Hj by lia.
    by eapply later_step_carries.
Qed.

(** The theorem on the run in which verification fails: the state that
    [export] returns carries the state that [verify_citations] returned. *)
Lemma error_persists_through_run_witness :
  match Graph.steps (Graph.astream (Graph._build_graph (Samples.collaborators None))
                       Samples.start) with
  | [_; _; _; _; (_, verified); _; (_, exported)] =>
      Nodes.error exported = Some "Failed to verify content" /\
      carries verified exported
  | _ => False
  end.
Proof.
  pose proof (proj2 (error_persists_through_run (Samples.collaborators None))
                Samples.start 4%nat 6%nat) as H.
  cbn zeta in H.
  remember (Graph.steps (Graph.astream _ _)) as run eqn:E.
  vm_compute in E. subst run.
  split; [reflexivity|].
  eapply H; [lia | reflexivity | reflexivity | reflexivity].
Defined.

(** ** The citations of [retrieve_with_citations] repeat the best candidate *)

(** Every candidate is paired with the result for the whole candidate list,
    so a passing result gives one citation of the best candidate per
    candidate, and a candidate below the threshold is never cited itself. *)
Example verified_citations_repeat_best :
  Retrievers.verified_citations Samples.retriever Samples.leave_claim
    [Samples.employment_law Models.DIFC; Samples.data_protection_law Models.UAE]
  = [Citations.citation_of (Samples.employment_law Models.DIFC);
     Citations.citation_of (Samples.employment_law Models.DIFC)].
Proof. vm_compute. reflexivity. Qed.

(** ** The verification scenario of the specification *)

(** The claim about minimum leave, verified against the Employment Law and
    the Data Protection Law (both DIFC) with the threshold 0.25, passes with
    the Employment Law as best candidate. *)
Example verify_citation_scenario :
  let result :=
    Citations.verify_citation
      "Employees in the preferred jurisdiction get minimum leave under Employment Law"
      [Samples.employment_law Models.DIFC; Samples.data_protection_law Models.DIFC]
      Citations.default_threshold Citations.default_jurisdiction_boost in
  Citations.passed result = true /\
  Citations.best_candidate result = Some (Samples.employment_law Models.DIFC) /\
  Citations.all_scores result
  = [(Samples.employment_law Models.DIFC, 424 # 1000);
     (Samples.data_protection_law Models.DIFC, 225 # 1000)].
Proof. vm_compute. repeat split. Qed.

(** ** What follows [verify_citations] *)

(** [_build_graph] puts no routing function behind [verify_citations],
    [human_review] or [export]: their plain edges are their only way on. *)
Example no_guard_after_verify_citations (w : Nodes.Collaborators) :
  let g := Graph._build_graph w in
  Py.dict_get (Graph.branches g) "verify_citations" = None /\
  Py.dict_get (Graph.branches g) "human_review" = None /\
  Py.dict_get (Graph.branches g) "export" = None /\
  Py.dict_get (Graph.edges g) "verify_citations" = Some "human_review" /\
  Py.dict_get (Graph.edges g) "human_review" = Some "export" /\
  Py.dict_get (Graph.edges g) "export" = Some Graph.END.
Proof. repeat split. Qed.

(** [human_review] does not look at the error: when the router answers, it
    appends its two labels to the trace of any state. *)
Lemma human_review_appends_labels (w : Nodes.Collaborators)
    (s : Nodes.WorkflowState) (models : Nodes.model_info) :
  Nodes.router_model_info w = Py.Returned models ->
  exists s',
    Nodes.human_review w s = Py.Returned s' /\
    Nodes.error s' = Nodes.error s /\
    Nodes.thinking s' =
      Some (default [] (Nodes.thinking s)
            ++ ["[" +:+ Nodes.clock w (length (default [] (Nodes.thinking s)))
                +:+ "] Preparing content for review";
                "[" +:+ Nodes.clock w (S (length (default [] (Nodes.thinking s))))
                +:+ "] Content prepared for human review"]).
Proof.
  intros Hrouter. unfold Nodes.human_review. rewrite Hrouter.
  eexists. split; [reflexivity|]. split; [reflexivity|].
  simpl. rewrite length_app, <- app_assoc. simpl.
  by rewrite Nat.add_1_r.
Qed.

(** * Further properties *)

(** ** Normal form of texts *)

Lemma is_space_blank : Py.is_space " " = true.
Proof. reflexivity. Qed.

Lemma word_char_not_space (c : ascii) :
  Py.is_lower c || Py.is_digit c = true -> Py.is_space c = false.
Proof.
  unfold Py.is_lower, Py.is_digit, Py.is_space.
  generalize (nat_of_ascii c). intros n H.
  apply orb_true_iff in H.
  apply orb_false_iff. rewrite !andb_false_iff, !Nat.leb_gt.
  rewrite !andb_true_iff, !Nat.leb_le in H. lia.
Qed.

Lemma word_char_not_blank (c : ascii) :
  Py.is_lower c || Py.is_digit c = true -> Ascii.eqb c " " = false.
Proof.
  intros H. destruct (Ascii.eqb_spec c " ") as [->|]; [done|done].
Qed.

Lemma word_char_not_upper (c : ascii) :
  Py.is_lower c || Py.is_digit c = true -> Py.is_upper c = false.
Proof.
  unfold Py.is_lower, Py.is_digit, Py.is_upper.
  generalize (nat_of_ascii c). intros n H.
  apply orb_true_iff in H.
  rewrite !andb_false_iff, !Nat.leb_gt.
  rewrite !andb_true_iff, !Nat.leb_le in H. lia.
Qed.

Lemma lower_char_class (c : ascii) :
  Py.is_upper (Py.lower_char c) = false.
Proof.
  unfold Py.lower_char. destruct (Py.is_upper c) eqn:E; [|done].
  unfold Py.is_upper in *.
  apply andb_true_iff in E as [E1 E2]. apply Nat.leb_le in E1, E2.
  rewrite nat_ascii_embedding by lia.
  apply andb_false_iff. right. apply Nat.leb_gt. lia.
Qed.

Lemma blank_punctuation_plain (s : string) : plain (Citations.blank_punctuation s) = true.
Proof.
  induction s as [|c r IH]; [done|]. simpl.
  rewrite IH, andb_true_r.
  destruct (Py.is_lower c || Py.is_digit c || Py.is_space c) eqn:E; [done|].
  reflexivity.
Qed.

Lemma collapse_spaced (s : string) :
  forall b, plain s = true -> spaced b (Citations.collapse_whitespace b s) = true.
Proof.
  induction s as [|c r IH]; intros b Hp; [done|].
  cbn [plain] in Hp. apply andb_true_iff in Hp as [Hc Hr].
  cbn [Citations.collapse_whitespace].
  destruct (Py.is_space c) eqn:Hs.
  - destruct b; [by apply IH|]. cbn [spaced Ascii.eqb Bool.eqb negb andb]. by apply IH.
  - rewrite orb_false_r in Hc. cbn [spaced].
    rewrite (word_char_not_blank _ Hc), Hc. by apply IH.
Qed.

Lemma lstrip_spaced (s : string) :
  forall b, spaced b s = true -> spaced true (Py.lstrip s) = true.
Proof.
  induction s as [|c r IH]; intros b H; [done|].
  simpl in *. destruct (Ascii.eqb_spec c " ") as [->|Hne].
  - simpl. apply andb_true_iff in H as [_ H]. by apply (IH true).
  - apply andb_true_iff in H as [Hc H].
    rewrite (word_char_not_space _ Hc). simpl.
    destruct (Ascii.eqb_spec c " "); [done|]. by rewrite Hc.
Qed.

Lemma rstrip_spaced (s : string) :
  forall b, spaced b s = true ->
    Py.rstrip s = EmptyString \/ single_spaced b (Py.rstrip s) = true.
Proof.
  induction s as [|c r IH]; intros b H; [by left|].
  cbn [spaced] in H. cbn [Py.rstrip]. destruct (Ascii.eqb_spec c " ") as [->|Hne].
  - apply andb_true_iff in H as [Hb H]. destruct (IH _ H) as [-> | Hr].
    + by left.
    + right. destruct (Py.rstrip r) eqn:E; [done|].
      cbn [single_spaced Ascii.eqb Bool.eqb]. rewrite Hb. exact Hr.
  - apply andb_true_iff in H as [Hc H]. right.
    destruct (IH _ H) as [-> | Hr].
    + rewrite (word_char_not_space _ Hc). cbn [single_spaced].
      destruct (Ascii.eqb_spec c " "); [done|]. by rewrite Hc.
    + destruct (Py.rstrip r) eqn:E.
      * rewrite (word_char_not_space _ Hc). cbn [single_spaced].
        destruct (Ascii.eqb_spec c " "); [done|]. by rewrite Hc.
      * cbn [single_spaced]. destruct (Ascii.eqb_spec c " "); [done|].
        rewrite Hc. exact Hr.
Qed.

(** X@normalized@: [normalize_text] always returns a text in normal form:
    it is empty, or it consists of words of lower-case letters and digits
    with exactly one blank between two words, and no blank at either end. *)
Theorem normalize_text_normalized (text : string) :
  normalized (Citations.normalize_text text) = true.
Proof.
  unfold Citations.normalize_text.
  destruct (negb (Py.truthy text)); [done|].
  unfold Py.strip.
  pose proof (collapse_spaced _ false (blank_punctuation_plain (Py.lower text))) as H1.
  apply lstrip_spaced in H1. apply rstrip_spaced in H1 as [-> | H1]; [done|].
  unfold normalized. by destruct (Py.rstrip _).
Qed.

Lemma single_spaced_lower (s : string) :
  forall b, single_spaced b s = true -> Py.lower s = s.
Proof.
  induction s as [|c r IH]; intros b H; [done|].
  simpl in *. destruct (Ascii.eqb_spec c " ") as [->|Hne].
  - apply andb_true_iff in H as [_ H]. f_equal. by apply (IH true).
  - apply andb_true_iff in H as [Hc H].
    unfold Py.lower_char. rewrite (word_char_not_upper _ Hc). f_equal. by apply (IH false).
Qed.

Lemma single_spaced_blank_punctuation (s : string) :
  forall b, single_spaced b s = true -> Citations.blank_punctuation s = s.
Proof.
  induction s as [|c r IH]; intros b H; [done|].
  simpl in *. destruct (Ascii.eqb_spec c " ") as [->|Hne].
  - apply andb_true_iff in H as [_ H]. simpl. f_equal. by apply (IH true).
  - apply andb_true_iff in H as [Hc H]. rewrite Hc. simpl. f_equal. by apply (IH false).
Qed.

Lemma single_spaced_collapse (s : string) :
  forall b, single_spaced b s = true -> Citations.collapse_whitespace b s = s.
Proof.
  induction s as [|c r IH]; intros b H; [done|].
  simpl in *. destruct (Ascii.eqb_spec c " ") as [->|Hne].
  - apply andb_true_iff in H as [Hb H]. simpl. destruct b; [done|].
    f_equal. by apply IH.
  - apply andb_true_iff in H as [Hc H]. rewrite (word_char_not_space _ Hc).
    f_equal. by apply IH.
Qed.

Lemma single_spaced_rstrip (s : string) :
  forall b, single_spaced b s = true -> s <> EmptyString -> Py.rstrip s = s.
Proof.
  induction s as [|c r IH]; intros b H Hne; [done|].
  simpl in *. destruct (Ascii.eqb_spec c " ") as [->|Hc'].
  - apply andb_true_iff in H as [Hb H].
    destruct r as [|c' r']; [done|].
    rewrite (IH true H) by done. done.
  - apply andb_true_iff in H as [Hc H].
    destruct r as [|c' r'].
    + simpl. by rewrite (word_char_not_space _ Hc).
    + rewrite (IH false H) by done. done.
Qed.

Lemma normalized_fixed (s : string) :
  normalized s = true -> Citations.normalize_text s = s.
Proof.
  destruct s as [|c r]; [done|]. unfold normalized. intros H.
  unfold Citations.normalize_text. cbn [Py.truthy negb].
  rewrite (single_spaced_lower _ _ H), (single_spaced_blank_punctuation _ _ H).
  assert (Citations.collapse_whitespace false (String c r) = String c r) as ->.
  { simpl in *. destruct (Ascii.eqb_spec c " ") as [->|Hc']; [done|].
    apply andb_true_iff in H as [Hc H]. rewrite (word_char_not_space _ Hc).
    f_equal. by apply single_spaced_collapse. }
  unfold Py.strip.
  assert (Py.lstrip (String c r) = String c r) as ->.
  { simpl in *. destruct (Ascii.eqb_spec c " ") as [->|Hc']; [done|].
    apply andb_true_iff in H as [Hc H]. by rewrite (word_char_not_space _ Hc). }
  by apply (single_spaced_rstrip _ true).
Qed.

(** X@idempotent@: [normalize_text] is idempotent: normalising a text that
    is already normalised leaves it as it is. *)
Theorem normalize_text_idempotent (text : string) :
  Citations.normalize_text (Citations.normalize_text text)
  = Citations.normalize_text text.
Proof. apply normalized_fixed, normalize_text_normalized. Qed.

(** ** [verify_citation] *)

Section SortHead.
Context {A : Type} (key : A -> Q).

Lemma sort_desc_nil_inv (l : list A) : Py.sort_desc key l = [] -> l = [].
Proof.
  intros H. apply Permutation_nil_r. rewrite <- H. symmetry. apply sort_desc_perm.
Qed.

(** The head of a stable descending sort is the first element of greatest key. *)
Lemma sort_desc_head (l : list A) (x : A) (rest : list A) :
  Py.sort_desc key l = x :: rest ->
  exists i, l !! i = Some x /\
    (forall j y, l !! j = Some y -> (key y <= key x)%Q) /\
    (forall j y, (j < i)%nat -> l !! j = Some y -> (key y < key x)%Q).
Proof.
  revert x rest. induction l as [|a l IH]; intros x rest; [done|].
  cbn [Py.sort_desc]. destruct (Py.sort_desc key l) as [|y ys] eqn:E.
  - apply sort_desc_nil_inv in E as ->. intros [= <- <-]. exists 0%nat.
    split; [done|]. split.
    + intros [|j] z; [intros [= <-]; apply Qle_refl | done].
    + intros j z Hj. lia.
  - destruct (IH y ys eq_refl) as (i & Hi & Hmax & Hfirst).
    cbn [Py.insert_desc]. destruct (Qle_bool (key y) (key a)) eqn:Hle.
    + intros [= <- <-]. apply Qle_bool_iff in Hle. exists 0%nat.
      split; [done|]. split.
      * intros [|j] z; [intros [= <-]; apply Qle_refl|]. cbn. intros Hz.
        eapply Qle_trans; [by eapply Hmax | done].
      * intros j z Hj. lia.
    + intros [= <- <-]. exists (S i). split; [done|].
      assert (key a < key y)%Q as Hlt.
      { apply Qnot_le_lt. intros Hc. apply Qle_bool_iff in Hc. congruence. }
      split.
      * intros [|j] z; [intros [= <-]; by apply Qlt_le_weak|]. cbn. by apply Hmax.
      * intros [|j] z Hj; [by intros [= <-]|]. cbn. apply Hfirst. lia.
Qed.

Lemma sorted_desc_fmap {B : Type} (key' : B -> Q) (f : A -> B) (l : list A) :
  (forall x y, (key x <= key y)%Q -> (key' (f x) <= key' (f y))%Q) ->
  Py.sorted_desc key l -> Py.sorted_desc key' (f <$> l).
Proof.
  intros Hmono. induction 1 as [|x l Hall Hs IH]; cbn; constructor; [|done].
  apply Forall_fmap. eapply Forall_impl; [exact Hall|]. intros y Hy. by apply Hmono.
Qed.
End SortHead.

Lemma verify_citation_unfold (claim : string)
    (candidates : list Citations.CitationCandidate) (threshold boost : Q) :
  Py.truthy claim = true -> candidates <> [] ->
  exists b s rest,
    Citations.scored_candidates claim boost candidates = (b, s) :: rest /\
    Citations.verify_citation claim candidates threshold boost =
      {| Citations.passed := Qle_bool threshold s;
         Citations.score := Py.round3 s;
         Citations.best_candidate := Some b;
         Citations.all_scores :=
           (fun cs : Citations.CitationCandidate * Q => (cs.1, Py.round3 cs.2))
             <$> (b, s) :: rest |}.
Proof.
  intros Hclaim Hne. unfold Citations.verify_citation. rewrite Hclaim.
  destruct candidates as [|c0 cs]; [done|]. cbn [negb orb Py.empty].
  destruct (Citations.scored_candidates claim boost (c0 :: cs)) as [|[b s] rest] eqn:E.
  - apply sort_desc_nil_inv in E. done.
  - by exists b, s, rest.
Qed.

(** X@passed_iff@: [verify_citation] passes exactly when the claim is not
    empty and some candidate's final score (enhanced similarity plus the
    DIFC boost, capped at 1) reaches the threshold.  In particular it fails
    on an empty claim or an empty candidate list whatever the threshold. *)
Theorem verify_citation_passed_iff (claim : string)
    (candidates : list Citations.CitationCandidate) (threshold boost : Q) :
  Citations.passed (Citations.verify_citation claim candidates threshold boost) = true
  <->
  claim <> EmptyString /\
  exists c, c ∈ candidates /\ (threshold <= Citations.final_score claim boost c)%Q.
Proof.
  split.
  - intros Hp.
    destruct (Py.truthy claim) eqn:Hclaim;
      [|by unfold Citations.verify_citation in Hp; rewrite Hclaim in Hp].
    destruct candidates as [|c0 cs];
      [by unfold Citations.verify_citation in Hp; rewrite Hclaim in Hp|].
    split; [by destruct claim|].
    destruct (verify_citation_unfold claim (c0 :: cs) threshold boost Hclaim)
      as (b & s & rest & Hs & Hv); [done|].
    pose proof (verify_citation_best claim (c0 :: cs) threshold boost b) as Hb.
    rewrite Hv in Hp, Hb. cbn in Hp, Hb. destruct (Hb eq_refl) as (Hin & Hpass & _).
    exists b. split; [done|]. apply Qle_bool_iff. by rewrite <- Hpass.
  - intros [Hclaim (c & Hin & Hc)].
    assert (Py.truthy claim = true) as Ht by by destruct claim.
    assert (candidates <> []) as Hne by (intros ->; by apply elem_of_nil in Hin).
    destruct (verify_citation_unfold claim candidates threshold boost Ht Hne)
      as (b & s & rest & Hs & Hv).
    pose proof (verify_citation_best claim candidates threshold boost b) as Hb.
    rewrite Hv in Hb. cbn in Hb. destruct (Hb eq_refl) as (_ & Hpass & Hmax).
    rewrite Hv. cbn. rewrite Hpass. apply Qle_bool_iff.
    eapply Qle_trans; [exact Hc | by apply Hmax].
Qed.

(** X@first_best@: ties are broken by position: the best candidate of
    [verify_citation] is the first candidate of the list whose final score
    is the greatest, every candidate before it scoring strictly less (the
    descending sort is stable). *)
Theorem verify_citation_first_best (claim : string)
    (candidates : list Citations.CitationCandidate) (threshold boost : Q)
    (b : Citations.CitationCandidate) :
  Citations.best_candidate (Citations.verify_citation claim candidates threshold boost)
    = Some b ->
  exists i, candidates !! i = Some b /\
    forall j c, (j < i)%nat -> candidates !! j = Some c ->
      (Citations.final_score claim boost c < Citations.final_score claim boost b)%Q.
Proof.
  unfold Citations.verify_citation.
  destruct (negb (Py.truthy claim) || Py.empty candidates); [done|]. cbn.
  destruct (Citations.scored_candidates claim boost candidates) as [|[b0 s0] rest] eqn:E;
    [done|].
  cbn. intros [= ->]. apply sort_desc_head in E as (i & Hi & _ & Hfirst).
  rewrite list_lookup_fmap in Hi.
  destruct (candidates !! i) as [c|] eqn:Hc; [|done]. cbn in Hi.
  injection Hi as -> <-. exists i. split; [done|].
  intros j c Hj Hjc.
  apply (Hfirst j (c, Citations.final_score claim boost c) Hj).
  by rewrite list_lookup_fmap, Hjc.
Qed.

(** X@all_scores@: [all_scores] of [verify_citation] has one entry per
    candidate when the claim is not empty (and none otherwise), is in
    descending order of score, and starts with the best candidate paired
    with the reported score. *)
Theorem verify_citation_all_scores (claim : string)
    (candidates : list Citations.CitationCandidate) (threshold boost : Q) :
  let r := Citations.verify_citation claim candidates threshold boost in
  length (Citations.all_scores r)
    = (if Py.truthy claim then length candidates else 0%nat) /\
  Py.sorted_desc snd (Citations.all_scores r) /\
  head (Citations.all_scores r)
    = (fun b => (b, Citations.score r)) <$> Citations.best_candidate r.
Proof.
  cbn zeta. unfold Citations.verify_citation.
  destruct (Py.truthy claim) eqn:Hclaim; cbn [negb orb];
    [|repeat split; constructor].
  destruct candidates as [|c0 cs]; cbn [Py.empty]; [repeat split; constructor|].
  cbn [Citations.all_scores Citations.best_candidate Citations.score].
  pose proof (sort_desc_perm snd
    ((fun c => (c, Citations.final_score claim boost c)) <$> c0 :: cs)) as Hperm.
  pose proof (sort_desc_sorted snd
    ((fun c => (c, Citations.final_score claim boost c)) <$> c0 :: cs)) as Hsorted.
  fold (Citations.scored_candidates claim boost (c0 :: cs)) in Hperm, Hsorted.
  split; [|split].
  - rewrite length_fmap, Hperm, length_fmap. done.
  - apply (sorted_desc_fmap snd); [|done]. intros x y. apply round3_mono.
  - by destruct (Citations.scored_candidates claim boost (c0 :: cs)) as [|[b s] rest].
Qed.

Lemma max_ge_l (a b : Q) : (a <= Py.max a b)%Q.
Proof.
  unfold Py.max. destruct (Qle_bool b a) eqn:E; [apply Qle_refl|].
  apply Qlt_le_weak, Qnot_le_lt. intros Hc. apply Qle_bool_iff in Hc. congruence.
Qed.

Lemma enhanced_similarity_nonneg (claim : string) (c : Citations.CitationCandidate) :
  (0 <= Citations.enhanced_similarity claim c)%Q.
Proof.
  unfold Citations.enhanced_similarity.
  destruct (negb (Py.truthy claim) || negb (Py.truthy (Citations.title c)));
    [apply Qle_refl|].
  apply min_glb; [|done].
  assert (0 <= Py.max3 (Citations.jaccard_similarity claim (Citations.title c))
            (if Citations.truthy_opt (Citations.section c)
             then Citations.jaccard_similarity claim (Citations.or_empty (Citations.section c))
             else 0)
            (Citations.jaccard_similarity claim (Citations.title_and_section c)))%Q as Hb.
  { unfold Py.max3. eapply Qle_trans; [|apply max_ge_l].
    eapply Qle_trans; [|apply max_ge_l]. apply jaccard_similarity_range. }
  assert (0 <= Citations.term_overlap (Citations.extract_legal_terms claim)
            (Citations.extract_legal_terms (Citations.title_and_section c)))%Q as Ht.
  { unfold Citations.term_overlap. destruct (_ && _); [apply Qle_refl|apply ratio_nonneg]. }
  revert Hb Ht. generalize (Py.max3 (Citations.jaccard_similarity claim (Citations.title c))
            (if Citations.truthy_opt (Citations.section c)
             then Citations.jaccard_similarity claim (Citations.or_empty (Citations.section c))
             else 0)
            (Citations.jaccard_similarity claim (Citations.title_and_section c))).
  generalize (Citations.term_overlap (Citations.extract_legal_terms claim)
            (Citations.extract_legal_terms (Citations.title_and_section c))).
  intros. lra.
Qed.

Lemma final_score_nonneg (claim : string) (boost : Q) (c : Citations.CitationCandidate) :
  (0 <= boost)%Q -> (0 <= Citations.final_score claim boost c)%Q.
Proof.
  intros Hb. unfold Citations.final_score. apply min_glb; [|done].
  pose proof (enhanced_similarity_nonneg claim c).
  destruct (bool_decide _); lra.
Qed.

Lemma round3_range (x : Q) : (0 <= x <= 1)%Q -> (0 <= Py.round3 x <= 1)%Q.
Proof.
  intros [H0 H1]. split; [|by apply round3_le_1].
  apply Qle_trans with (Py.round3 0); [by vm_compute | by apply round3_mono].
Qed.

(** X@score_range@: with a jurisdiction boost that is not negative, the
    score that [verify_citation] reports and every score in [all_scores]
    lie between 0 and 1. *)
Theorem verify_citation_score_range (claim : string)
    (candidates : list Citations.CitationCandidate) (threshold boost : Q) :
  (0 <= boost)%Q ->
  let r := Citations.verify_citation claim candidates threshold boost in
  (0 <= Citations.score r <= 1)%Q /\
  Forall (fun cs => (0 <= cs.2 <= 1)%Q) (Citations.all_scores r).
Proof.
  intros Hb r.
  assert (Forall (fun cs : Citations.CitationCandidate * Q => (0 <= cs.2 <= 1)%Q)
            (Citations.all_scores r)) as Hall.
  { apply Forall_forall. intros [c s] Hin. apply all_scores_spec in Hin as [_ ->].
    apply round3_range. split; [by apply final_score_nonneg|apply final_score_le_1]. }
  split; [|done].
  pose proof (verify_citation_all_scores claim candidates threshold boost) as (_ & _ & Hh).
  fold r in Hh. destruct (Citations.best_candidate r) as [b|] eqn:Hbest.
  - cbn in Hh. apply head_Some_elem_of in Hh.
    rewrite Forall_forall in Hall. apply (Hall _ Hh).
  - subst r. unfold Citations.verify_citation in *.
    destruct (negb (Py.truthy claim) || Py.empty candidates); [cbn; lra|].
    cbn in Hbest.
    by destruct (Citations.scored_candidates claim boost candidates) as [|[??]?].
Qed.

(** ** The cache of [CitationVerifier] *)

(** X@cache_repeat@: a cached call of [CitationVerifier.verify] can be
    repeated: the same call on the verifier it leaves returns the same
    result and leaves the verifier unchanged; the call keeps the threshold
    and never changes or drops an entry that was in the cache. *)
Theorem verify_cached_call_repeats
    (hash_str : string -> Z) (hash_tuple : list string -> Z)
    (self : Citations.CitationVerifier) (claim : string)
    (candidates : list Citations.CitationCandidate) :
  let '(result, self') :=
    Citations.verify hash_str hash_tuple self claim candidates true in
  Citations.verify hash_str hash_tuple self' claim candidates true = (result, self') /\
  Citations.threshold self' = Citations.threshold self /\
  (forall key cached,
     Citations._verification_cache self !! key = Some cached ->
     Citations._verification_cache self' !! key = Some cached).
Proof.
  destruct (Citations._verification_cache self
              !! Citations.cache_key hash_str hash_tuple claim candidates)
    as [cached|] eqn:Hkey.
  - rewrite (verify_hit _ _ _ _ _ _ Hkey). rewrite (verify_hit _ _ _ _ _ _ Hkey). done.
  - pose proof (verify_miss hash_str hash_tuple self claim candidates Hkey) as Hm.
    destruct (Citations.verify hash_str hash_tuple self claim candidates true)
      as [result self'] eqn:Hv.
    destruct Hm as [-> Hstored]. split; [by apply verify_hit|].
    unfold Citations.verify in Hv. rewrite Hkey in Hv. injection Hv as <-.
    split; [done|]. intros key cached Hc. cbn.
    destruct (decide (key = Citations.cache_key hash_str hash_tuple claim candidates))
      as [->|Hne]; [congruence|].
    by rewrite lookup_insert_ne.
Qed.

(** X@clear_cache@: after [clear_cache] the statistics report an empty
    cache, and the next [verify] recomputes: it returns what
    [verify_citation] returns for the verifier's threshold, and the cache
    then holds exactly one entry if the call used the cache and none if it
    did not. *)
Theorem clear_cache_recomputes
    (hash_str : string -> Z) (hash_tuple : list string -> Z)
    (self : Citations.CitationVerifier) (claim : string)
    (candidates : list Citations.CitationCandidate) (use_cache : bool) :
  let '(result, self') :=
    Citations.verify hash_str hash_tuple (Citations.clear_cache self) claim candidates
      use_cache in
  result = Citations.verify_citation claim candidates (Citations.threshold self)
             Citations.default_jurisdiction_boost /\
  Citations.cache_size (Citations.get_stats (Citations.clear_cache self)) = 0%nat /\
  Citations.cache_size (Citations.get_stats self') = (if use_cache then 1 else 0)%nat.
Proof.
  unfold Citations.verify, Citations.clear_cache. cbn.
  destruct use_cache; cbn; rewrite ?lookup_empty; cbn.
  - split; [done|]. split; [done|]. rewrite insert_empty. apply map_size_singleton.
  - done.
Qed.

Lemma length_omap_le {A B} (f : A -> option B) (l : list A) :
  (length (omap f l) <= length l)%nat.
Proof. induction l as [|x l IH]; cbn; [lia|]. destruct (f x); cbn; lia. Qed.

(** X@filter_valid@: [filter_valid_citations] returns at most one citation
    per claim, and each citation it returns is built from a candidate of
    the list whose final score for one of the claims reaches the
    verifier's threshold. *)
Theorem filter_valid_citations_sound (self : Citations.CitationVerifier)
    (claims : list string) (candidates : list Citations.CitationCandidate) :
  (length (Citations.filter_valid_citations self claims candidates) <= length claims)%nat /\
  Forall (fun cit =>
            exists claim c, claim ∈ claims /\ c ∈ candidates /\
              cit = Citations.citation_of c /\
              (Citations.threshold self
               <= Citations.final_score claim Citations.default_jurisdiction_boost c)%Q)
         (Citations.filter_valid_citations self claims candidates).
Proof.
  unfold Citations.filter_valid_citations. split.
  - etrans; [apply length_omap_le|]. rewrite length_zip.
    unfold Citations.verify_batch, Citations.batch_verify_citations.
    rewrite length_fmap. lia.
  - apply Forall_forall. intros cit ([claim r] & Hzip & Hcit)%list_elem_of_omap.
    cbn in Hcit.
    apply elem_of_lookup_zip_with in Hzip as (i & claim' & r' & [= <- <-] & Hclaim & Hr).
    unfold Citations.verify_batch, Citations.batch_verify_citations in Hr.
    rewrite list_lookup_fmap, Hclaim in Hr. injection Hr as <-.
    apply create_verified_citation_Some in Hcit as (Hp & b & Hbest & ->).
    apply verify_citation_best in Hbest as (Hin & Hpass & _).
    exists claim, b. split; [by eapply list_elem_of_lookup_2|]. split; [done|].
    split; [done|]. apply Qle_bool_iff. by rewrite <- Hpass.
Qed.

(** ** [search] *)

Lemma search_hits_spec (st : VectorStore.Store) jurisdiction boost_difc
    (hits : list (Q * Z)) :
  forall results,
    VectorStore.search_hits st jurisdiction boost_difc hits = Some results ->
    (length results <= length hits)%nat /\
    forall m, m ∈ results ->
      exists hit, hit ∈ hits /\
        VectorStore.search_hit st jurisdiction boost_difc hit = Some (Some m).
Proof.
  induction hits as [|hit hits IH]; intros results.
  - intros [= <-]. split; [done|]. by intros m ?%elem_of_nil.
  - cbn [VectorStore.search_hits].
    destruct (VectorStore.search_hit st jurisdiction boost_difc hit) as [r|] eqn:Hhit;
      [|done]. cbn.
    destruct (VectorStore.search_hits st jurisdiction boost_difc hits) as [rs|] eqn:Hrest;
      [|done]. cbn.
    destruct (IH rs eq_refl) as [Hlen Hin]. intros [= <-]. split.
    + destruct r; cbn; lia.
    + intros m Hm.
      assert (r = Some m \/ m ∈ rs) as [-> | Hm'].
      { destruct r; [apply elem_of_cons in Hm as [->|]|]; auto. }
      * exists hit. split; [apply list_elem_of_here | done].
      * destruct (Hin m Hm') as (h & Hh & Hs). exists h.
        split; [by apply list_elem_of_further | done].
Qed.

Lemma search_hit_spec (st : VectorStore.Store) jurisdiction boost_difc (s : Q) (idx : Z)
    (m : VectorStore.RetrievalMatch) :
  VectorStore.search_hit st jurisdiction boost_difc (s, idx) = Some (Some m) ->
  (0 <= idx)%Z /\
  (exists chunk_id,
     VectorStore.vector_chunk_id st idx = Some chunk_id /\
     VectorStore._load_chunk st chunk_id = Some (VectorStore.chunk m)) /\
  VectorStore.score m
    = (if boost_difc && tagged "jurisdiction" "DIFC" (VectorStore.chunk m)
       then s * (12 # 10) else s)%Q /\
  (boost_difc = true -> is_chunk (VectorStore.chunk m) = true) /\
  (forall j, jurisdiction = Some j ->
     untagged (VectorStore.chunk m)
     || tagged "jurisdiction" (Models.jurisdiction_value j) (VectorStore.chunk m) = true).
Proof.
  unfold VectorStore.search_hit, VectorStore._load_chunk.
  destruct (idx <? 0)%Z eqn:Hidx; [done|]. apply Z.ltb_ge in Hidx.
  destruct (VectorStore.vector_chunk_id st idx) as [chunk_id|]; [|done]. cbn.
  destruct (Py.dict_get (VectorStore._chunks st) chunk_id) as [e|] eqn:He; [|done].
  destruct e as [c|d i]; cbn.
  - destruct jurisdiction as [j|]; cbn.
    + destruct (VectorStore.has_metadata (VectorStore.metadata c)) eqn:Hm; cbn.
      * destruct (bool_decide (VectorStore.metadata_get (VectorStore.metadata c)
                                 "jurisdiction" = Some (Models.jurisdiction_value j)))
          eqn:Hj; cbn; [|done].
        destruct boost_difc; cbn; intros [= <-]; cbn; rewrite ?Hm; cbn;
          (split; [done|]; split; [by exists chunk_id|]; split; [done|];
           split; [done|]; intros j' [= <-]; by rewrite Hj).
      * destruct boost_difc; cbn; intros [= <-]; cbn; rewrite ?Hm; cbn;
          (split; [done|]; split; [by exists chunk_id|]; done).
    + destruct boost_difc; cbn; intros [= <-]; cbn;
        (split; [done|]; split; [by exists chunk_id|]; done).
  - destruct jurisdiction as [j|]; cbn; [done|].
    destruct boost_difc; cbn; [done|]. intros [= <-]. cbn.
    split; [done|]. split; [by exists chunk_id|]. done.
Qed.

Lemma search_unfold embed_query st query limit jurisdiction boost_difc m :
  m ∈ VectorStore.search embed_query st query limit jurisdiction boost_difc ->
  exists index query_vector hits results,
    VectorStore._index st = Some index /\
    embed_query query = Py.Returned query_vector /\
    VectorStore.index_search index query_vector
      (Z.min (limit * 3) (VectorStore.ntotal index)) = Py.Returned hits /\
    VectorStore.search_hits st jurisdiction boost_difc hits = Some results /\
    m ∈ results.
Proof.
  unfold VectorStore.search.
  destruct (VectorStore._index st) as [index|]; [|by intros ?%elem_of_nil].
  destruct (VectorStore._metadata st); [|by intros ?%elem_of_nil].
  destruct (embed_query query) as [qv|]; [|by intros ?%elem_of_nil].
  destruct (Py.empty qv); [by intros ?%elem_of_nil|].
  destruct (VectorStore.index_search index qv _) as [hits|] eqn:Hs;
    [|by intros ?%elem_of_nil].
  destruct (VectorStore.search_hits st jurisdiction boost_difc hits) as [results|] eqn:Hr;
    [|by intros ?%elem_of_nil].
  intros Hm%elem_of_slice_to. rewrite sort_desc_perm in Hm.
  by exists index, qv, hits, results.
Qed.

(** X@search_origin@: every match that [search] returns comes from a hit
    [(s, idx)] of the index with [idx >= 0], whose entry in the metadata
    names the id under which the returned chunk is stored; its score is
    [s], multiplied by 1.2 exactly when boosting is on and the chunk's
    metadata gives the jurisdiction DIFC; and under a jurisdiction filter
    the chunk either has no metadata or has the requested jurisdiction. *)
Theorem search_result_origin embed_query st query limit jurisdiction boost_difc m :
  m ∈ VectorStore.search embed_query st query limit jurisdiction boost_difc ->
  exists index query_vector hits s idx chunk_id,
    VectorStore._index st = Some index /\
    embed_query query = Py.Returned query_vector /\
    VectorStore.index_search index query_vector
      (Z.min (limit * 3) (VectorStore.ntotal index)) = Py.Returned hits /\
    (s, idx) ∈ hits /\ (0 <= idx)%Z /\
    VectorStore.vector_chunk_id st idx = Some chunk_id /\
    VectorStore._load_chunk st chunk_id = Some (VectorStore.chunk m) /\
    VectorStore.score m
      = (if boost_difc && tagged "jurisdiction" "DIFC" (VectorStore.chunk m)
         then s * (12 # 10) else s)%Q /\
    (forall j, jurisdiction = Some j ->
       untagged (VectorStore.chunk m)
       || tagged "jurisdiction" (Models.jurisdiction_value j) (VectorStore.chunk m) = true).
Proof.
  intros (index & qv & hits & results & Hi & He & Hs & Hr & Hm)%search_unfold.
  apply search_hits_spec in Hr as [_ Hr].
  destruct (Hr m Hm) as ([s idx] & Hin & Hhit).
  apply search_hit_spec in Hhit as (Hidx & (chunk_id & Hid & Hc) & Hscore & _ & Hj).
  by exists index, qv, hits, s, idx, chunk_id.
Qed.

Lemma search_chunks embed_query st query limit jurisdiction m :
  m ∈ VectorStore.search embed_query st query limit jurisdiction true ->
  is_chunk (VectorStore.chunk m) = true.
Proof.
  intros (index & qv & hits & results & Hi & He & Hs & Hr & Hm)%search_unfold.
  apply search_hits_spec in Hr as [_ Hr].
  destruct (Hr m Hm) as ([s idx] & Hin & Hhit).
  apply search_hit_spec in Hhit as (_ & _ & _ & Hc & _). by apply Hc.
Qed.

Lemma length_slice_to {A} (l : list A) (hi : Z) :
  (0 <= hi)%Z -> (Z.of_nat (length (Py.slice_to l hi)) <= hi)%Z.
Proof.
  intros Hhi. unfold Py.slice_to, Py.slice, Py.clamp_index.
  rewrite length_take. cbn [Z.ltb]. 
  destruct (hi <? 0)%Z eqn:E; [apply Z.ltb_lt in E; lia|].
  cbn. lia.
Qed.

Lemma keyword_hit_spec (query_terms : gset string) (e : VectorStore.chunk_entry)
    (m : VectorStore.RetrievalMatch) :
  VectorStore.keyword_hit query_terms e = Some m ->
  VectorStore.chunk m = e /\ is_chunk e = true /\
  (0 < VectorStore.score m <= 1)%Q.
Proof.
  destruct e as [c|d i]; cbn [VectorStore.keyword_hit]; [|done].
  set (content_terms := list_to_set (Py.split (Py.lower (VectorStore.content c)))).
  destruct (0 <? size (query_terms ∩ content_terms))%nat eqn:Hov; [|done].
  apply Nat.ltb_lt in Hov.
  intros [= <-]. cbn. split; [done|]. split; [done|].
  assert (size (query_terms ∩ content_terms) <= size query_terms)%nat as Hle
    by (apply subseteq_size, intersection_subseteq_l).
  split; [|by apply ratio_le_1].
  unfold Citations.ratio, Qlt. cbn. lia.
Qed.

(** ** [_keyword_search] and [hybrid_search] *)

Lemma is_chunk_id_of (e : VectorStore.chunk_entry) :
  is_chunk e = true <-> exists k, VectorStore.id_of e = Some k.
Proof. destruct e; cbn; split; try done; eauto. by intros [? ?]. Qed.

Lemma keyword_search_spec (st : VectorStore.Store) (query : string) (limit : Z)
    (m : VectorStore.RetrievalMatch) :
  m ∈ VectorStore._keyword_search st query limit ->
  is_chunk (VectorStore.chunk m) = true /\
  (exists k, (k, VectorStore.chunk m) ∈ VectorStore._chunks st) /\
  (0 < VectorStore.score m <= 1)%Q.
Proof.
  unfold VectorStore._keyword_search. intros Hm%elem_of_slice_to.
  rewrite sort_desc_perm in Hm.
  apply list_elem_of_omap in Hm as ([k e] & Hin & Hhit). cbn in Hhit.
  apply keyword_hit_spec in Hhit as (-> & Hc & Hs). split; [done|].
  split; [by exists k | done].
Qed.

Lemma omap_nil_all {A B} (f : A -> option B) (l : list A) :
  (forall x, f x = None) -> omap f l = [].
Proof. intros Hf. induction l as [|x l IH]; cbn; [done|]. by rewrite Hf. Qed.

(** X@keyword_scores@: every match of [_keyword_search] is a stored
    [DocumentChunk] with a score greater than 0 and at most 1 (the share of
    the query's terms that the chunk contains); plain dicts in the chunk
    store are never returned; and a query without terms matches nothing. *)
Theorem _keyword_search_scores (st : VectorStore.Store) (query : string) (limit : Z) :
  Forall (fun m =>
            is_chunk (VectorStore.chunk m) = true /\
            (exists k, (k, VectorStore.chunk m) ∈ VectorStore._chunks st) /\
            (0 < VectorStore.score m <= 1)%Q)
         (VectorStore._keyword_search st query limit) /\
  (Py.split (Py.lower query) = [] -> VectorStore._keyword_search st query limit = []).
Proof.
  split.
  - apply Forall_forall. intros m Hm. by eapply keyword_search_spec.
  - intros Hq. unfold VectorStore._keyword_search. rewrite Hq.
    rewrite omap_nil_all.
    + cbn. unfold Py.slice_to, Py.slice. by rewrite drop_nil, take_nil.
    + intros [k e]. cbn [snd].
      destruct e as [c|]; cbn [VectorStore.keyword_hit list_to_set]; [|done].
      by rewrite intersection_empty_l_L, size_empty.
Qed.

Lemma add_vector_scores_total (vector_results : list VectorStore.RetrievalMatch) :
  Forall (fun m => is_chunk (VectorStore.chunk m) = true) vector_results ->
  forall d, exists d', VectorStore.add_vector_scores d vector_results = Some d'.
Proof.
  induction 1 as [|m ms Hm _ IH]; intros d; cbn; [eauto|].
  apply is_chunk_id_of in Hm as [k ->]. cbn. apply IH.
Qed.

Lemma add_keyword_scores_total (keyword_results : list VectorStore.RetrievalMatch) :
  Forall (fun m => is_chunk (VectorStore.chunk m) = true) keyword_results ->
  forall d, exists d', VectorStore.add_keyword_scores d keyword_results = Some d'.
Proof.
  induction 1 as [|m ms Hm _ IH]; intros d; cbn; [eauto|].
  apply is_chunk_id_of in Hm as [k ->]. cbn. apply IH.
Qed.

(** X@hybrid_returns@: [hybrid_search] always returns a list and never
    fails on [result.chunk.id]: every chunk that reaches the fusion is a
    [DocumentChunk].  The chunk ids of the results are pairwise distinct,
    and for a limit that is not negative there are at most [limit]
    results. *)
Theorem hybrid_search_returns embed_query st query limit vector_weight keyword_weight :
  exists results,
    VectorStore.hybrid_search embed_query st query limit vector_weight keyword_weight
      = Some results /\
    Forall (fun m => is_chunk (VectorStore.chunk m) = true) results /\
    NoDup ((fun m => VectorStore.id_of (VectorStore.chunk m)) <$> results) /\
    ((0 <= limit)%Z -> (Z.of_nat (length results) <= limit)%Z).
Proof.
  unfold VectorStore.hybrid_search, VectorStore.fuse.
  set (vs := VectorStore.search embed_query st query (limit * 2) None true).
  set (ks := VectorStore._keyword_search st query (limit * 2)).
  assert (Forall (fun m => is_chunk (VectorStore.chunk m) = true) vs) as Hvs
    by (apply Forall_forall; intros m Hm; by eapply search_chunks).
  assert (Forall (fun m => is_chunk (VectorStore.chunk m) = true) ks) as Hks
    by (apply Forall_forall; intros m Hm; by eapply keyword_search_spec).
  destruct (add_vector_scores_total vs Hvs []) as [d1 E1]. rewrite E1. cbn.
  destruct (add_keyword_scores_total ks Hks d1) as [d2 E2]. rewrite E2. cbn.
  apply add_vector_scores_spec in E1 as (Hnd1 & Hkeys1 & _);
    [|apply NoDup_nil_2|by intros ? ?].
  apply add_keyword_scores_spec in E2 as (Hnd2 & Hkeys2 & _); [|done..].
  eexists. split; [done|].
  set (final_results := (fun kv : string * VectorStore.combined => _) <$> d2).
  assert ((fun m => VectorStore.id_of (VectorStore.chunk m)) <$> final_results
          = Some <$> d2.*1) as Hids.
  { unfold final_results. rewrite <- !list_fmap_compose.
    apply list_fmap_ext. intros i [k e] Hi. cbn.
    apply Hkeys2. apply dict_get_elem_of; [done|]. by eapply list_elem_of_lookup_2. }
  split; [|split].
  - apply Forall_forall. intros m Hm%elem_of_slice_to. rewrite sort_desc_perm in Hm.
    apply is_chunk_id_of.
    assert (VectorStore.id_of (VectorStore.chunk m) ∈ Some <$> d2.*1) as Hin
      by (rewrite <- Hids; apply list_elem_of_fmap; eauto).
    apply list_elem_of_fmap in Hin as (k & -> & _). eauto.
  - destruct (slice_to_take (Py.sort_desc VectorStore.score final_results) limit)
      as [n ->].
    rewrite fmap_take. eapply sublist_NoDup; [|apply sublist_take].
    rewrite sort_desc_perm, Hids. apply NoDup_fmap; [|done]. by intros ? ? [= ->].
  - apply length_slice_to.
Qed.

(** X@search_limit@: for a limit that is not negative, [search] returns at
    most [limit] matches, whatever the index answers. *)
Theorem search_at_most_limit embed_query st query limit jurisdiction boost_difc :
  (0 <= limit)%Z ->
  (Z.of_nat (length (VectorStore.search embed_query st query limit jurisdiction boost_difc))
   <= limit)%Z.
Proof.
  intros Hl. unfold VectorStore.search.
  repeat (match goal with |- context [match ?x with _ => _ end] => destruct x end;
          cbn [length]; try lia).
  by apply length_slice_to.
Qed.

(** ** The chunk store: [_store_chunks_in_db], [_load_chunk], [_load_metadata] *)

Lemma slice_to_nil {A} (hi : Z) : Py.slice_to (@nil A) hi = [].
Proof. unfold Py.slice_to, Py.slice. by rewrite drop_nil, take_nil. Qed.

(** A store in which every id that the metadata names maps to a plain dict. *)
Lemma search_hits_plain (st : VectorStore.Store) jurisdiction (hits : list (Q * Z)) :
  (forall idx chunk_id e,
     VectorStore.vector_chunk_id st idx = Some chunk_id ->
     Py.dict_get (VectorStore._chunks st) chunk_id = Some e -> is_chunk e = false) ->
  VectorStore.search_hits st jurisdiction true hits = None \/
  VectorStore.search_hits st jurisdiction true hits = Some [].
Proof.
  intros Hplain. induction hits as [|[s idx] hits IH]; [by right|].
  cbn [VectorStore.search_hits].
  assert (VectorStore.search_hit st jurisdiction true (s, idx) = None \/
          VectorStore.search_hit st jurisdiction true (s, idx) = Some None) as [-> | ->].
  { unfold VectorStore.search_hit. destruct (idx <? 0)%Z; [by right|].
    destruct (VectorStore.vector_chunk_id st idx) as [chunk_id|] eqn:Hid; [|by left].
    cbn. destruct (Py.dict_get (VectorStore._chunks st) chunk_id) as [e|] eqn:He;
      [|by right].
    specialize (Hplain _ _ _ Hid He). destruct e as [c|d i]; [done|].
    left. by destruct jurisdiction. }
  - by left.
  - cbn. destruct IH as [-> | ->]; [by left | by right].
Qed.

Lemma search_plain embed_query (st : VectorStore.Store) query limit jurisdiction :
  (forall idx chunk_id e,
     VectorStore.vector_chunk_id st idx = Some chunk_id ->
     Py.dict_get (VectorStore._chunks st) chunk_id = Some e -> is_chunk e = false) ->
  VectorStore.search embed_query st query limit jurisdiction true = [].
Proof.
  intros Hplain. unfold VectorStore.search.
  destruct (VectorStore._index st) as [index|]; [|done].
  destruct (VectorStore._metadata st); [|done].
  destruct (embed_query query) as [qv|]; [|done].
  destruct (Py.empty qv); [done|].
  destruct (VectorStore.index_search index qv _) as [hits|]; [|done].
  destruct (search_hits_plain st jurisdiction hits Hplain) as [-> | ->]; [done|].
  apply slice_to_nil.
Qed.

Lemma omap_nil_all_in {A B} (f : A -> option B) (l : list A) :
  (forall x, x ∈ l -> f x = None) -> omap f l = [].
Proof.
  induction l as [|x l IH]; intros Hf; cbn; [done|].
  rewrite (Hf x) by apply list_elem_of_here. cbn. apply IH.
  intros y Hy. apply Hf. by apply list_elem_of_further.
Qed.

Lemma dict_elem_of_get {V} (d : Py.dict V) (k : string) (v : V) :
  Py.dict_get d k = Some v -> (k, v) ∈ d.
Proof.
  induction d as [|[k' v'] d IH]; cbn; [done|].
  destruct (String.eqb k' k) eqn:E.
  - apply String.eqb_eq in E as ->. intros [= ->]. apply list_elem_of_here.
  - intros H. apply list_elem_of_further. by apply IH.
Qed.

Lemma dict_set_values {V} (P : V -> Prop) (d : Py.dict V) (k : string) (v : V) :
  Forall (fun kv => P kv.2) d -> P v -> Forall (fun kv => P kv.2) (Py.dict_set d k v).
Proof.
  intros Hd Hv. induction Hd as [|[k' v'] d Hkv Hd IH]; cbn.
  - by constructor.
  - destruct (String.eqb k' k); constructor; done.
Qed.

Lemma chunk_mapping_values (vectors : list VectorStore.vector_info) :
  forall d, Forall (fun kv => is_chunk kv.2 = false) d ->
    Forall (fun kv => is_chunk kv.2 = false) (VectorStore.chunk_mapping vectors d).
Proof.
  unfold VectorStore.chunk_mapping.
  induction vectors as [|v vs IH]; intros d Hd; cbn [foldl]; [done|].
  apply IH. destruct (VectorStore.v_chunk_id v) as [k|]; [|done].
  destruct (Py.truthy k); [|done]. by apply (dict_set_values (fun e => is_chunk e = false)).
Qed.

Lemma chunk_mapping_keeps_plain (vectors : list VectorStore.vector_info) :
  forall d k e,
    Py.dict_get d k = Some e -> is_chunk e = false ->
    exists e', Py.dict_get (VectorStore.chunk_mapping vectors d) k = Some e' /\
      is_chunk e' = false.
Proof.
  unfold VectorStore.chunk_mapping.
  induction vectors as [|v vs IH]; intros d k e Hk He; cbn [foldl]; [eauto|].
  destruct (VectorStore.v_chunk_id v) as [k'|]; [|by eapply IH].
  destruct (Py.truthy k'); [|by eapply IH].
  destruct (String.eqb k' k) eqn:E.
  - eapply IH; [by rewrite dict_get_set, E|done].
  - eapply IH; [by rewrite dict_get_set, E|done].
Qed.

Lemma chunk_mapping_named (vectors : list VectorStore.vector_info) :
  forall d v k,
    v ∈ vectors -> VectorStore.v_chunk_id v = Some k -> Py.truthy k = true ->
    exists e, Py.dict_get (VectorStore.chunk_mapping vectors d) k = Some e /\
      is_chunk e = false.
Proof.
  induction vectors as [|v0 vs IH]; intros d v k Hin Hk Ht;
    [by apply elem_of_nil in Hin|].
  apply elem_of_cons in Hin as [<- | Hin].
  - unfold VectorStore.chunk_mapping. cbn [foldl]. rewrite Hk, Ht.
    eapply (chunk_mapping_keeps_plain vs);
      [by rewrite dict_get_set, String.eqb_refl | done].
  - unfold VectorStore.chunk_mapping. cbn [foldl]. by eapply IH.
Qed.

Lemma store_chunks_get (chunks : list VectorStore.DocumentChunk) :
  forall d c,
    c ∈ chunks ->
    exists c', c' ∈ chunks /\ VectorStore.id c' = VectorStore.id c /\
      Py.dict_get
        (foldl (fun d c => Py.dict_set d (VectorStore.id c) (VectorStore.Chunk c)) d chunks)
        (VectorStore.id c) = Some (VectorStore.Chunk c').
Proof.
  induction chunks as [|c0 cs IH] using rev_ind; intros d c Hin;
    [by apply elem_of_nil in Hin|].
  rewrite foldl_app. cbn [foldl]. rewrite dict_get_set.
  destruct (String.eqb (VectorStore.id c0) (VectorStore.id c)) eqn:E.
  - apply String.eqb_eq in E. exists c0.
    split; [apply elem_of_app; right; apply list_elem_of_here | done].
  - apply elem_of_app in Hin as [Hin | Hin].
    + destruct (IH d c Hin) as (c' & Hc' & Hid & Hget). exists c'.
      split; [apply elem_of_app; by left | done].
    + apply list_elem_of_singleton in Hin as ->. by rewrite String.eqb_refl in E.
Qed.

(** X@loaded_store@: a store that has only loaded its index and its
    metadata from disk holds a plain dict under every chunk id, so it
    retrieves nothing: [search] with boosting on (the default) returns the
    empty list for every query, limit and jurisdiction, [_keyword_search]
    matches nothing, and [hybrid_search] returns the empty list. *)
Theorem loaded_store_retrieves_nothing
    (embed_query : string -> Py.outcome (list Q))
    (index_file : option VectorStore.FaissIndex)
    (metadata_file : option VectorStore.metadata_json)
    (query : string) (limit : Z) :
  let st :=
    VectorStore._load_metadata metadata_file
      (VectorStore._load_index index_file VectorStore.init) in
  (forall jurisdiction,
     VectorStore.search embed_query st query limit jurisdiction true = []) /\
  VectorStore._keyword_search st query limit = [] /\
  (forall vector_weight keyword_weight,
     VectorStore.hybrid_search embed_query st query limit vector_weight keyword_weight
     = Some []).
Proof.
  intros st.
  assert (Forall (fun kv => is_chunk kv.2 = false) (VectorStore._chunks st)) as Hplain.
  { subst st. unfold VectorStore._load_metadata, VectorStore._load_index. cbn.
    destruct metadata_file as [loaded|]; cbn; [|done].
    by apply chunk_mapping_values. }
  assert (forall limit jurisdiction,
            VectorStore.search embed_query st query limit jurisdiction true = []) as Hs.
  { intros l j. apply search_plain. intros idx k e _ He.
    apply dict_elem_of_get in He. rewrite Forall_forall in Hplain.
    apply (Hplain _ He). }
  assert (forall limit, VectorStore._keyword_search st query limit = []) as Hk.
  { intros l. unfold VectorStore._keyword_search.
    rewrite omap_nil_all_in; [apply slice_to_nil|].
    intros [k e] He. rewrite Forall_forall in Hplain. specialize (Hplain _ He).
    cbn in *. by destruct e. }
  split; [done|]. split; [done|]. intros vw kw.
  unfold VectorStore.hybrid_search. rewrite Hs, Hk. cbn.
  apply (f_equal Some), slice_to_nil.
Qed.

Lemma load_metadata_built (st : VectorStore.Store)
    (all_chunks : list VectorStore.DocumentChunk) :
  VectorStore._metadata st = None ->
  let vectors :=
    (fun chunk =>
       {| VectorStore.v_chunk_id := Some (VectorStore.id chunk);
          VectorStore.v_doc_id := Some (VectorStore.doc_id chunk);
          VectorStore.v_chunk_index := Some (VectorStore.chunk_index chunk) |})
      <$> all_chunks in
  VectorStore._load_metadata (Some (VectorStore.build_index_metadata all_chunks)) st
  = {| VectorStore._index := VectorStore._index st;
       VectorStore._metadata := Some (Some (VectorStore.v_chunk_id <$> vectors));
       VectorStore._chunks := VectorStore.chunk_mapping vectors (VectorStore._chunks st) |}.
Proof. intros Hmeta. unfold VectorStore._load_metadata. by rewrite Hmeta. Qed.

(** X@load_replaces@: [_store_chunks_in_db] followed by [_load_chunk]
    gives back a stored chunk with the requested id; but once
    [_load_metadata] has read the metadata that [build_index] wrote for
    these chunks, [_load_chunk] gives the plain dict
    [{"doc_id", "chunk_index"}] under the same id and the [DocumentChunk]
    is gone. *)
Theorem metadata_load_replaces_chunks (st : VectorStore.Store)
    (all_chunks : list VectorStore.DocumentChunk) (c : VectorStore.DocumentChunk) :
  VectorStore._metadata st = None ->
  c ∈ all_chunks -> Py.truthy (VectorStore.id c) = true ->
  let built := VectorStore._store_chunks_in_db st all_chunks in
  let loaded :=
    VectorStore._load_metadata (Some (VectorStore.build_index_metadata all_chunks))
      built in
  (exists c', c' ∈ all_chunks /\ VectorStore.id c' = VectorStore.id c /\
     VectorStore._load_chunk built (VectorStore.id c) = Some (VectorStore.Chunk c')) /\
  (exists doc_id chunk_index,
     VectorStore._load_chunk loaded (VectorStore.id c)
     = Some (VectorStore.Info doc_id chunk_index)).
Proof.
  intros Hmeta Hin Hid built loaded. split.
  - by apply store_chunks_get.
  - subst loaded. rewrite load_metadata_built by done.
    unfold VectorStore._load_chunk. cbn [VectorStore._chunks].
    match goal with
    | |- context [VectorStore.chunk_mapping (?mk <$> _) ?d] =>
        destruct (chunk_mapping_named (mk <$> all_chunks) d (mk c) (VectorStore.id c))
          as (e & -> & He)
    end; [apply list_elem_of_fmap; by exists c | done | done |].
    destruct e as [|d i]; [done|]. eauto.
Qed.

(** X@search_after_build@: after [build_index] has stored its chunks, the
    first [search] loads the metadata that was written for them, and with
    boosting on it returns the empty list for every query: each hit names a
    chunk id that now maps to a plain dict. *)
Theorem search_after_build_returns_nothing
    (embed_query : string -> Py.outcome (list Q)) (st : VectorStore.Store)
    (all_chunks : list VectorStore.DocumentChunk)
    (query : string) (limit : Z) (jurisdiction : option Models.JurisdictionType) :
  VectorStore._metadata st = None ->
  Forall (fun c => Py.truthy (VectorStore.id c) = true) all_chunks ->
  VectorStore.search embed_query
    (VectorStore._load_metadata (Some (VectorStore.build_index_metadata all_chunks))
       (VectorStore._store_chunks_in_db st all_chunks))
    query limit jurisdiction true = [].
Proof.
  intros Hmeta Hids. rewrite load_metadata_built by done.
  apply search_plain. intros idx k e Hk He.
  unfold VectorStore.vector_chunk_id in Hk.
  cbn [VectorStore._metadata VectorStore._chunks mjoin option_join mbind option_bind] in *.
  rewrite <- list_fmap_compose in Hk.
  destruct (_ !! Z.to_nat idx) as [o|] eqn:Hl; [|done]. cbn in Hk. subst o.
  apply list_lookup_fmap_Some in Hl as (c & Hkc & Hc). cbn in Hkc. injection Hkc as ->.
  apply list_elem_of_lookup_2 in Hc.
  match type of He with
  | Py.dict_get (VectorStore.chunk_mapping (?mk <$> _) ?d) _ = _ =>
      destruct (chunk_mapping_named (mk <$> all_chunks) d (mk c) (VectorStore.id c))
        as (e' & He' & Hplain)
  end.
  - apply list_elem_of_fmap. by exists c.
  - done.
  - rewrite Forall_forall in Hids. by apply Hids.
  - rewrite He in He'. by injection He' as <-.
Qed.

(** ** Splitting a text into chunks *)

Lemma rounds_step (len i step : Z) :
  (0 < step)%Z -> (i < len)%Z ->
  Z.to_nat ((len - i + step - 1) `div` step)
  = S (Z.to_nat ((len - (i + step) + step - 1) `div` step)).
Proof.
  intros Hstep Hi.
  replace (len - i + step - 1)%Z with ((len - (i + step) + step - 1) + 1 * step)%Z by lia.
  rewrite Z.div_add by lia.
  assert (0 <= (len - (i + step) + step - 1) `div` step)%Z by (apply Z.div_pos; lia).
  lia.
Qed.

Lemma rounds_none (len i step : Z) :
  (0 < step)%Z -> (len <= i)%Z -> Z.to_nat ((len - i + step - 1) `div` step) = 0%nat.
Proof.
  intros Hstep Hi.
  assert ((len - i + step - 1) `div` step <= 0)%Z; [|lia].
  apply Z.lt_succ_r. apply Z.div_lt_upper_bound; lia.
Qed.

(** The loop of [_split_text] with a positive step, in closed form. *)
Lemma split_loop_closed (words : list string) (chunk_size overlap : Z) :
  (0 < chunk_size - overlap)%Z ->
  forall fuel i chunks,
    (0 <= i)%Z -> (0 < fuel)%nat -> (Z.of_nat (length words) - i < Z.of_nat fuel)%Z ->
    VectorStore.split_loop fuel words chunk_size overlap i chunks
    = Some (chunks ++
            ((fun k => Py.join " "
                         (Py.slice words (i + Z.of_nat k * (chunk_size - overlap))
                                   (i + Z.of_nat k * (chunk_size - overlap) + chunk_size)))
               <$> seq 0 (Z.to_nat ((Z.of_nat (length words) - i
                                     + (chunk_size - overlap) - 1)
                                    `div` (chunk_size - overlap))))).
Proof.
  intros Hstep. induction fuel as [|fuel IH]; intros i chunks Hi Hpos Hfuel; [lia|].
  cbn [VectorStore.split_loop].
  destruct (Z.ltb_spec i (Z.of_nat (length words))) as [Hlt|Hge].
  - destruct (Z.leb_spec (i + (chunk_size - overlap)) 0); [lia|].
    rewrite IH by lia. f_equal.
    rewrite (rounds_step _ i) by lia. cbn [seq fmap list_fmap].
    rewrite <- app_assoc. cbn [app]. f_equal.
    rewrite Z.mul_0_l, Z.add_0_r. f_equal.
    rewrite <- seq_shift, <- list_fmap_compose.
    apply list_fmap_ext. intros j k _. cbn.
    replace (i + (chunk_size - overlap) + Z.of_nat k * (chunk_size - overlap))%Z
      with (i + Z.of_nat (S k) * (chunk_size - overlap))%Z by lia.
    done.
  - rewrite rounds_none by lia. cbn. by rewrite app_nil_r.
Qed.

(** X@closed_form@: with a positive step [chunk_size - overlap],
    [_split_text] returns one chunk for each multiple [i] of the step that
    lies below the number of words, in order: the words [i] to
    [i + chunk_size - 1] (as far as the text goes) joined by single
    blanks. *)
Theorem _split_text_closed_form (text : string) (chunk_size overlap : Z) (fuel : nat) :
  (0 < chunk_size - overlap)%Z -> (length (Py.split text) < fuel)%nat ->
  VectorStore._split_text fuel text chunk_size overlap
  = Some ((fun i => Py.join " " (Py.slice (Py.split text) i (i + chunk_size)))
            <$> Py.range_by (Z.of_nat (length (Py.split text))) (chunk_size - overlap)).
Proof.
  intros Hstep Hfuel. unfold VectorStore._split_text.
  rewrite split_loop_closed by lia. cbn [app]. f_equal.
  unfold Py.range_by. destruct (Z.ltb_spec 0 (chunk_size - overlap)); [|lia].
  rewrite <- list_fmap_compose. rewrite Z.sub_0_r.
  apply list_fmap_ext. intros j k _. cbn. by rewrite !Z.add_0_l.
Qed.

Lemma append_assoc (a b c : string) : (a +:+ b) +:+ c = a +:+ (b +:+ c).
Proof.
  induction a as [|x a IH]; [reflexivity|].
  change (String x ((a +:+ b) +:+ c) = String x (a +:+ (b +:+ c))). by rewrite IH.
Qed.

Lemma join_cons (sep w : string) (ws : list string) :
  ws <> [] -> Py.join sep (w :: ws) = w +:+ sep +:+ Py.join sep ws.
Proof. by destruct ws. Qed.

Lemma join_app (sep : string) (a b : list string) :
  a <> [] -> b <> [] ->
  Py.join sep (a ++ b) = Py.join sep a +:+ sep +:+ Py.join sep b.
Proof.
  intros Ha Hb. induction a as [|w a IH]; [done|].
  destruct a as [|w' a].
  - cbn [app]. by rewrite join_cons.
  - rewrite <- app_comm_cons, join_cons by done.
    rewrite IH by done. rewrite (join_cons _ w) by done.
    by rewrite !append_assoc.
Qed.

Lemma join_parts (sep : string) (parts : list (list string)) :
  Forall (fun p => p <> []) parts ->
  Py.join sep (Py.join sep <$> parts) = Py.join sep (concat parts).
Proof.
  induction 1 as [|p ps Hp Hps IH]; [done|].
  destruct ps as [|p' ps].
  - cbn. by rewrite app_nil_r.
  - cbn [fmap list_fmap concat] in *. rewrite join_cons by done.
    rewrite IH. rewrite (join_app _ p); [done|done|].
    inversion Hps as [|? ? Hp' _]; subst. by destruct p'.
Qed.

Lemma slice_inside {A} (l : list A) (i n : Z) :
  (0 <= i)%Z -> (0 <= n)%Z ->
  Py.slice l i (i + n) = take (Z.to_nat n) (drop (Z.to_nat i) l).
Proof.
  intros Hi Hn. unfold Py.slice, Py.clamp_index.
  destruct (Z.ltb_spec i 0); [lia|]. destruct (Z.ltb_spec (i + n) 0); [lia|].
  destruct (Z.le_gt_cases i (Z.of_nat (length l))) as [Hle|Hgt].
  - rewrite (Z.min_l i) by lia.
    destruct (Z.le_gt_cases (i + n) (Z.of_nat (length l))).
    + rewrite Z.min_l by lia. f_equal. lia.
    + rewrite Z.min_r by lia.
      rewrite !take_ge; [done| |]; rewrite length_drop; lia.
  - rewrite !drop_ge by lia. by rewrite !take_nil.
Qed.

Lemma slices_take {A} (l : list A) (n : Z) (count : nat) :
  (0 < n)%Z ->
  concat ((fun k => Py.slice l (Z.of_nat k * n) (Z.of_nat k * n + n)) <$> seq 0 count)
  = take (count * Z.to_nat n) l.
Proof.
  intros Hn. induction count as [|c IH]; [done|].
  rewrite seq_S, fmap_app, concat_app, IH. cbn [fmap list_fmap concat Nat.add].
  rewrite app_nil_r, slice_inside by lia.
  replace (Z.to_nat (Z.of_nat c * n)) with (c * Z.to_nat n)%nat by lia.
  rewrite take_take_drop. f_equal. lia.
Qed.

(** X@keeps_words@: splitting without overlap loses and adds nothing: for
    a positive chunk size, the chunks of [_split_text] joined by single
    blanks are the words of the text joined by single blanks. *)
Theorem _split_text_keeps_words (text : string) (chunk_size : Z) (fuel : nat) :
  (0 < chunk_size)%Z -> (length (Py.split text) < fuel)%nat ->
  exists chunks,
    VectorStore._split_text fuel text chunk_size 0 = Some chunks /\
    Py.join " " chunks = Py.join " " (Py.split text).
Proof.
  intros Hsize Hfuel. eexists. split; [by apply _split_text_closed_form; lia|].
  set (words := Py.split text). rewrite Z.sub_0_r.
  unfold Py.range_by. destruct (Z.ltb_spec 0 chunk_size); [|lia].
  rewrite <- list_fmap_compose.
  set (count := Z.to_nat ((Z.of_nat (length words) + chunk_size - 1) `div` chunk_size)).
  change ((fun i => Py.join " " (Py.slice words i (i + chunk_size)))
            ∘ (fun k => (Z.of_nat k * chunk_size)%Z))
    with (Py.join " " ∘ (fun k => Py.slice words (Z.of_nat k * chunk_size)
                                           (Z.of_nat k * chunk_size + chunk_size))).
  rewrite list_fmap_compose, join_parts.
  - rewrite slices_take by done. rewrite take_ge; [done|].
    subst count.
    assert (Z.of_nat (length words)
            <= ((Z.of_nat (length words) + chunk_size - 1) `div` chunk_size) * chunk_size)%Z.
    { pose proof (Z.div_mod (Z.of_nat (length words) + chunk_size - 1) chunk_size).
      pose proof (Z.mod_pos_bound (Z.of_nat (length words) + chunk_size - 1) chunk_size).
      lia. }
    assert (0 <= (Z.of_nat (length words) + chunk_size - 1) `div` chunk_size)%Z
      by (apply Z.div_pos; lia).
    nia.
  - apply Forall_fmap, Forall_forall. intros k Hk%elem_of_seq. cbn.
    rewrite slice_inside by lia.
    assert (Z.of_nat k * chunk_size < Z.of_nat (length words))%Z as Hlt.
    { subst count.
      assert (Z.of_nat k < (Z.of_nat (length words) + chunk_size - 1) `div` chunk_size)%Z
        by lia.
      pose proof (Z.div_mod (Z.of_nat (length words) + chunk_size - 1) chunk_size).
      pose proof (Z.mod_pos_bound (Z.of_nat (length words) + chunk_size - 1) chunk_size).
      nia. }
    intros Hnil. apply (f_equal length) in Hnil.
    rewrite length_take, length_drop in Hnil. cbn in Hnil. lia.
Qed.

(** X@chunk_text@: for a positive chunk size, [_chunk_text] of the
    assistant API returns exactly the chunks that [_split_text] of the
    vector store returns without overlap. *)
Theorem _chunk_text_is_split_text (text : string) (chunk_size : Z) (fuel : nat) :
  (0 < chunk_size)%Z -> (length (Py.split text) < fuel)%nat ->
  exists chunks,
    VectorStore._split_text fuel text chunk_size 0 = Some chunks /\
    Assistant._chunk_text text chunk_size = Py.Returned chunks.
Proof.
  intros Hsize Hfuel. eexists. split; [by apply _split_text_closed_form; lia|].
  unfold Assistant._chunk_text. destruct (Z.eqb_spec chunk_size 0); [lia|].
  by rewrite Z.sub_0_r.
Qed.

Lemma rag_split_loop_same (words : list string) (size overlap : Z) :
  (0 < size - overlap)%Z ->
  forall fuel i chunks, (0 <= i)%Z ->
    RagIngest.split_loop fuel words size overlap i chunks
    = VectorStore.split_loop fuel words size overlap i chunks.
Proof.
  intros Hstep. induction fuel as [|fuel IH]; intros i chunks Hi; [done|].
  cbn [RagIngest.split_loop VectorStore.split_loop].
  destruct (i <? Z.of_nat (length words))%Z; [|done].
  destruct (Z.ltb_spec (i + (size - overlap)) 0); [lia|].
  destruct (Z.leb_spec (i + (size - overlap)) 0); [lia|].
  apply IH. lia.
Qed.

(** X@split_agree@: [split_text] of [examples/rag_ingest.py] and
    [_split_text] of the vector store behave alike on every text (also in
    the number of rounds they need) whenever the chunk size differs from
    the overlap. *)
Theorem split_text_agrees (text : string) (size overlap : Z) (fuel : nat) :
  size <> overlap ->
  RagIngest.split_text fuel text size overlap
  = VectorStore._split_text fuel text size overlap.
Proof.
  intros Hne. unfold RagIngest.split_text, VectorStore._split_text.
  destruct (Z.lt_ge_cases 0 (size - overlap)) as [Hpos|Hneg].
  - by apply rag_split_loop_same.
  - destruct fuel as [|fuel]; [done|].
    cbn [RagIngest.split_loop VectorStore.split_loop].
    destruct (0 <? Z.of_nat (length (Py.split text)))%Z; [|done].
    destruct (Z.ltb_spec (0 + (size - overlap)) 0); [|lia].
    destruct (Z.leb_spec (0 + (size - overlap)) 0); [done|lia].
Qed.

Lemma rag_split_loop_stuck (words : list string) (size : Z) :
  words <> [] ->
  forall fuel chunks, RagIngest.split_loop fuel words size size 0 chunks = None.
Proof.
  intros Hw. induction fuel as [|fuel IH]; intros chunks; [done|].
  cbn [RagIngest.split_loop].
  destruct (Z.ltb_spec 0 (Z.of_nat (length words))) as [_|Hlen];
    [|destruct words; [done | cbn in Hlen; lia]].
  replace (0 + (size - size))%Z with 0%Z by lia. cbn [Z.ltb Z.compare]. apply IH.
Qed.

(** X@split_diverge@: when the chunk size equals the overlap and the text
    has a word, [split_text] of [examples/rag_ingest.py] never ends (its
    loop leaves only on [i < 0], and [i] stays 0), whereas [_split_text] of
    the vector store leaves on [i <= 0] and returns the first chunk
    alone. *)
Theorem split_text_never_ends (text : string) (size : Z) :
  Py.split text <> [] ->
  (forall fuel, RagIngest.split_text fuel text size size = None) /\
  (forall fuel, (0 < fuel)%nat ->
     VectorStore._split_text fuel text size size
     = Some [Py.join " " (Py.slice (Py.split text) 0 size)]).
Proof.
  intros Hw. split.
  - intros fuel. by apply rag_split_loop_stuck.
  - intros [|fuel] Hf; [lia|]. unfold VectorStore._split_text.
    cbn [VectorStore.split_loop].
    destruct (Z.ltb_spec 0 (Z.of_nat (length (Py.split text)))) as [_|Hlen];
      [|destruct (Py.split text); [done | cbn in Hlen; lia]].
    replace (0 + (size - size))%Z with 0%Z by lia. done.
Qed.

(** ** The searches of the retriever *)

Section SortedSublist.
Context {A : Type} (key : A -> Q).

Lemma sorted_desc_sublist (l1 l2 : list A) :
  l1 `sublist_of` l2 -> Py.sorted_desc key l2 -> Py.sorted_desc key l1.
Proof.
  induction 1 as [|x l1 l2 Hsub IH|x l1 l2 Hsub IH]; intros Hs; [done| |].
  - inversion Hs as [|? ? Hall Hs']; subst. constructor; [|by apply IH].
    eapply Forall_forall. intros y Hy. rewrite Forall_forall in Hall.
    apply Hall. by eapply elem_of_sublist.
  - inversion Hs; subst. by apply IH.
Qed.
End SortedSublist.

Lemma filter_matches_spec (keep : option (gmap string string) -> bool) (limit : Z)
    (matches : list VectorStore.RetrievalMatch) :
  Forall (fun m => is_chunk (VectorStore.chunk m) = true) matches ->
  forall kept,
    exists extra,
      Retrievers.filter_matches keep limit matches kept = Py.Returned (kept ++ extra) /\
      extra `sublist_of` matches /\
      Forall (fun m => exists c, VectorStore.chunk m = VectorStore.Chunk c /\
                 VectorStore.has_metadata (VectorStore.metadata c) = true /\
                 keep (VectorStore.metadata c) = true) extra /\
      ((Z.of_nat (length kept) < limit)%Z ->
       (Z.of_nat (length (kept ++ extra)) <= limit)%Z).
Proof.
  induction 1 as [|m ms Hm Hms IH]; intros kept.
  - exists []. rewrite app_nil_r. repeat split; [done|constructor|lia].
  - cbn [Retrievers.filter_matches].
    destruct (VectorStore.chunk m) as [c|] eqn:Hc; [|done]. cbn [VectorStore.metadata_of].
    destruct (VectorStore.has_metadata (VectorStore.metadata c)
              && keep (VectorStore.metadata c)) eqn:Hk.
    + apply andb_true_iff in Hk as [Hmeta Hkeep].
      assert (exists c0, VectorStore.chunk m = VectorStore.Chunk c0 /\
                VectorStore.has_metadata (VectorStore.metadata c0) = true /\
                keep (VectorStore.metadata c0) = true) as Hgood by eauto.
      destruct (Z.leb_spec limit (Z.of_nat (length (kept ++ [m])))) as [Hfull|Hfree].
      * exists [m]. split; [done|]. split; [apply (sublist_inserts_r ms [m] [m]); done |].
        split; [by constructor|]. rewrite length_app in *. cbn in *. lia.
      * destruct (IH (kept ++ [m])) as (extra & -> & Hsub & Hall & Hlen).
        exists (m :: extra). rewrite <- app_assoc. split; [done|].
        split; [by apply sublist_skip|]. split; [by constructor|].
        intros _. rewrite <- app_assoc in Hlen. apply Hlen. lia.
    + destruct (IH kept) as (extra & -> & Hsub & Hall & Hlen).
      exists extra. split; [done|]. split; [by apply sublist_cons|]. done.
Qed.

Lemma search_all_chunks embed_query st query limit jurisdiction :
  Forall (fun m => is_chunk (VectorStore.chunk m) = true)
         (VectorStore.search embed_query st query limit jurisdiction true).
Proof. apply Forall_forall. intros m Hm. by eapply search_chunks. Qed.

Lemma search_zero embed_query st query jurisdiction boost_difc :
  VectorStore.search embed_query st query 0%Z jurisdiction boost_difc = [].
Proof.
  pose proof (search_at_most_limit embed_query st query 0%Z jurisdiction boost_difc).
  destruct (VectorStore.search _ _ _ _ _ _); [done|]. cbn in *. lia.
Qed.

Lemma filtered_search (embed_query : string -> Py.outcome (list Q))
    (st : VectorStore.Store) (query : string) (limit : Z)
    (jurisdiction : option Models.JurisdictionType)
    (keep : option (gmap string string) -> bool) :
  exists results,
    Retrievers.filter_matches keep limit
      (VectorStore.search embed_query st query (limit * 2) jurisdiction true) []
    = Py.Returned results /\
    results `sublist_of`
      VectorStore.search embed_query st query (limit * 2) jurisdiction true /\
    Forall (fun m => exists c, VectorStore.chunk m = VectorStore.Chunk c /\
               VectorStore.has_metadata (VectorStore.metadata c) = true /\
               keep (VectorStore.metadata c) = true) results /\
    Py.sorted_desc VectorStore.score results /\
    ((0 <= limit)%Z -> (Z.of_nat (length results) <= limit)%Z).
Proof.
  destruct (filter_matches_spec keep limit _
              (search_all_chunks embed_query st query (limit * 2) jurisdiction) [])
    as (results & Hrun & Hsub & Hall & Hlen).
  exists results. cbn [app] in *. split; [done|]. split; [done|]. split; [done|].
  split; [by eapply sorted_desc_sublist, search_sorted|].
  intros Hl. destruct (Z.eq_dec limit 0%Z) as [->|Hne].
  - cbn [Z.mul] in Hsub. rewrite search_zero in Hsub.
    apply sublist_nil_r in Hsub as ->. done.
  - apply Hlen. cbn. lia.
Qed.

(** X@vault@: [search_vault_project] never fails on a plain dict: it
    returns matches of the boosted search, in their order (so by descending
    score), each a [DocumentChunk] whose metadata gives the requested
    [project_id], and at most [limit] of them when [limit] is not
    negative. *)
Theorem search_vault_project_filters
    (embed_query : string -> Py.outcome (list Q)) (self : Retrievers.DIFCRetriever)
    (query project_id : string) (limit : Z) :
  exists results,
    Retrievers.search_vault_project embed_query self query project_id limit
    = Py.Returned results /\
    Forall (fun m => tagged "project_id" project_id (VectorStore.chunk m) = true) results /\
    results `sublist_of`
      VectorStore.search embed_query (Retrievers.vector_store self) query (limit * 2)
        None true /\
    Py.sorted_desc VectorStore.score results /\
    ((0 <= limit)%Z -> (Z.of_nat (length results) <= limit)%Z).
Proof.
  unfold Retrievers.search_vault_project.
  destruct (filtered_search embed_query (Retrievers.vector_store self) query limit None
              (fun metadata =>
                 bool_decide (VectorStore.metadata_get metadata "project_id"
                              = Some project_id)))
    as (results & -> & Hsub & Hall & Hsorted & Hlen).
  exists results. split; [done|]. split; [|done].
  eapply Forall_impl; [exact Hall|]. intros m (c & -> & Hm & Hk). cbn. by rewrite Hm, Hk.
Qed.

Lemma search_by_instrument_type_spec
    (embed_query : string -> Py.outcome (list Q)) (self : Retrievers.DIFCRetriever)
    (query : string) (instrument_type : Models.InstrumentType)
    (jurisdiction : option Models.JurisdictionType) (limit : Z) :
  exists results,
    Retrievers.search_by_instrument_type embed_query self query instrument_type
      jurisdiction limit = Py.Returned results /\
    Forall (fun m =>
              tagged "instrument_type" (Models.instrument_value instrument_type)
                     (VectorStore.chunk m) = true) results /\
    ((0 <= limit)%Z -> (Z.of_nat (length results) <= limit)%Z).
Proof.
  unfold Retrievers.search_by_instrument_type.
  destruct (filtered_search embed_query (Retrievers.vector_store self) query limit
              jurisdiction
              (fun metadata =>
                 bool_decide (VectorStore.metadata_get metadata "instrument_type"
                              = Some (Models.instrument_value instrument_type))))
    as (results & -> & Hsub & Hall & Hsorted & Hlen).
  exists results. split; [done|]. split; [|done].
  eapply Forall_impl; [exact Hall|]. intros m (c & -> & Hm & Hk). cbn. by rewrite Hm, Hk.
Qed.

Lemma matches_of_types_spec
    (embed_query : string -> Py.outcome (list Q)) (self : Retrievers.DIFCRetriever)
    (query : string) (per_type : Z) (instrument_types : list Models.InstrumentType) :
  forall all_matches,
    exists extra,
      Retrievers.matches_of_types embed_query self query instrument_types per_type
        all_matches = Py.Returned (all_matches ++ extra) /\
      Forall (fun m =>
                exists t, t ∈ instrument_types /\
                  tagged "instrument_type" (Models.instrument_value t)
                         (VectorStore.chunk m) = true) extra.
Proof.
  induction instrument_types as [|t ts IH]; intros all_matches.
  - exists []. by rewrite app_nil_r.
  - cbn [Retrievers.matches_of_types].
    destruct (search_by_instrument_type_spec embed_query self query t None per_type)
      as (matches & -> & Hall & _).
    destruct (IH (all_matches ++ matches)) as (extra & -> & Hextra).
    exists (matches ++ extra). rewrite app_assoc. split; [done|].
    apply Forall_app. split.
    + eapply Forall_impl; [exact Hall|]. intros m Hm. exists t.
      split; [apply list_elem_of_here | done].
    + eapply Forall_impl; [exact Hextra|]. intros m (t' & Ht' & Hm). exists t'.
      split; [by apply list_elem_of_further | done].
Qed.

(** X@legal_instruments@: [search_legal_instruments] always returns: every
    match is a [DocumentChunk] whose metadata gives the value of one of the
    requested instrument types (so the list is empty when no type is
    requested), the matches are sorted by descending score, and there are
    at most [limit] of them when [limit] is not negative. *)
Theorem search_legal_instruments_spec
    (embed_query : string -> Py.outcome (list Q)) (self : Retrievers.DIFCRetriever)
    (query : string) (instrument_types : list Models.InstrumentType) (limit : Z) :
  exists results,
    Retrievers.search_legal_instruments embed_query self query instrument_types limit
    = Py.Returned results /\
    Forall (fun m =>
              exists t, t ∈ instrument_types /\
                tagged "instrument_type" (Models.instrument_value t)
                       (VectorStore.chunk m) = true) results /\
    Py.sorted_desc VectorStore.score results /\
    ((0 <= limit)%Z -> (Z.of_nat (length results) <= limit)%Z).
Proof.
  unfold Retrievers.search_legal_instruments.
  destruct (matches_of_types_spec embed_query self query
              (limit `div` Z.of_nat (length instrument_types) + 1) instrument_types [])
    as (all_matches & -> & Hall).
  cbn [app]. eexists. split; [done|]. split; [|split].
  - apply Forall_forall. intros m Hm%elem_of_slice_to. rewrite sort_desc_perm in Hm.
    rewrite Forall_forall in Hall. by apply Hall.
  - apply sorted_desc_slice_to, sort_desc_sorted.
  - apply length_slice_to.
Qed.

(** ** Citations of [retrieve_with_citations] *)

Lemma omap_const {A B} (f : A -> option B) (l : list A) (v : option B) :
  (forall x, x ∈ l -> f x = v) ->
  omap f l = match v with Some b => replicate (length l) b | None => [] end.
Proof.
  induction l as [|x l IH]; intros Hf; [by destruct v|].
  cbn [omap list_omap]. rewrite (Hf x) by apply list_elem_of_here.
  rewrite IH by (intros y Hy; apply Hf; by apply list_elem_of_further).
  by destruct v.
Qed.

Lemma verified_citations_replicate (self : Retrievers.DIFCRetriever) (query : string)
    (candidates : list Citations.CitationCandidate) :
  exists n cit,
    Retrievers.verified_citations self query candidates = replicate n cit /\
    (n = 0 \/ n = length candidates)%nat /\
    (n <> 0%nat ->
     exists best,
       Citations.best_candidate
         (Citations.verify_citation query candidates
            (Citations.threshold (Retrievers.citation_verifier self))
            Citations.default_jurisdiction_boost) = Some best /\
       cit = Citations.citation_of best).
Proof.
  unfold Retrievers.verified_citations.
  set (r := Citations.verify_citation query candidates
              (Citations.threshold (Retrievers.citation_verifier self))
              Citations.default_jurisdiction_boost).
  set (placeholder := Citations.citation_of (Samples.employment_law Models.DIFC)).
  destruct (Py.empty candidates);
    [exists 0%nat, placeholder; split; [done|]; split; [by left|done]|].
  rewrite (omap_const _ _
             (if Citations.passed r then Citations.create_verified_citation query r
              else None)).
  - unfold Citations.verify_batch, Citations.batch_verify_citations.
    rewrite length_zip, length_fmap, length_replicate, Nat.min_id.
    destruct (Citations.passed r) eqn:Hp;
      [|exists 0%nat, placeholder; split; [done|]; split; [by left|done]].
    destruct (Citations.create_verified_citation query r) as [cit|] eqn:Hc;
      [|exists 0%nat, placeholder; split; [done|]; split; [by left|done]].
    exists (length candidates), cit. split; [done|]. split; [by right|]. intros _.
    apply create_verified_citation_Some in Hc as (_ & b & Hb & ->). by exists b.
  - intros [c r'] Hin. apply elem_of_zip_r in Hin. cbn in Hin.
    unfold Citations.verify_batch, Citations.batch_verify_citations in Hin.
    apply list_elem_of_fmap in Hin as (q & -> & Hq).
    apply elem_of_replicate in Hq as [-> _]. done.
Qed.

Lemma candidates_of_length (matches : list VectorStore.RetrievalMatch)
    (candidates : list Citations.CitationCandidate) :
  Retrievers.candidates_of matches = Py.Returned candidates ->
  (length candidates <= length matches)%nat.
Proof.
  revert candidates. induction matches as [|m ms IH]; intros candidates.
  - by intros [= <-].
  - cbn [Retrievers.candidates_of].
    destruct (Retrievers.candidate_of m) as [c|]; [|done].
    destruct (Retrievers.candidates_of ms) as [cs|]; [|done].
    intros [= <-]. specialize (IH cs eq_refl). destruct c; cbn; lia.
Qed.

(** X@repeats@: whenever [retrieve_with_citations] returns, its citations
    are copies of one citation: every candidate is paired with the result
    of verifying the query against the whole candidate list, so the list
    holds the best candidate's citation once per candidate, or nothing;
    and there are never more citations than matches. *)
Theorem retrieve_with_citations_repeats
    (embed_query : string -> Py.outcome (list Q)) (self : Retrievers.DIFCRetriever)
    (context : Retrievers.RetrievalContext)
    (matches : list VectorStore.RetrievalMatch) (citations : list Models.Citation) :
  Retrievers.retrieve_with_citations embed_query self context
    = Py.Returned (matches, citations) ->
  exists n cit,
    citations = replicate n cit /\ (n <= length matches)%nat.
Proof.
  unfold Retrievers.retrieve_with_citations.
  set (found := if Retrievers.hybrid_search context then _ else _).
  destruct found as [ms|]; [|done].
  destruct (Retrievers.include_citations context && negb (Py.empty ms)).
  - destruct (Retrievers.candidates_of ms) as [candidates|] eqn:Hc; [|done].
    intros [= <- <-].
    destruct (verified_citations_replicate self (Retrievers.query context) candidates)
      as (n & cit & -> & Hn & _).
    exists n, cit. split; [done|]. apply candidates_of_length in Hc. lia.
  - intros [= <- <-]. exists 0%nat, (Citations.citation_of (Samples.employment_law Models.DIFC)).
    split; [done|]. lia.
Qed.

Lemma candidates_of_raises (matches : list VectorStore.RetrievalMatch)
    (m : VectorStore.RetrievalMatch) :
  m ∈ matches -> (exists e, Retrievers.candidate_of m = Py.Raised e) ->
  exists e, Retrievers.candidates_of matches = Py.Raised e.
Proof.
  intros Hin [e He]. induction matches as [|m0 ms IH]; [by apply elem_of_nil in Hin|].
  cbn [Retrievers.candidates_of].
  apply elem_of_cons in Hin as [<- | Hin].
  - rewrite He. eauto.
  - destruct (Retrievers.candidate_of m0); [|eauto].
    destruct (IH Hin) as [e' ->]. eauto.
Qed.

(** X@instrument_key@: a match whose chunk has metadata without the key
    ["instrument_type"] cannot become a candidate: the default ["OTHER"] is
    not a value of [InstrumentType] (whose last member has the value
    ["Other"]), so the constructor raises, and [retrieve_with_citations]
    with hybrid search and citations raises instead of returning. *)
Theorem retrieve_with_citations_needs_instrument_type
    (embed_query : string -> Py.outcome (list Q)) (self : Retrievers.DIFCRetriever)
    (context : Retrievers.RetrievalContext)
    (matches : list VectorStore.RetrievalMatch)
    (m : VectorStore.RetrievalMatch) (c : VectorStore.DocumentChunk) :
  Retrievers.hybrid_search context = true ->
  Retrievers.include_citations context = true ->
  VectorStore.hybrid_search embed_query (Retrievers.vector_store self)
    (Retrievers.query context) (Retrievers.max_results context)
    VectorStore.default_vector_weight VectorStore.default_keyword_weight
    = Some matches ->
  m ∈ matches -> VectorStore.chunk m = VectorStore.Chunk c ->
  VectorStore.has_metadata (VectorStore.metadata c) = true ->
  VectorStore.metadata_get (VectorStore.metadata c) "instrument_type" = None ->
  Retrievers.candidate_of m
    = Py.Raised
        (match Models.jurisdiction_of_value
               (default "OTHER"
                  (VectorStore.metadata_get (VectorStore.metadata c) "jurisdiction"))
         with
         | Some _ => "'OTHER' is not a valid InstrumentType"
         | None =>
             "'" +:+ default "OTHER"
                       (VectorStore.metadata_get (VectorStore.metadata c) "jurisdiction")
             +:+ "' is not a valid JurisdictionType"
         end) /\
  exists e, Retrievers.retrieve_with_citations embed_query self context = Py.Raised e.
Proof.
  intros Hh Hi Hs Hin Hc Hm Ht.
  assert (Retrievers.candidate_of m
          = Py.Raised
              (match Models.jurisdiction_of_value
                     (default "OTHER"
                        (VectorStore.metadata_get (VectorStore.metadata c) "jurisdiction"))
               with
               | Some _ => "'OTHER' is not a valid InstrumentType"
               | None =>
                   "'" +:+ default "OTHER"
                             (VectorStore.metadata_get (VectorStore.metadata c)
                                                       "jurisdiction")
                   +:+ "' is not a valid JurisdictionType"
               end)) as Hcand.
  { unfold Retrievers.candidate_of. rewrite Hc, Hm, Ht. cbn [default].
    by destruct (Models.jurisdiction_of_value _). }
  split; [done|].
  unfold Retrievers.retrieve_with_citations. rewrite Hh, Hs, Hi.
  destruct matches as [|m0 ms]; [by apply elem_of_nil in Hin|]. cbn [Py.empty negb andb].
  destruct (candidates_of_raises (m0 :: ms) m Hin) as [e ->]; eauto.
Qed.

(** ** The stages of the workflow *)

Lemma thinking_emit (w : Nodes.Collaborators) (s : Nodes.WorkflowState) (label : string) :
  Nodes.thinking (Nodes.emit w s label)
  = Some (default [] (Nodes.thinking s)
          ++ ["[" +:+ Nodes.clock w (length (default [] (Nodes.thinking s))) +:+ "] "
              +:+ label]).
Proof. done. Qed.

Ltac split_node H :=
  repeat match type of H with
         | context [match ?x with _ => _ end] =>
             let E := fresh "E" in destruct x eqn:E
         | context [if ?x then _ else _] =>
             let E := fresh "E" in destruct x eqn:E
         end.

Ltac close_labels :=
  cbn; rewrite <- ?app_assoc; cbn;
  first [ eexists [_]; split; [done | reflexivity]
        | eexists [_; _]; split; [done | reflexivity]
        | eexists [_; _; _]; split; [done | reflexivity] ].

(** X@labels@: every stage that returns has appended at least one label
    to the trace and has left the labels that were there untouched, in
    their order. *)
Theorem every_stage_appends_labels (w : Nodes.Collaborators)
    (node : Nodes.WorkflowState -> Py.outcome Nodes.WorkflowState)
    (s s' : Nodes.WorkflowState) :
  stage w node -> node s = Py.Returned s' ->
  exists labels,
    labels <> [] /\
    Nodes.thinking s' = Some (default [] (Nodes.thinking s) ++ labels).
Proof.
  intros [-> | [-> | [-> | [-> | [-> | [-> | ->]]]]]] Hrun.
  - unfold Nodes.preflight in Hrun. split_node Hrun; try done;
      injection Hrun as <-; close_labels.
  - unfold Nodes.plan in Hrun. split_node Hrun; try done;
      injection Hrun as <-; close_labels.
  - unfold Nodes.retrieve in Hrun. split_node Hrun; try done;
      injection Hrun as <-; close_labels.
  - unfold Nodes.draft in Hrun. split_node Hrun; try done;
      injection Hrun as <-; close_labels.
  - unfold Nodes.verify_citations in Hrun. split_node Hrun; try done;
      injection Hrun as <-; close_labels.
  - unfold Nodes.human_review in Hrun. split_node Hrun; try done;
      injection Hrun as <-; close_labels.
  - unfold Nodes.export in Hrun. split_node Hrun; try done;
      injection Hrun as <-; close_labels.
Qed.

Ltac close_failed H :=
  first [ done
        | injection H as <-; first [ by repeat split
                                   | exfalso; unfold Nodes.has_error in *; cbn in *; congruence ] ].

(** X@failed_stage@: when [plan], [retrieve], [draft], [verify_citations]
    or [export] returns a state with the error set, it has written none of
    the output keys: plan, retrieved context, citations, draft,
    verification result and flag, review package and export data are as
    they were. *)
Theorem failed_stage_writes_nothing (w : Nodes.Collaborators)
    (node : Nodes.WorkflowState -> Py.outcome Nodes.WorkflowState)
    (s s' : Nodes.WorkflowState) :
  worker w node -> node s = Py.Returned s' -> Nodes.has_error s' = true ->
  same_outputs s s'.
Proof.
  unfold same_outputs.
  intros [-> | [-> | [-> | [-> | ->]]]] Hrun Herr.
  - unfold Nodes.plan in Hrun. split_node Hrun; close_failed Hrun.
  - unfold Nodes.retrieve in Hrun. split_node Hrun; close_failed Hrun.
  - unfold Nodes.draft in Hrun. split_node Hrun; close_failed Hrun.
  - unfold Nodes.verify_citations in Hrun. split_node Hrun; close_failed Hrun.
  - unfold Nodes.export in Hrun. split_node Hrun; close_failed Hrun.
Qed.

Lemma truthy_or_empty (o : option string) :
  Citations.truthy_opt o = true -> Citations.or_empty o <> EmptyString.
Proof. destruct o as [[|??]|]; done. Qed.

Ltac no_error H :=
  exfalso; unfold Nodes.has_error in *; cbn in *;
  first [ congruence | vm_compute in H; discriminate ].

(** X@successful_stage@: a stage that returns a state without error has
    written its output: [preflight] has checked the prompt and filled in
    the defaults of jurisdiction (DIFC) and citations (none); [plan] has
    stored a plan that is not empty; [retrieve] the context and the
    citations; [draft] a text that is not empty followed by a blank line
    and the disclaimer for the prompt; [verify_citations] a result that is
    not empty and the flag that tells whether it mentions "approved" or
    "verified" in any case; [export] the export data with the draft and
    the citations of the state. *)
Theorem successful_stage_writes_output (w : Nodes.Collaborators)
    (s s' : Nodes.WorkflowState) :
  Nodes.has_error s' = false ->
  (Nodes.preflight w s = Py.Returned s' ->
     Citations.truthy_opt (Nodes.prompt s') = true /\
     Nodes.prompt s' = Nodes.prompt s /\
     Nodes.jurisdiction s' = Some (default Models.DIFC (Nodes.jurisdiction s)) /\
     Nodes.citations s' = Some (default [] (Nodes.citations s))) /\
  (Nodes.plan w s = Py.Returned s' ->
     exists content, content <> EmptyString /\ Nodes.plan_text s' = Some content) /\
  (Nodes.retrieve w s = Py.Returned s' ->
     exists docs cits,
       Nodes.retrieved_context s' = Some docs /\ Nodes.citations s' = Some cits) /\
  (Nodes.draft w s = Py.Returned s' ->
     exists content topic,
       content <> EmptyString /\ Nodes.prompt s = Some topic /\
       Nodes.draft_text s'
       = Some (content +:+ "\n\n" +:+ Nodes.get_disclaimer_for_topic w topic)) /\
  (Nodes.verify_citations w s = Py.Returned s' ->
     exists result,
       result <> EmptyString /\ Nodes.verification_result s' = Some result /\
       Nodes.verification_passed s'
       = Some (Nodes.contains "approved" (Py.lower result)
               || Nodes.contains "verified" (Py.lower result))) /\
  (Nodes.export w s = Py.Returned s' ->
     exists data,
       Nodes.export_data s' = Some data /\
       Nodes.ex_content data = default "" (Nodes.draft_text s) /\
       Nodes.ex_citations data = default [] (Nodes.citations s)).
Proof.
  intros Hok. split; [|split; [|split; [|split; [|split]]]]; intros Hrun.
  - unfold Nodes.preflight in Hrun; split_node Hrun; try done;
      injection Hrun as <-;
      try (no_error Hok).
    all: cbn in *;
      repeat match goal with
             | H : Nodes.jurisdiction _ = _ |- _ => rewrite H; clear H
             | H : Nodes.citations _ = _ |- _ => rewrite H; clear H
             end;
      split; [by apply negb_false_iff|done].
  - unfold Nodes.plan in Hrun; split_node Hrun; try done; injection Hrun as <-;
      try (no_error Hok).
    eexists. split; [|reflexivity].
    apply truthy_or_empty. by apply negb_false_iff.
  - unfold Nodes.retrieve in Hrun; split_node Hrun; try done; injection Hrun as <-;
      try (no_error Hok).
    by eexists _, _.
  - unfold Nodes.draft in Hrun; split_node Hrun; try done; injection Hrun as <-;
      try (no_error Hok).
    all: eexists _, _; split; [|split; [|reflexivity]];
      [apply truthy_or_empty; by apply negb_false_iff | done].
  - unfold Nodes.verify_citations in Hrun; split_node Hrun; try done;
      injection Hrun as <-;
      try (no_error Hok).
    all: eexists; split; [|split; [reflexivity|]];
      [apply truthy_or_empty; by apply negb_false_iff | cbn; by f_equal].
  - unfold Nodes.export in Hrun; split_node Hrun; try done; injection Hrun as <-;
      try (no_error Hok).
    eexists. split; [reflexivity|]. done.
Qed.

(** ** The run and its event stream *)

Lemma events_of_update_shape (node_name : string) (node_output : Nodes.WorkflowState) :
  exists before,
    Forall (fun e => terminal e = false) before /\
    Graph.events_of_update node_name node_output
    = (if Nodes.has_error node_output
       then before ++ [Graph.error node_name
                         (Citations.or_empty (Nodes.error node_output))]
       else before,
       Nodes.has_error node_output).
Proof.
  unfold Graph.events_of_update.
  set (t := match last _ with Some label => _ | None => [] end).
  set (d := match Nodes.draft_text node_output with Some text => _ | None => [] end).
  set (c := Graph.citation <$> _).
  exists (t ++ d ++ c). split.
  - rewrite !Forall_app. split; [|split].
    + subst t. destruct (last _); by repeat constructor.
    + subst d. destruct (Nodes.draft_text node_output); [|constructor].
      destruct (String.eqb node_name "draft"); by repeat constructor.
    + subst c. by apply Forall_fmap, Forall_true.
  - destruct (Nodes.has_error node_output); [by rewrite !app_assoc|].
    by rewrite !app_nil_r.
Qed.

Lemma stream_updates_shape (updates : list (string * Nodes.WorkflowState))
    (final : Graph.ending) :
  exists before last,
    Graph.stream_updates updates final = before ++ [last] /\
    Forall (fun e => terminal e = false) before /\ terminal last = true.
Proof.
  induction updates as [|[name out] rest IH].
  - destruct final; by eexists [], _.
  - cbn [Graph.stream_updates].
    destruct (events_of_update_shape name out) as (pre & Hpre & ->).
    destruct (Nodes.has_error out).
    + by eexists pre, _.
    + destruct IH as (before & last & -> & Hb & Hl).
      exists (pre ++ before), last. rewrite app_assoc. split; [done|].
      split; [by apply Forall_app|done].
Qed.

(** X@terminal@: the events of [stream_run] always end with exactly one
    terminal event: the last event is an [error] or [done] event, and no
    event before it is one. *)
Theorem stream_run_ends_with_terminal_event (w : Nodes.Collaborators) (prompt : string)
    (jurisdiction : Models.JurisdictionType) (template_doc_id : option string)
    (reference_doc_ids : option (list string)) (model_override : option string) :
  exists before last,
    Graph.stream_run w prompt jurisdiction template_doc_id reference_doc_ids
      model_override = before ++ [last] /\
    Forall (fun e => terminal e = false) before /\ terminal last = true.
Proof. apply stream_updates_shape. Qed.

Lemma run_from_verify (w : Nodes.Collaborators) (limit : nat) (s : Nodes.WorkflowState) :
  (3 <= limit)%nat ->
  run_from 4 (Graph.execute (Graph._build_graph w) limit "verify_citations" s).
Proof.
  intros Hl. do 3 (destruct limit as [|limit]; [lia|]). clear Hl.
  unfold run_from.
  rewrite execute_unfold by reflexivity. cbn -[Graph.execute].
  destruct (Nodes.verify_citations w s) as [s1|]; [|split; [apply prefix_nil|done]].
  rewrite execute_unfold by reflexivity. cbn -[Graph.execute].
  destruct (Nodes.human_review w s1) as [s2|];
    [|split; [by apply prefix_cons, prefix_nil|done]].
  rewrite execute_unfold by reflexivity. cbn -[Graph.execute].
  destruct (Nodes.export w s2) as [s3|];
    [|split; [by do 2 apply prefix_cons; apply prefix_nil|done]].
  rewrite execute_END. cbn. done.
Qed.

Lemma run_from_guarded (w : Nodes.Collaborators) (limit : nat) (k : nat)
    (name next : string)
    (node : Nodes.WorkflowState -> Py.outcome Nodes.WorkflowState) :
  String.eqb name Graph.END = false ->
  Py.dict_get (Graph.nodes (Graph._build_graph w)) name = Some node ->
  (forall s, Graph.successor (Graph._build_graph w) name s
             = Some (if Nodes.has_error s then Graph.END else next)) ->
  (exists names, drop k stage_names = name :: names /\ drop (S k) stage_names = names) ->
  (forall s, run_from (S k) (Graph.execute (Graph._build_graph w) limit next s)) ->
  forall s, run_from k (Graph.execute (Graph._build_graph w) (S limit) name s).
Proof.
  intros Hname Hnode Hsucc (names & Hk & Hk') IH s. unfold run_from in *.
  rewrite execute_unfold by done. rewrite Hnode, Hk.
  destruct (node s) as [s'|e]; [|split; [apply prefix_nil|done]].
  rewrite Hsucc. cbn zeta.
  destruct (Nodes.has_error s') eqn:Herr.
  - rewrite execute_END. cbn. split; [apply prefix_cons, prefix_nil|].
    intros _ Hall. inversion Hall; subst. cbn in *. congruence.
  - destruct (IH s') as [Hp Hc]. rewrite Hk' in *. cbn. split; [by apply prefix_cons|].
    intros Hf Hall. inversion Hall; subst. f_equal. by apply Hc.
Qed.

Lemma astream_run_from (w : Nodes.Collaborators) (s0 : Nodes.WorkflowState) :
  run_from 0 (Graph.astream (Graph._build_graph w) s0).
Proof.
  unfold Graph.astream, Graph.recursion_limit.
  change (Graph.entry_point (Graph._build_graph w)) with "preflight".
  revert s0.
  eapply run_from_guarded;
    [reflexivity | reflexivity | intros s; apply successor_guard | by eexists |].
  eapply run_from_guarded;
    [reflexivity | reflexivity | intros s; apply successor_guard | by eexists |].
  eapply run_from_guarded;
    [reflexivity | reflexivity | intros s; apply successor_guard | by eexists |].
  eapply run_from_guarded;
    [reflexivity | reflexivity | intros s; apply successor_guard | by eexists |].
  intros s. apply run_from_verify. lia.
Qed.

(** X@order@: in every run the stages that execute are an initial part of
    preflight, plan, retrieve, draft, verify_citations, human_review,
    export, in this order (no stage runs twice or out of turn); and a run
    that ends without a fault and in which no stage returns a state with
    the error set goes through all seven. *)
Theorem stages_run_in_order (w : Nodes.Collaborators) (s0 : Nodes.WorkflowState) :
  let ex := Graph.astream (Graph._build_graph w) s0 in
  (Graph.steps ex).*1 `prefix_of` stage_names /\
  (Graph.final ex = Graph.Completed ->
   Forall (fun step => Nodes.has_error step.2 = false) (Graph.steps ex) ->
   (Graph.steps ex).*1 = stage_names).
Proof. apply astream_run_from. Qed.
